(** * Restaurant reservation backend: a shallow embedding of the route handlers

    The development follows the backend sources:
    - [config/database.js]: the connection pool, [initDatabase], the in-memory
      fallback catalogue and [inMemoryQueries];
    - [routes/restaurants.js]: the catalogue endpoints, and after them the
      reservation routes that [server.js] mounts as [routes/reservations]:
      create, list, get, update and cancel;
    - [routes/auth.js]: login and registration;
    - the client: the edit form of the profile screen and the restaurant
      list.

    Handlers are functions from a request and the server state to a response
    and the next server state.  An exception thrown inside a handler is caught
    by the handler's own [try]/[catch] and becomes a 500 response, as in the
    source.  The SQL statements are modelled by list operations on the rows of
    the three tables.

    Conventions of the embedding:
    - a JSON number is an integer, and strings are strings of 8-bit
      characters;
    - in the reservation routes [req.params.id] and [req.user.id] are the
      integers MySQL compares the key columns with; in the catalogue
      [req.params.id] is the string of the URL; [page] and [limit] are the
      integers [parseInt] yields;
    - a rating, [DECIMAL(2,1)], is its number of tenths;
    - [ORDER BY] is a stable sort of the table in insertion order;
    - the functions of validator.js, bcryptjs, jsonwebtoken, the JavaScript
      engine's date parser and collation, and MySQL's [LIKE], collation
      and comparison of a number with a string are the fields of the class
      [Platform]. *)

From Stdlib Require Import ZArith List String Ascii Bool Lia.
From Stdlib Require Import Sorting.Sorted Sorting.Permutation.
From Stdlib Require Import DecimalString DecimalPos OrderedTypeEx.
Import ListNotations.
Local Open Scope string_scope.
Local Open Scope Z_scope.

(* ===================================================================== *)
(** ** JavaScript values and the built-ins the handlers use              *)
(* ===================================================================== *)

(** A field of a JSON request body.  Numbers are the integers; arrays and
    objects are not represented. *)
Inductive JsVal : Type :=
| JUndefined
| JNull
| JBool (b : bool)
| JNum (n : Z)
| JStr (s : string).

(** [if (v)]: JavaScript truthiness. *)
Definition truthy (v : JsVal) : bool :=
  match v with
  | JUndefined => false
  | JNull => false
  | JBool b => b
  | JNum n => negb (n =? 0)%Z
  | JStr s => negb (s =? "")%string
  end.

(** [v !== undefined] *)
Definition is_defined (v : JsVal) : bool :=
  match v with
  | JUndefined => false
  | _ => true
  end.

(** [v || null] *)
Definition or_null (v : JsVal) : JsVal :=
  if truthy v then v else JNull.

Definition string_of_Z (n : Z) : string :=
  NilZero.string_of_int (Z.to_int n).

(** The string a validator sees for a field (express-validator turns the
    field into a string before it runs a check; [null] and [undefined]
    become the empty string). *)
Definition toString (v : JsVal) : string :=
  match v with
  | JUndefined => ""
  | JNull => ""
  | JBool true => "true"
  | JBool false => "false"
  | JNum n => string_of_Z n
  | JStr s => s
  end.

Definition is_digit (c : ascii) : bool :=
  let n := nat_of_ascii c in (48 <=? n)%nat && (n <=? 57)%nat.

Definition digit_val (c : ascii) : Z :=
  Z.of_nat (nat_of_ascii c) - 48.

Fixpoint all_digits (s : string) : bool :=
  match s with
  | EmptyString => true
  | String c s' => is_digit c && all_digits s'
  end.

Fixpoint digits_val (acc : Z) (s : string) : Z :=
  match s with
  | EmptyString => acc
  | String c s' => digits_val (10 * acc + digit_val c) s'
  end.

(** A non-empty run of decimal digits. *)
Definition unsigned_int (s : string) : option Z :=
  match s with
  | EmptyString => None
  | String _ _ => if all_digits s then Some (digits_val 0 s) else None
  end.

(** The numerals validator.js accepts as integers by default, and their
    value: an optional sign in front of decimal digits. *)
Definition parse_int (s : string) : option Z :=
  match s with
  | String "-" rest => option_map Z.opp (unsigned_int rest)
  | String "+" rest => unsigned_int rest
  | _ => unsigned_int s
  end.

(** The white space of [\s] among the ASCII characters. *)
Definition is_space (c : ascii) : bool :=
  let n := nat_of_ascii c in
  ((9 <=? n)%nat && (n <=? 13)%nat) || (n =? 32)%nat.

Fixpoint trim_left (s : string) : string :=
  match s with
  | EmptyString => EmptyString
  | String c s' => if is_space c then trim_left s' else s
  end.

(** The value of a hexadecimal digit. *)
Definition hex_val (c : ascii) : option Z :=
  let n := nat_of_ascii c in
  if (48 <=? n)%nat && (n <=? 57)%nat then Some (Z.of_nat n - 48)
  else if (65 <=? n)%nat && (n <=? 70)%nat then Some (Z.of_nat n - 55)
  else if (97 <=? n)%nat && (n <=? 102)%nat then Some (Z.of_nat n - 87)
  else None.

Definition dec_val (c : ascii) : option Z :=
  if is_digit c then Some (digit_val c) else None.

(** The value of the longest prefix of digits after [acc], in base [base]. *)
Fixpoint prefix_val (val : ascii -> option Z) (base acc : Z) (s : string)
  : Z :=
  match s with
  | EmptyString => acc
  | String c s' =>
      match val c with
      | Some v => prefix_val val base (base * acc + v) s'
      | None => acc
      end
  end.

(** The digits of [parseInt]: [None] is [NaN]. *)
Definition parse_digits (val : ascii -> option Z) (base : Z) (s : string)
  : option Z :=
  match s with
  | EmptyString => None
  | String c _ =>
      match val c with
      | Some _ => Some (prefix_val val base 0 s)
      | None => None
      end
  end.

(** After the sign: a [0x] prefix selects base sixteen. *)
Definition parse_unsigned (s : string) : option Z :=
  match s with
  | String "0" (String "x" rest) => parse_digits hex_val 16 rest
  | String "0" (String "X" rest) => parse_digits hex_val 16 rest
  | _ => parse_digits dec_val 10 s
  end.

(** [parseInt(s)] without a radix: leading white space, a sign, then the
    longest run of digits; [None] is [NaN].  The value is exact, as that of
    JavaScript is below 2^53. *)
Definition parseInt (s : string) : option Z :=
  match trim_left s with
  | String "-" rest => option_map Z.opp (parse_unsigned rest)
  | String "+" rest => parse_unsigned rest
  | t => parse_unsigned t
  end.

(** [String.prototype.toLowerCase] on ASCII letters. *)
Definition lower_ascii (c : ascii) : ascii :=
  let n := nat_of_ascii c in
  if (65 <=? n)%nat && (n <=? 90)%nat then ascii_of_nat (n + 32) else c.

Fixpoint toLowerCase (s : string) : string :=
  match s with
  | EmptyString => EmptyString
  | String c s' => String (lower_ascii c) (toLowerCase s')
  end.

(** [String.prototype.includes]: [t] occurs in [s]. *)
Fixpoint includes (s t : string) : bool :=
  prefix t s ||
  match s with
  | EmptyString => false
  | String _ s' => includes s' t
  end.

(** [Array.prototype.slice(start, end)] with integer arguments. *)
Definition slice {A : Type} (l : list A) (start stop : Z) : list A :=
  let len := Z.of_nat (List.length l) in
  let k := if (start <? 0)%Z then Z.max (len + start) 0 else Z.min start len in
  let final := if (stop <? 0)%Z then Z.max (len + stop) 0 else Z.min stop len in
  let count := Z.max (final - k) 0 in
  firstn (Z.to_nat count) (skipn (Z.to_nat k) l).

(** [Math.ceil(a / b)] on integers; [None] stands for the non-finite results
    of a division by zero, which JSON serialises as [null]. *)
Definition Math_ceil_div (a b : Z) : option Z :=
  if (b =? 0)%Z then None else Some (- ((- a) / b)).

(** A stable sort by insertion; [Array.prototype.sort] with a consistent
    comparator and SQL's [ORDER BY] are modelled by it.  [cmp a b] is the
    comparator's result: negative when [a] goes first.  An element is
    inserted in front of the elements it ties with, so equal elements keep
    their order. *)
Fixpoint insert_by {A : Type} (cmp : A -> A -> Z) (x : A) (l : list A) : list A :=
  match l with
  | [] => [x]
  | y :: l' => if (cmp x y <=? 0)%Z then x :: l else y :: insert_by cmp x l'
  end.

Fixpoint sort_by {A : Type} (cmp : A -> A -> Z) (l : list A) : list A :=
  match l with
  | [] => []
  | x :: l' => insert_by cmp x (sort_by cmp l')
  end.

(* ===================================================================== *)
(** ** Dates                                                             *)
(* ===================================================================== *)

(** A [Date] is its time value: milliseconds since the epoch, UTC.  [None]
    is the invalid date, whose time value is [NaN]. *)
Definition msPerDay : Z := 86400000.
Definition msPerMinute : Z := 60000.

(** The clock of the server process: the current time value and the value
    of [getTimezoneOffset()], minutes to add to local time to get UTC (300
    for a server five hours west of Greenwich, -120 for one two hours east). *)
Record Env : Type := {
  now : Z;
  timezoneOffset : Z
}.

(** The day number of the server's local calendar day. *)
Definition local_day (e : Env) : Z :=
  (now e - timezoneOffset e * msPerMinute) / msPerDay.

(** [const today = new Date(); today.setHours(0, 0, 0, 0);] local midnight
    of the current day, as a time value. *)
Definition today_midnight (e : Env) : Z :=
  local_day e * msPerDay + timezoneOffset e * msPerMinute.

(** Days from 1970-01-01 to the civil date [y]-[m]-[d]. *)
Definition days_from_civil (y m d : Z) : Z :=
  let y' := if m <=? 2 then y - 1 else y in
  let era := y' / 400 in
  let yoe := y' - era * 400 in
  let mp := (m + 9) mod 12 in
  let doy := (153 * mp + 2) / 5 + d - 1 in
  let doe := yoe * 365 + yoe / 4 - yoe / 100 + doy in
  era * 146097 + doe - 719468.

Definition is_leap (y : Z) : bool :=
  ((y mod 4 =? 0) && negb (y mod 100 =? 0)) || (y mod 400 =? 0).

Definition days_in_month (y m : Z) : Z :=
  if m =? 2 then (if is_leap y then 29 else 28)
  else if (m =? 4) || (m =? 6) || (m =? 9) || (m =? 11) then 30
  else 31.

(** The date-only form [YYYY-MM-DD]. *)
Definition parse_ymd (s : string) : option (Z * Z * Z) :=
  match s with
  | String y1 (String y2 (String y3 (String y4 (String "-"
      (String m1 (String m2 (String "-"
        (String d1 (String d2 EmptyString))))))))) =>
      if is_digit y1 && is_digit y2 && is_digit y3 && is_digit y4
         && is_digit m1 && is_digit m2 && is_digit d1 && is_digit d2
      then
        let y := 1000 * digit_val y1 + 100 * digit_val y2
                 + 10 * digit_val y3 + digit_val y4 in
        let m := 10 * digit_val m1 + digit_val m2 in
        let d := 10 * digit_val d1 + digit_val d2 in
        if (1 <=? m) && (m <=? 12) && (1 <=? d) && (d <=? days_in_month y m)
        then Some (y, m, d) else None
      else None
  | _ => None
  end.

(** [Date.parse] on the date-only form: ECMAScript reads it as midnight UTC
    of that day. *)
Definition Date_parse_date_only (s : string) : option Z :=
  match parse_ymd s with
  | Some (y, m, d) => Some (days_from_civil y m d * msPerDay)
  | None => None
  end.

(** [a < b] on the time values of two dates; false when [a] is invalid. *)
Definition date_lt (a : option Z) (b : Z) : bool :=
  match a with
  | Some t => t <? b
  | None => false
  end.

(* ===================================================================== *)
(** ** The libraries and the database engine behind the handlers         *)
(* ===================================================================== *)

(** Functions of validator.js, bcryptjs, jsonwebtoken, the JavaScript
    engine and the MySQL server that the handlers call.  They are
    interfaces of the embedding; [node_platform] below is an instance that
    computes. *)
Class Platform : Type := {
  (** validator.js *)
  isISO8601 : string -> bool;
  isEmail : string -> bool;
  normalizeEmail : string -> string;
  (** [Date.parse], [String.prototype.localeCompare] *)
  Date_parse : string -> option Z;
  localeCompare : string -> string -> Z;
  (** [bcrypt.compare(password, hash)], [jwt.sign] on the user id *)
  bcrypt_compare : string -> string -> bool;
  jwt_sign : Z -> string;
  (** MySQL: [column LIKE '%term%'] as [sql_like column term], and the
      comparisons behind [ORDER BY] on a text, a date and a time column *)
  sql_like : string -> string -> bool;
  sql_strcmp : string -> string -> Z;
  sql_datecmp : string -> string -> Z;
  sql_timecmp : string -> string -> Z;
  (** MySQL: [column = ?] for an [INT] column and a parameter bound as a
      string, which MySQL compares as numbers *)
  sql_number_eq : Z -> string -> bool
}.

Definition Z_of_comparison (c : comparison) : Z :=
  match c with
  | Lt => -1
  | Eq => 0
  | Gt => 1
  end.

(** Comparison of strings by character codes. *)
Definition strcmp (a b : string) : Z := Z_of_comparison (String.compare a b).

(** [new Date(v)] for a body field [v]. *)
Definition new_Date {P : Platform} (v : JsVal) : option Z :=
  match v with
  | JUndefined => None
  | JNull => Some 0
  | JBool b => Some (if b then 1 else 0)
  | JNum n => Some n
  | JStr s => Date_parse s
  end.

(* ===================================================================== *)
(** ** Data model: the three tables of [createTables]                    *)
(* ===================================================================== *)

Record User : Type := {
  user_id_ : Z;
  user_name : string;
  user_email : string;
  user_password : string
}.

(** [rating] is [DECIMAL(2,1)]: the number of tenths. *)
Record Restaurant : Type := {
  rest_id : Z;
  name : string;
  location : string;
  description : string;
  image_url : string;
  rating : Z;
  price_range : string;
  cuisine_type : string
}.

(** [ENUM('confirmed', 'cancelled', 'completed')] *)
Inductive Status : Type := confirmed | cancelled | completed.

Definition Status_eqb (a b : Status) : bool :=
  match a, b with
  | confirmed, confirmed => true
  | cancelled, cancelled => true
  | completed, completed => true
  | _, _ => false
  end.

Definition status_of_string (s : string) : option Status :=
  if String.eqb s "confirmed" then Some confirmed
  else if String.eqb s "cancelled" then Some cancelled
  else if String.eqb s "completed" then Some completed
  else None.

Record Reservation : Type := {
  id : Z;
  user_id : Z;
  restaurant_id : Z;
  date : string;
  time : string;
  people_count : Z;
  status : Status;
  special_requests : option string;
  created_at : Z;
  updated_at : Z
}.

Record Database : Type := {
  users : list User;
  restaurants : list Restaurant;
  reservations : list Reservation;
  (** the [AUTO_INCREMENT] counter of [reservations] *)
  next_reservation_id : Z
}.

(** The state of the server process: the MySQL server behind [pool] ([None]
    when it cannot be reached) and the module-level variables of
    [config/database.js]. *)
Record Server : Type := {
  mysql : option Database;
  isUsingInMemory : bool;
  inMemoryRestaurants : list Restaurant
}.

(* ===================================================================== *)
(** ** Statements on a connection: state and exceptions                  *)
(* ===================================================================== *)

Inductive Outcome (A : Type) : Type :=
| Returned (a : A)
| Thrown.
Arguments Returned {A} a.
Arguments Thrown {A}.

(** A computation on an open connection.  Statements are not wrapped in a
    transaction: what was written before an exception stays written. *)
Definition SQL (A : Type) : Type := Database -> Outcome A * Database.

Definition ret {A : Type} (a : A) : SQL A := fun db => (Returned a, db).

Definition throw {A : Type} : SQL A := fun db => (Thrown, db).

Definition bind {A B : Type} (c : SQL A) (k : A -> SQL B) : SQL B :=
  fun db =>
    match c db with
    | (Returned a, db') => k a db'
    | (Thrown, db') => (Thrown, db')
    end.

Notation "x <- c ;; k" := (bind c (fun x => k))
  (at level 61, c at next level, right associativity).

Definition query {A : Type} (f : Database -> A) : SQL A :=
  fun db => (Returned (f db), db).

Definition modify (f : Database -> Database) : SQL unit :=
  fun db => (Returned tt, f db).

(* ===================================================================== *)
(** ** HTTP responses                                                    *)
(* ===================================================================== *)

(** The [pagination] object of the list endpoints. *)
Record Pagination : Type := {
  pg_page : Z;
  pg_limit : Z;
  pg_total : Z;
  pg_pages : option Z
}.

(** A reservation row joined with its restaurant and, in the answer of
    create, with its user. *)
Record ReservationView : Type := {
  view_row : Reservation;
  view_restaurant : Restaurant;
  view_user : option User
}.

Inductive Data : Type :=
| NoData
| DErrors (errors : list string)
| DRestaurants (items : list Restaurant) (pagination : Pagination)
| DRestaurant (item : Restaurant)
| DStrings (items : list string)
| DReservation (item : option ReservationView)
| DReservations (items : list ReservationView) (pagination : Pagination)
| DLogin (uid : Z) (uname uemail : string) (token : string).

Record Response : Type := {
  code : Z;
  success : bool;
  message : option string;
  data : Data
}.

Definition failure (c : Z) (msg : string) : Response :=
  {| code := c; success := false; message := Some msg; data := NoData |}.

(** [res.status(400).json({ success: false, message: 'Validation failed',
    errors: errors.array() })] *)
Definition validation_failed (errs : list string) : Response :=
  {| code := 400; success := false; message := Some "Validation failed";
     data := DErrors errs |}.

(** The answer of every [catch] block. *)
Definition internal_error : Response := failure 500 "Internal server error".

(** [try { ... } catch (error) { res.status(500)... }] *)
Definition try_catch (r : Outcome Response * Server) : Response * Server :=
  match r with
  | (Returned resp, s) => (resp, s)
  | (Thrown, s) => (internal_error, s)
  end.

(** [const connection = await pool.getConnection(); try { ... } finally
    { connection.release(); }]: the pool rejects when the MySQL server
    cannot be reached. *)
Definition with_connection (c : SQL Response) (s : Server)
  : Outcome Response * Server :=
  match mysql s with
  | None => (Thrown, s)
  | Some db =>
      let (o, db') := c db in
      (o, {| mysql := Some db';
             isUsingInMemory := isUsingInMemory s;
             inMemoryRestaurants := inMemoryRestaurants s |})
  end.

(** The error taxonomy of the specification.  The handlers answer 400 both
    for a rejected argument and for a reservation in a final state; the
    message tells them apart. *)
Inductive ErrorKind : Type :=
| ValidationFailed
| Unauthorized
| NotFound
| Conflict
| InvalidState
| InternalError.

Definition msg_is (r : Response) (m : string) : bool :=
  match message r with
  | Some m' => String.eqb m' m
  | None => false
  end.

Definition error_kind (r : Response) : option ErrorKind :=
  if success r then None
  else if code r =? 400 then
    if msg_is r "Cannot modify cancelled or completed reservations"
       || msg_is r "Reservation is already cancelled"
    then Some InvalidState else Some ValidationFailed
  else if (code r =? 401) || (code r =? 403) then Some Unauthorized
  else if code r =? 404 then Some NotFound
  else if code r =? 409 then Some Conflict
  else if code r =? 500 then Some InternalError
  else None.

(* ===================================================================== *)
(** ** [config/database.js]                                              *)
(* ===================================================================== *)

Definition mkRestaurant (i : Z) (n l d u : string) (r : Z) (p c : string)
  : Restaurant :=
  {| rest_id := i; name := n; location := l; description := d;
     image_url := u; rating := r; price_range := p; cuisine_type := c |}.

(** The six sample restaurants of [createInMemoryData] and
    [insertSampleData], numbered from [first]. *)
Definition sampleRestaurants (first : Z) : list Restaurant :=
  [ mkRestaurant first "The Golden Spoon" "Downtown Manhattan, New York"
      "Elegant fine dining with contemporary American cuisine and exceptional service."
      "https://images.unsplash.com/photo-1517248135467-4c7edcad34c4?w=500"
      48 "$$$" "American";
    mkRestaurant (first + 1) "Sakura Sushi" "Little Tokyo, Los Angeles"
      "Authentic Japanese sushi bar with fresh fish flown in daily from Tokyo."
      "https://images.unsplash.com/photo-1579584425555-c3ce17fd4351?w=500"
      46 "$$" "Japanese";
    mkRestaurant (first + 2) "Mama Mia Pizzeria" "North End, Boston"
      "Traditional Italian pizzeria with wood-fired ovens and homemade pasta."
      "https://images.unsplash.com/photo-1555396273-367ea4eb4db5?w=500"
      44 "$" "Italian";
    mkRestaurant (first + 3) "Le Jardin" "French Quarter, New Orleans"
      "Romantic French bistro with garden seating and live jazz music."
      "https://images.unsplash.com/photo-1414235077428-338989a2e8c0?w=500"
      47 "$$$" "French";
    mkRestaurant (first + 4) "Spice Route" "Curry Hill, New York"
      "Authentic Indian cuisine with traditional spices and vegetarian options."
      "https://images.unsplash.com/photo-1585937421612-70a008356fbe?w=500"
      43 "$$" "Indian";
    mkRestaurant (first + 5) "Ocean Breeze" "Santa Monica, California"
      "Fresh seafood restaurant with ocean views and sustainable catches."
      "https://images.unsplash.com/photo-1559339352-11d035aa65de?w=500"
      45 "$$$" "Seafood" ].

Definition createInMemoryData : list Restaurant := sampleRestaurants 1.

(** [createTables]: the tables exist in the model; the sample restaurants
    are inserted when the [restaurants] table is empty. *)
Definition createTables (db : Database) : Database :=
  match restaurants db with
  | [] =>
      {| users := users db;
         restaurants := sampleRestaurants 1;
         reservations := reservations db;
         next_reservation_id := next_reservation_id db |}
  | _ => db
  end.

(** [initDatabase]: MySQL when a connection can be had, otherwise the
    in-memory catalogue. *)
Definition initDatabase (s : Server) : Server :=
  match mysql s with
  | Some db =>
      {| mysql := Some (createTables db);
         isUsingInMemory := isUsingInMemory s;
         inMemoryRestaurants := inMemoryRestaurants s |}
  | None =>
      {| mysql := None;
         isUsingInMemory := true;
         inMemoryRestaurants := createInMemoryData |}
  end.

(** The state of the process when the module is loaded. *)
Definition boot (db : option Database) : Server :=
  {| mysql := db; isUsingInMemory := false; inMemoryRestaurants := [] |}.

(** [if (x) { list = list.filter(p(x.toLowerCase())) }] for an optional
    query parameter [x]. *)
Definition filter_if {A : Type} (x : option string)
    (p : string -> A -> bool) (l : list A) : list A :=
  match x with
  | Some t => if truthy (JStr t) then filter (p (toLowerCase t)) l else l
  | None => l
  end.

(** The comparator of [filteredRestaurants.sort]. *)
Definition compareRestaurants {P : Platform} (a b : Restaurant) : Z :=
  if negb (rating b =? rating a) then rating b - rating a
  else localeCompare (name a) (name b).

(** [inMemoryQueries.getRestaurants]: the filtered catalogue before
    pagination. *)
Definition filteredRestaurants {P : Platform}
    (catalogue : list Restaurant) (search loc cuisine : option string)
  : list Restaurant :=
  let l1 := filter_if search
      (fun t r => includes (toLowerCase (name r)) t
                  || includes (toLowerCase (location r)) t) catalogue in
  let l2 := filter_if loc
      (fun t r => includes (toLowerCase (location r)) t) l1 in
  let l3 := filter_if cuisine
      (fun t r => includes (toLowerCase (cuisine_type r)) t) l2 in
  sort_by compareRestaurants l3.

Definition getRestaurants {P : Platform}
    (catalogue : list Restaurant) (search loc cuisine : option string)
    (limit offset : Z) : list Restaurant * Z :=
  let filtered := filteredRestaurants catalogue search loc cuisine in
  let total := Z.of_nat (List.length filtered) in
  (slice filtered offset (offset + limit), total).

(** [inMemoryRestaurants.find(r => r.id === parseInt(id))]; nothing is
    equal to [NaN]. *)
Definition getRestaurantById (catalogue : list Restaurant) (id : string)
  : option Restaurant :=
  find (fun r => match parseInt id with
                 | Some n => rest_id r =? n
                 | None => false
                 end) catalogue.

(** [[...new Set(xs)]]: the first occurrence of each element. *)
Fixpoint dedup (seen l : list string) : list string :=
  match l with
  | [] => []
  | x :: l' =>
      if existsb (String.eqb x) seen then dedup seen l'
      else x :: dedup (x :: seen) l'
  end.

(** [Array.prototype.sort()] without a comparator: by character codes. *)
Definition sort_strings (l : list string) : list string := sort_by strcmp l.

Definition getCuisines (catalogue : list Restaurant) : list string :=
  sort_strings (dedup [] (map cuisine_type catalogue)).

Definition getLocations (catalogue : list Restaurant) : list string :=
  sort_strings (dedup [] (map location catalogue)).

(* ===================================================================== *)
(** ** [routes/restaurants.js]                                           *)
(* ===================================================================== *)

(** The query string of [GET /restaurants].  [q_page] and [q_limit] hold
    what [parseInt] makes of the parameter, [None] when it is absent. *)
Record CatalogQuery : Type := {
  q_search : option string;
  q_location : option string;
  q_cuisine : option string;
  q_page : option Z;
  q_limit : option Z
}.

(** [const { page = 1 } = req.query; parseInt(page)] *)
Definition page_or_default (p : option Z) : Z :=
  match p with Some n => n | None => 1 end.

(** [const { limit = 10 } = req.query; parseInt(limit)] *)
Definition limit_or_default (l : option Z) : Z :=
  match l with Some n => n | None => 10 end.

Definition mkPagination (page limit total : Z) : Pagination :=
  {| pg_page := page; pg_limit := limit; pg_total := total;
     pg_pages := Math_ceil_div total limit |}.

Definition ok (d : Data) : Response :=
  {| code := 200; success := true; message := None; data := d |}.

(** [LIMIT ? OFFSET ?]: MySQL refuses negative arguments. *)
Definition limit_offset {A : Type} (limit offset : Z) (l : list A)
  : SQL (list A) :=
  if (limit <? 0) || (offset <? 0) then throw
  else ret (firstn (Z.to_nat limit) (skipn (Z.to_nat offset) l)).

(** [if (x) { query += ' AND ... LIKE ?' }] for an optional parameter. *)
Definition where_if {A : Type} (x : option string)
    (p : string -> A -> bool) (l : list A) : list A :=
  match x with
  | Some t => if truthy (JStr t) then filter (p t) l else l
  | None => l
  end.

(** The [WHERE] clause shared by the listing and the count. *)
Definition whereRestaurants {P : Platform} (q : CatalogQuery)
    (rows : list Restaurant) : list Restaurant :=
  let l1 := where_if (q_search q)
      (fun t r => sql_like (name r) t || sql_like (location r) t) rows in
  let l2 := where_if (q_location q) (fun t r => sql_like (location r) t) l1 in
  where_if (q_cuisine q) (fun t r => sql_like (cuisine_type r) t) l2.

(** [ORDER BY rating DESC, name ASC] *)
Definition orderRestaurants {P : Platform} (a b : Restaurant) : Z :=
  if negb (rating b =? rating a) then rating b - rating a
  else sql_strcmp (name a) (name b).

(** [GET /restaurants] *)
Definition get_restaurants {P : Platform} (q : CatalogQuery) (s : Server)
  : Response * Server :=
  let page := page_or_default (q_page q) in
  let limit := limit_or_default (q_limit q) in
  if isUsingInMemory s then
    let offset := (page - 1) * limit in
    let (items, total) :=
      getRestaurants (inMemoryRestaurants s)
        (q_search q) (q_location q) (q_cuisine q) limit offset in
    (ok (DRestaurants items (mkPagination page limit total)), s)
  else
    let offset := (page - 1) * limit in
    try_catch (with_connection
      (rows <- query (fun db =>
           sort_by orderRestaurants (whereRestaurants q (restaurants db))) ;;
       items <- limit_offset limit offset rows ;;
       total <- query (fun db =>
           Z.of_nat (List.length (whereRestaurants q (restaurants db)))) ;;
       ret (ok (DRestaurants items (mkPagination page limit total)))) s).

(** [GET /restaurants/:id]; [id] is [req.params.id], a string.  In memory
    it goes through [parseInt]; MySQL gets it as it is. *)
Definition get_restaurant {P : Platform} (id : string) (s : Server)
  : Response * Server :=
  if isUsingInMemory s then
    match getRestaurantById (inMemoryRestaurants s) id with
    | None => (failure 404 "Restaurant not found", s)
    | Some r => (ok (DRestaurant r), s)
    end
  else
    try_catch (with_connection
      (rows <- query (fun db =>
           filter (fun r => sql_number_eq (rest_id r) id) (restaurants db)) ;;
       match rows with
       | [] => ret (failure 404 "Restaurant not found")
       | r :: _ => ret (ok (DRestaurant r))
       end) s).

(** [GET /restaurants/meta/cuisines] *)
Definition get_cuisines {P : Platform} (s : Server) : Response * Server :=
  if isUsingInMemory s then
    (ok (DStrings (getCuisines (inMemoryRestaurants s))), s)
  else
    try_catch (with_connection
      (rows <- query (fun db =>
           sort_by sql_strcmp (dedup [] (map cuisine_type (restaurants db)))) ;;
       ret (ok (DStrings rows))) s).

(** [GET /restaurants/meta/locations] *)
Definition get_locations {P : Platform} (s : Server) : Response * Server :=
  if isUsingInMemory s then
    (ok (DStrings (getLocations (inMemoryRestaurants s))), s)
  else
    try_catch (with_connection
      (rows <- query (fun db =>
           sort_by sql_strcmp (dedup [] (map location (restaurants db)))) ;;
       ret (ok (DStrings rows))) s).

(* ===================================================================== *)
(** ** The reservation routes: request validation                       *)
(* ===================================================================== *)

(** The fields the reservation handlers read from [req.body]. *)
Record Body : Type := {
  b_restaurant_id : JsVal;
  b_date : JsVal;
  b_time : JsVal;
  b_people_count : JsVal;
  b_special_requests : JsVal
}.

(** [isInt({ min, max })] *)
Definition isInt (lo : Z) (hi : option Z) (s : string) : bool :=
  match parse_int s with
  | Some n => (lo <=? n) && match hi with Some h => n <=? h | None => true end
  | None => false
  end.

Definition in_range (c : ascii) (lo hi : nat) : bool :=
  let n := nat_of_ascii c in (lo <=? n)%nat && (n <=? hi)%nat.

(** The pattern of the [time] field: one or two digits of hours up to 23,
    a colon, two digits of minutes up to 59. *)
Definition matches_time (s : string) : bool :=
  match s with
  | String h (String ":" (String m1 (String m2 EmptyString))) =>
      is_digit h && in_range m1 48 53 && is_digit m2
  | String h1 (String h2 (String ":" (String m1 (String m2 EmptyString)))) =>
      ((in_range h1 48 49 && is_digit h2) || ((h1 =? "2")%char && in_range h2 48 51))
      && in_range m1 48 53 && is_digit m2
  | _ => false
  end.

(** [isLength({ max: 500 })] *)
Definition isLength_max (n : nat) (s : string) : bool :=
  (String.length s <=? n)%nat.

(** One link of a validation chain: the message is recorded when the check
    fails on the field turned into a string. *)
Definition check (p : string -> bool) (msg : string) (v : JsVal)
  : list string :=
  if p (toString v) then [] else [msg].

(** [.optional()]: the chain is skipped when the field is [undefined]. *)
Definition optional (p : string -> bool) (msg : string) (v : JsVal)
  : list string :=
  match v with
  | JUndefined => []
  | _ => check p msg v
  end.

(** The chains of [POST /reservations]. *)
Definition validate_create {P : Platform} (b : Body) : list string :=
  check (isInt 1 None) "Valid restaurant ID is required" (b_restaurant_id b)
  ++ check isISO8601 "Valid date is required (YYYY-MM-DD)" (b_date b)
  ++ check matches_time "Valid time is required (HH:MM)" (b_time b)
  ++ check (isInt 1 (Some 20)) "People count must be between 1 and 20"
       (b_people_count b)
  ++ optional (isLength_max 500)
       "Special requests must be less than 500 characters"
       (b_special_requests b).

(** The chains of [PUT /reservations/:id]. *)
Definition validate_update {P : Platform} (b : Body) : list string :=
  optional isISO8601 "Valid date is required (YYYY-MM-DD)" (b_date b)
  ++ optional matches_time "Valid time is required (HH:MM)" (b_time b)
  ++ optional (isInt 1 (Some 20)) "People count must be between 1 and 20"
       (b_people_count b)
  ++ optional (isLength_max 500)
       "Special requests must be less than 500 characters"
       (b_special_requests b).

(* ===================================================================== *)
(** ** The reservation routes: the SQL statements                       *)
(* ===================================================================== *)

(** A bound parameter read by MySQL as an integer. *)
Definition sql_int (v : JsVal) : option Z :=
  match v with
  | JNum n => Some n
  | JStr s => parse_int s
  | JBool b => Some (if b then 1 else 0)
  | JNull => None
  | JUndefined => None
  end.

(** A bound parameter read by MySQL as text; [None] is [NULL]. *)
Definition sql_text (v : JsVal) : option string :=
  match v with
  | JStr s => Some s
  | JNum n => Some (string_of_Z n)
  | JBool b => Some (if b then "1" else "0")
  | JNull => None
  | JUndefined => None
  end.

Definition set_reservations (db : Database) (rows : list Reservation)
  : Database :=
  {| users := users db;
     restaurants := restaurants db;
     reservations := rows;
     next_reservation_id := next_reservation_id db |}.

(** [SELECT id FROM restaurants WHERE id = ?] *)
Definition select_restaurant (rid : JsVal) : SQL (list Restaurant) :=
  query (fun db =>
    match sql_int rid with
    | Some i => filter (fun r => rest_id r =? i) (restaurants db)
    | None => []
    end).

(** [INSERT INTO reservations (user_id, restaurant_id, date, time,
    people_count, special_requests) VALUES (?, ?, ?, ?, ?, ?)]: the row gets
    the next id, the default status and the current timestamps.  The
    statement fails on a [NULL] in a [NOT NULL] column and on a foreign key
    without its row.  It returns [insertId]. *)
Definition insert_reservation (e : Env) (uid : Z)
    (rid d t n sr : JsVal) : SQL Z :=
  fun db =>
    match sql_int rid, sql_text d, sql_text t, sql_int n with
    | Some rid', Some d', Some t', Some n' =>
        if existsb (fun u => user_id_ u =? uid) (users db)
           && existsb (fun r => rest_id r =? rid') (restaurants db)
        then
          let i := next_reservation_id db in
          let row := {| id := i; user_id := uid; restaurant_id := rid';
                        date := d'; time := t'; people_count := n';
                        status := confirmed; special_requests := sql_text sr;
                        created_at := now e; updated_at := now e |} in
          (Returned i,
           {| users := users db;
              restaurants := restaurants db;
              reservations := reservations db ++ [row];
              next_reservation_id := i + 1 |})
        else (Thrown, db)
    | _, _, _, _ => (Thrown, db)
    end.

(** [FROM reservations r JOIN restaurants rest ON r.restaurant_id = rest.id] *)
Definition join_restaurants (db : Database) (rows : list Reservation)
  : list ReservationView :=
  flat_map (fun r =>
    map (fun rest => {| view_row := r; view_restaurant := rest;
                        view_user := None |})
        (filter (fun rest => rest_id rest =? restaurant_id r)
                (restaurants db))) rows.

(** [... JOIN users u ON r.user_id = u.id] on top of the previous join. *)
Definition join_users (db : Database) (views : list ReservationView)
  : list ReservationView :=
  flat_map (fun v =>
    map (fun u => {| view_row := view_row v;
                     view_restaurant := view_restaurant v;
                     view_user := Some u |})
        (filter (fun u => user_id_ u =? user_id (view_row v)) (users db)))
    views.

(** [SELECT * FROM reservations WHERE id = ? AND user_id = ?] *)
Definition owned (i uid : Z) (db : Database) : list Reservation :=
  filter (fun r => (id r =? i) && (user_id r =? uid)) (reservations db).

(** One [column = ?] of an [UPDATE ... SET], with its bound parameter. *)
Inductive Assignment : Type :=
| SetDate (v : JsVal)
| SetTime (v : JsVal)
| SetPeopleCount (v : JsVal)
| SetSpecialRequests (v : JsVal)
| SetStatus (st : Status)
| SetUpdatedAt.

(** The effect of an assignment on a row; [None] when MySQL refuses the
    value ([NULL] in a [NOT NULL] column). *)
Definition assign (e : Env) (a : Assignment) (r : Reservation)
  : option Reservation :=
  match a with
  | SetDate v =>
      match sql_text v with
      | Some d =>
          Some {| id := id r; user_id := user_id r;
                  restaurant_id := restaurant_id r; date := d;
                  time := time r; people_count := people_count r;
                  status := status r;
                  special_requests := special_requests r;
                  created_at := created_at r; updated_at := updated_at r |}
      | None => None
      end
  | SetTime v =>
      match sql_text v with
      | Some t =>
          Some {| id := id r; user_id := user_id r;
                  restaurant_id := restaurant_id r; date := date r;
                  time := t; people_count := people_count r;
                  status := status r;
                  special_requests := special_requests r;
                  created_at := created_at r; updated_at := updated_at r |}
      | None => None
      end
  | SetPeopleCount v =>
      match sql_int v with
      | Some n =>
          Some {| id := id r; user_id := user_id r;
                  restaurant_id := restaurant_id r; date := date r;
                  time := time r; people_count := n;
                  status := status r;
                  special_requests := special_requests r;
                  created_at := created_at r; updated_at := updated_at r |}
      | None => None
      end
  | SetSpecialRequests v =>
      Some {| id := id r; user_id := user_id r;
              restaurant_id := restaurant_id r; date := date r;
              time := time r; people_count := people_count r;
              status := status r;
              special_requests := sql_text v;
              created_at := created_at r; updated_at := updated_at r |}
  | SetStatus st =>
      Some {| id := id r; user_id := user_id r;
              restaurant_id := restaurant_id r; date := date r;
              time := time r; people_count := people_count r;
              status := st;
              special_requests := special_requests r;
              created_at := created_at r; updated_at := updated_at r |}
  | SetUpdatedAt =>
      Some {| id := id r; user_id := user_id r;
              restaurant_id := restaurant_id r; date := date r;
              time := time r; people_count := people_count r;
              status := status r;
              special_requests := special_requests r;
              created_at := created_at r; updated_at := now e |}
  end.

Fixpoint assign_all (e : Env) (l : list Assignment) (r : Reservation)
  : option Reservation :=
  match l with
  | [] => Some r
  | a :: l' =>
      match assign e a r with
      | Some r' => assign_all e l' r'
      | None => None
      end
  end.

Fixpoint update_rows (e : Env) (l : list Assignment) (i : Z)
    (rows : list Reservation) : option (list Reservation) :=
  match rows with
  | [] => Some []
  | r :: rows' =>
      match (if id r =? i then assign_all e l r else Some r),
            update_rows e l i rows' with
      | Some r', Some rows'' => Some (r' :: rows'')
      | _, _ => None
      end
  end.

(** [UPDATE reservations SET ... WHERE id = ?] *)
Definition update_reservations (e : Env) (l : list Assignment) (i : Z)
  : SQL unit :=
  fun db =>
    match update_rows e l i (reservations db) with
    | Some rows => (Returned tt, set_reservations db rows)
    | None => (Thrown, db)
    end.

(* ===================================================================== *)
(** ** The reservation routes: the handlers                             *)
(* ===================================================================== *)

(** In every handler [uid] is [req.user.id], set by [authenticateToken]
    before the handler runs, and [i] is [req.params.id] as MySQL reads it. *)

Definition created (v : option ReservationView) : Response :=
  {| code := 201; success := true;
     message := Some "Reservation created successfully";
     data := DReservation v |}.

(** The statements of [POST /reservations] on its connection. *)
Definition create_on_connection {P : Platform} (e : Env) (uid : Z) (b : Body)
  : SQL Response :=
  found <- select_restaurant (b_restaurant_id b) ;;
  match found with
  | [] => ret (failure 404 "Restaurant not found")
  | _ :: _ =>
      if date_lt (new_Date (b_date b)) (today_midnight e) then
        ret (failure 400 "Cannot make reservations for past dates")
      else
        i <- insert_reservation e uid (b_restaurant_id b) (b_date b)
               (b_time b) (b_people_count b)
               (or_null (b_special_requests b)) ;;
        rows <- query (fun db =>
            join_users db (join_restaurants db
              (filter (fun r => id r =? i) (reservations db)))) ;;
        ret (created (hd_error rows))
  end.

(** [POST /reservations] *)
Definition create_reservation {P : Platform} (e : Env) (uid : Z) (b : Body)
    (s : Server) : Response * Server :=
  match validate_create b with
  | (_ :: _) as errs => (validation_failed errs, s)
  | [] => try_catch (with_connection (create_on_connection e uid b) s)
  end.

(** The query string of [GET /user/reservations]. *)
Record ListQuery : Type := {
  l_status : option string;
  l_page : option Z;
  l_limit : option Z
}.

(** [status && ['confirmed', 'cancelled', 'completed'].includes(status)]:
    the status to filter on, if any. *)
Definition status_filter (st : option string) : option Status :=
  match st with
  | Some s => if truthy (JStr s) then status_of_string s else None
  | None => None
  end.

(** [WHERE user_id = ?] with [AND status = ?] when the filter applies. *)
Definition whereReservations (uid : Z) (f : option Status)
    (rows : list Reservation) : list Reservation :=
  filter (fun r =>
    (user_id r =? uid)
    && match f with Some st => Status_eqb (status r) st | None => true end)
    rows.

(** [ORDER BY r.date DESC, r.time DESC] *)
Definition orderReservations {P : Platform} (a b : ReservationView) : Z :=
  let c := sql_datecmp (date (view_row b)) (date (view_row a)) in
  if negb (c =? 0) then c
  else sql_timecmp (time (view_row b)) (time (view_row a)).

(** [GET /user/reservations] *)
Definition list_reservations {P : Platform} (uid : Z) (q : ListQuery)
    (s : Server) : Response * Server :=
  let page := page_or_default (l_page q) in
  let limit := limit_or_default (l_limit q) in
  let f := status_filter (l_status q) in
  let offset := (page - 1) * limit in
  try_catch (with_connection
    (rows <- query (fun db =>
         sort_by orderReservations
           (join_restaurants db (whereReservations uid f (reservations db)))) ;;
     items <- limit_offset limit offset rows ;;
     total <- query (fun db =>
         Z.of_nat (List.length (whereReservations uid f (reservations db)))) ;;
     ret (ok (DReservations items (mkPagination page limit total)))) s).

(** [GET /reservations/:id] *)
Definition get_reservation (uid i : Z) (s : Server) : Response * Server :=
  try_catch (with_connection
    (rows <- query (fun db => join_restaurants db (owned i uid db)) ;;
     match rows with
     | [] => ret (failure 404 "Reservation not found")
     | v :: _ => ret (ok (DReservation (Some v)))
     end) s).

(** The dynamic [SET] list of [PUT /reservations/:id]: [updateFields] with
    [updateParams], before [updated_at] is appended. *)
Definition updateFields (b : Body) : list Assignment :=
  (if truthy (b_date b) then [SetDate (b_date b)] else [])
  ++ (if truthy (b_time b) then [SetTime (b_time b)] else [])
  ++ (if truthy (b_people_count b)
      then [SetPeopleCount (b_people_count b)] else [])
  ++ (if is_defined (b_special_requests b)
      then [SetSpecialRequests (or_null (b_special_requests b))] else []).

Definition updated (v : option ReservationView) : Response :=
  {| code := 200; success := true;
     message := Some "Reservation updated successfully";
     data := DReservation v |}.

(** The statements of [PUT /reservations/:id] on its connection. *)
Definition update_on_connection {P : Platform} (e : Env) (uid i : Z)
    (b : Body) : SQL Response :=
  existing <- query (owned i uid) ;;
  match existing with
  | [] => ret (failure 404 "Reservation not found")
  | reservation :: _ =>
      if Status_eqb (status reservation) cancelled
         || Status_eqb (status reservation) completed then
        ret (failure 400 "Cannot modify cancelled or completed reservations")
      else if truthy (b_date b)
              && date_lt (new_Date (b_date b)) (today_midnight e) then
        ret (failure 400 "Cannot modify reservation to a past date")
      else
        match updateFields b with
        | [] => ret (failure 400 "No fields to update")
        | (_ :: _) as fields =>
            _ <- update_reservations e (fields ++ [SetUpdatedAt]) i ;;
            rows <- query (fun db =>
                join_restaurants db
                  (filter (fun r => id r =? i) (reservations db))) ;;
            ret (updated (hd_error rows))
        end
  end.

(** [PUT /reservations/:id] *)
Definition update_reservation {P : Platform} (e : Env) (uid i : Z) (b : Body)
    (s : Server) : Response * Server :=
  match validate_update b with
  | (_ :: _) as errs => (validation_failed errs, s)
  | [] => try_catch (with_connection (update_on_connection e uid i b) s)
  end.

Definition cancelled_ok : Response :=
  {| code := 200; success := true;
     message := Some "Reservation cancelled successfully";
     data := NoData |}.

(** The statements of [DELETE /reservations/:id] on its connection. *)
Definition cancel_on_connection (e : Env) (uid i : Z) : SQL Response :=
  existing <- query (owned i uid) ;;
  match existing with
  | [] => ret (failure 404 "Reservation not found")
  | reservation :: _ =>
      if Status_eqb (status reservation) cancelled then
        ret (failure 400 "Reservation is already cancelled")
      else
        _ <- update_reservations e [SetStatus cancelled; SetUpdatedAt] i ;;
        ret cancelled_ok
  end.

(** [DELETE /reservations/:id] *)
Definition cancel_reservation (e : Env) (uid i : Z) (s : Server)
  : Response * Server :=
  try_catch (with_connection (cancel_on_connection e uid i) s).

(* ===================================================================== *)
(** ** [routes/auth.js]: login                                           *)
(* ===================================================================== *)

(** The body of [POST /auth/login].  The password is the JSON value as it
    comes: the handler hands [req.body.password] to [bcrypt.compare]
    without looking at its type. *)
Record LoginBody : Type := {
  lb_email : string;
  lb_password : JsVal
}.

(** [notEmpty()] *)
Definition notEmpty (s : string) : bool := negb (s =? "")%string.

Definition validate_login {P : Platform} (b : LoginBody) : list string :=
  check isEmail "Please provide a valid email" (JStr (lb_email b))
  ++ check notEmpty "Password is required" (lb_password b).

Definition invalid_credentials : Response :=
  failure 401 "Invalid email or password".

(** [await bcrypt.compare(password, hash)] on the value of the body:
    bcryptjs rejects with [Illegal arguments] unless the password is a
    string; [None] is the rejection. *)
Definition bcrypt_compare_value {P : Platform} (password : JsVal)
    (hash : string) : option bool :=
  match password with
  | JStr s => Some (bcrypt_compare s hash)
  | _ => None
  end.

(** The statements of [POST /auth/login] on its connection; [email] is the
    field after [normalizeEmail()]. *)
Definition login_on_connection {P : Platform} (email : string)
    (password : JsVal) : SQL Response :=
  found <- query (fun db =>
      filter (fun u => (user_email u =? email)%string) (users db)) ;;
  match found with
  | [] => ret invalid_credentials
  | user :: _ =>
      match bcrypt_compare_value password (user_password user) with
      | None => throw
      | Some isPasswordValid =>
          if negb isPasswordValid then
            ret invalid_credentials
          else
            ret {| code := 200; success := true;
                   message := Some "Login successful";
                   data := DLogin (user_id_ user) (user_name user)
                             (user_email user) (jwt_sign (user_id_ user)) |}
      end
  end.

(** [POST /auth/login] *)
Definition login {P : Platform} (b : LoginBody) (s : Server)
  : Response * Server :=
  match validate_login b with
  | (_ :: _) as errs => (validation_failed errs, s)
  | [] =>
      try_catch (with_connection
        (login_on_connection (normalizeEmail (lb_email b)) (lb_password b)) s)
  end.

(* ===================================================================== *)
(** ** An instance that computes, and sample states                      *)
(* ===================================================================== *)

(** [Date_parse] reads the date-only form as ECMAScript does, and
    [isISO8601] accepts that form.  The other fields are small stand-ins
    with the shape of the library functions; the theorems below hold for
    every instance, and this one runs the handlers on examples. *)
Definition node_platform : Platform := {|
  isISO8601 := fun s => match parse_ymd s with Some _ => true | None => false end;
  isEmail := fun s => includes s "@";
  normalizeEmail := toLowerCase;
  Date_parse := Date_parse_date_only;
  localeCompare := strcmp;
  bcrypt_compare := fun password hash => (hash =? "bcrypt:" ++ password)%string;
  jwt_sign := fun uid => "jwt:" ++ string_of_Z uid;
  sql_like := fun column term => includes (toLowerCase column) (toLowerCase term);
  sql_strcmp := strcmp;
  sql_datecmp := strcmp;
  sql_timecmp := strcmp;
  sql_number_eq := fun n s =>
    match parse_int s with Some m => n =? m | None => false end
|}.

Definition alice : User :=
  {| user_id_ := 1; user_name := "Alice"; user_email := "alice@example.com";
     user_password := "bcrypt:wonderland" |}.

Definition bob : User :=
  {| user_id_ := 2; user_name := "Bob"; user_email := "bob@example.com";
     user_password := "bcrypt:builder" |}.

Definition mkReservation (i u r : Z) (d t : string) (n : Z) (st : Status)
  : Reservation :=
  {| id := i; user_id := u; restaurant_id := r; date := d; time := t;
     people_count := n; status := st; special_requests := Some "window";
     created_at := 1000; updated_at := 1000 |}.

(** Alice holds a confirmed, a completed and a cancelled reservation; Bob
    holds a confirmed one. *)
Definition sample_db : Database :=
  {| users := [alice; bob];
     restaurants := sampleRestaurants 1;
     reservations :=
       [ mkReservation 1 1 1 "2030-01-15" "19:30" 4 confirmed;
         mkReservation 2 1 2 "2024-12-24" "20:00" 2 completed;
         mkReservation 3 1 3 "2030-02-01" "18:00" 6 cancelled;
         mkReservation 4 2 1 "2030-03-10" "21:15" 3 confirmed ];
     next_reservation_id := 5 |}.

Definition sample_server : Server :=
  {| mysql := Some sample_db; isUsingInMemory := false;
     inMemoryRestaurants := [] |}.

(** The server after [initDatabase] when MySQL could not be reached. *)
Definition fallback_server : Server := initDatabase (boot None).

(** 2025-01-15, 17:00 UTC. *)
Definition noon_in_new_york : Z := days_from_civil 2025 1 15 * msPerDay + 17 * 3600000.

(** A server in New York (UTC-5) at local noon of 2025-01-15. *)
Definition env_new_york : Env :=
  {| now := noon_in_new_york; timezoneOffset := 300 |}.

(** A server in Athens (UTC+2) at the same instant. *)
Definition env_athens : Env :=
  {| now := noon_in_new_york; timezoneOffset := -120 |}.


(** A well-formed request for a table at restaurant 1 on day [d]. *)
Definition booking (d : string) : Body :=
  {| b_restaurant_id := JNum 1; b_date := JStr d; b_time := JStr "19:30";
     b_people_count := JNum 4; b_special_requests := JUndefined |}.

(* ===================================================================== *)
(** ** Vocabulary of the statements                                      *)
(* ===================================================================== *)

(** The server [s] connected to the database [db]. *)
Definition with_db (s : Server) (db : Database) : Server :=
  {| mysql := Some db; isUsingInMemory := isUsingInMemory s;
     inMemoryRestaurants := inMemoryRestaurants s |}.

(** The database in which no reservation has the id [i]. *)
Definition without_reservation (i : Z) (db : Database) : Database :=
  set_reservations db (filter (fun r => negb (id r =? i)) (reservations db)).

(** [id] is the primary key of [reservations]. *)
Definition primary_key (db : Database) : Prop :=
  NoDup (map id (reservations db)).

(** A final status. *)
Definition terminal (st : Status) : bool :=
  match st with
  | confirmed => false
  | cancelled => true
  | completed => true
  end.

(** Partial update as the specification words it: each supplied field is
    written, each field that is not supplied keeps its value, and the
    update timestamp is refreshed.  [date], [time] and [people_count] count
    as supplied when they are truthy, [special_requests] when it is not
    [undefined]. *)
Definition partial_update (e : Env) (b : Body) (r : Reservation)
  : Reservation :=
  {| id := id r;
     user_id := user_id r;
     restaurant_id := restaurant_id r;
     date := if truthy (b_date b)
             then match sql_text (b_date b) with Some d => d | None => date r end
             else date r;
     time := if truthy (b_time b)
             then match sql_text (b_time b) with Some t => t | None => time r end
             else time r;
     people_count := if truthy (b_people_count b)
                     then match sql_int (b_people_count b) with
                          | Some n => n
                          | None => people_count r
                          end
                     else people_count r;
     status := status r;
     special_requests := if is_defined (b_special_requests b)
                         then sql_text (or_null (b_special_requests b))
                         else special_requests r;
     created_at := created_at r;
     updated_at := now e |}.

(** The date check of create and update lets the body through. *)
Definition date_check_passes {P : Platform} (e : Env) (b : Body) : bool :=
  negb (truthy (b_date b)
        && date_lt (new_Date (b_date b)) (today_midnight e)).

(** The submitted password is wrong: [bcrypt.compare] answers [false] on
    the hash of every user of [db] that has the submitted email. *)
Definition wrong_password {P : Platform} (b : LoginBody) (db : Database)
  : Prop :=
  forall u, In u (users db) ->
    user_email u = normalizeEmail (lb_email b) ->
    bcrypt_compare_value (lb_password b) (user_password u) = Some false.

Definition email_exists {P : Platform} (b : LoginBody) (db : Database)
  : Prop :=
  exists u, In u (users db) /\ user_email u = normalizeEmail (lb_email b).

(** A comparator that orders totally: comparing the other way round never
    contradicts, and the order is transitive. *)
Definition consistent {A : Type} (cmp : A -> A -> Z) : Prop :=
  (forall a b, 0 < cmp a b -> cmp b a <= 0)
  /\ (forall a b c, cmp a b <= 0 -> cmp b c <= 0 -> cmp a c <= 0).

(** [a] is not after [b] for the comparator. *)
Definition below {A : Type} (cmp : A -> A -> Z) (a b : A) : Prop :=
  cmp a b <= 0.

(** The restaurants of a catalogue answer. *)
Definition items_of (r : Response) : list Restaurant :=
  match data r with
  | DRestaurants items _ => items
  | _ => []
  end.

Definition pagination_of (r : Response) : option Pagination :=
  match data r with
  | DRestaurants _ pg => Some pg
  | DReservations _ pg => Some pg
  | _ => None
  end.

Definition reservations_of (r : Response) : list ReservationView :=
  match data r with
  | DReservations items _ => items
  | _ => []
  end.

(** The same search, page [p]. *)
Definition at_page (q : CatalogQuery) (p : Z) : CatalogQuery :=
  {| q_search := q_search q; q_location := q_location q;
     q_cuisine := q_cuisine q; q_page := Some p; q_limit := q_limit q |}.

(** The filtered, ordered set a catalogue search pages through. *)
Definition catalogue_result {P : Platform} (q : CatalogQuery) (s : Server)
  : list Restaurant :=
  if isUsingInMemory s then
    filteredRestaurants (inMemoryRestaurants s)
      (q_search q) (q_location q) (q_cuisine q)
  else
    match mysql s with
    | Some db => sort_by orderRestaurants (whereRestaurants q (restaurants db))
    | None => []
    end.


(** The same listing with another [status] parameter. *)
Definition with_status (q : ListQuery) (st : option string) : ListQuery :=
  {| l_status := st; l_page := l_page q; l_limit := l_limit q |}.

(** Pages [1] to [n] of a search, one after the other. *)
Definition all_pages {P : Platform} (q : CatalogQuery) (s : Server) (n : nat)
  : list Restaurant :=
  List.concat (map (fun p => items_of (fst (get_restaurants (at_page q (Z.of_nat p)) s)))
              (seq 1 n)).

(** The row that [DELETE /reservations/:id] leaves behind. *)
Definition cancel_row (e : Env) (r : Reservation) : Reservation :=
  {| id := id r; user_id := user_id r; restaurant_id := restaurant_id r;
     date := date r; time := time r; people_count := people_count r;
     status := cancelled; special_requests := special_requests r;
     created_at := created_at r; updated_at := now e |}.


(** The database after create has stored a reservation of [uid] at [rest]
    on [d] at [t] for [n] people. *)
Definition inserted (e : Env) (uid : Z) (b : Body) (rest : Restaurant)
    (d t : string) (n : Z) (db : Database) : Database :=
  {| users := users db;
     restaurants := restaurants db;
     reservations := reservations db ++
       [{| id := next_reservation_id db; user_id := uid;
           restaurant_id := rest_id rest; date := d; time := t;
           people_count := n; status := confirmed;
           special_requests := sql_text (or_null (b_special_requests b));
           created_at := now e; updated_at := now e |}];
     next_reservation_id := next_reservation_id db + 1 |}.

(** The rows of [db] where [f] has been applied to those with id [i]. *)
Definition rewrite_rows (i : Z) (f : Reservation -> Reservation)
    (db : Database) : Database :=
  set_reservations db
    (map (fun x => if id x =? i then f x else x) (reservations db)).

(** A body that only changes the date. *)
Definition only_date (d : string) : Body :=
  {| b_restaurant_id := JUndefined; b_date := JStr d;
     b_time := JUndefined; b_people_count := JUndefined;
     b_special_requests := JUndefined |}.

(** A body whose fields are all present and empty. *)
Definition empty_fields : Body :=
  {| b_restaurant_id := JUndefined; b_date := JStr "";
     b_time := JStr ""; b_people_count := JNum 0;
     b_special_requests := JStr "" |}.


(** More sample requests and states. *)

(** [{ "people_count": 6 }] *)
Definition party_of_six : Body :=
  {| b_restaurant_id := JUndefined; b_date := JUndefined;
     b_time := JUndefined; b_people_count := JNum 6;
     b_special_requests := JUndefined |}.

Definition first_page : CatalogQuery :=
  {| q_search := None; q_location := None; q_cuisine := None;
     q_page := None; q_limit := Some 4 |}.

Definition my_reservations : ListQuery :=
  {| l_status := None; l_page := None; l_limit := None |}.

(** The [k]-th sample restaurant, counted from zero. *)
Definition sample (k : nat) : Restaurant :=
  nth k (sampleRestaurants 1) (mkRestaurant 0 "" "" "" "" 0 "" "").

(** The sample database before Alice registered. *)
Definition db_without_alice : Database :=
  {| users := [bob];
     restaurants := sampleRestaurants 1;
     reservations := [mkReservation 4 2 1 "2030-03-10" "21:15" 3 confirmed];
     next_reservation_id := 5 |}.

Definition server_without_alice : Server :=
  {| mysql := Some db_without_alice; isUsingInMemory := false;
     inMemoryRestaurants := [] |}.

(** A login as Alice with a password that is not hers. *)
Definition wrong_guess : LoginBody :=
  {| lb_email := "alice@example.com"; lb_password := JStr "guess" |}.

(** A login as Alice with a number for a password:
    [{ "email": "alice@example.com", "password": 12345 }]. *)
Definition numeric_guess : LoginBody :=
  {| lb_email := "alice@example.com"; lb_password := JNum 12345 |}.
(** A store with the two users, the sample restaurants and no reservation
    yet. *)
Definition fresh_db : Database :=
  {| users := [alice; bob];
     restaurants := sampleRestaurants 1;
     reservations := [];
     next_reservation_id := 1 |}.

Definition fresh_server : Server :=
  {| mysql := Some fresh_db; isUsingInMemory := false;
     inMemoryRestaurants := [] |}.

(** The rows of the reservations an answer carries. *)
Definition rows_of (r : Response) : list Reservation :=
  match data r with
  | DReservation (Some v) => [view_row v]
  | DReservations items _ => map view_row items
  | _ => []
  end.

(* ===================================================================== *)
(** ** [routes/auth.js]: registration                                    *)
(* ===================================================================== *)

(** The body of [POST /auth/register]; the three fields are strings. *)
Record RegisterBody : Type := {
  rb_name : string;
  rb_email : string;
  rb_password : string
}.

Fixpoint trim_right (s : string) : string :=
  match s with
  | EmptyString => EmptyString
  | String c s' =>
      match trim_right s' with
      | EmptyString => if is_space c then EmptyString else String c EmptyString
      | r => String c r
      end
  end.

(** The sanitizer [trim()]. *)
Definition trim (s : string) : string := trim_right (trim_left s).

(** [isLength({ min })] *)
Definition isLength_min (n : nat) (s : string) : bool :=
  (n <=? String.length s)%nat.

(** [bcrypt.hash(password, saltRounds)]: the hash of a password under the
    salt that bcrypt draws. *)
Class Hashing : Type := {
  bcrypt_hash : string -> string -> string
}.

(** What one registration draws from outside the handler: the salt of
    bcrypt and the value of the [AUTO_INCREMENT] counter of [users]. *)
Record Draw : Type := {
  salt : string;
  insertId : Z
}.

(** The chains of [POST /auth/register]; the name is checked after
    [trim()]. *)
Definition validate_register {P : Platform} (b : RegisterBody) : list string :=
  check (isLength_min 2) "Name must be at least 2 characters"
    (JStr (trim (rb_name b)))
  ++ check isEmail "Please provide a valid email" (JStr (rb_email b))
  ++ check (isLength_min 6) "Password must be at least 6 characters"
       (JStr (rb_password b)).

Definition set_users (db : Database) (us : list User) : Database :=
  {| users := us;
     restaurants := restaurants db;
     reservations := reservations db;
     next_reservation_id := next_reservation_id db |}.

(** [INSERT INTO users (name, email, password) VALUES (?, ?, ?)]: the
    statement fails on an email or an id that a row already has. *)
Definition insert_user (uid : Z) (n email hash : string) : SQL Z :=
  fun db =>
    if existsb (fun u => (user_email u =? email)%string) (users db)
       || existsb (fun u => user_id_ u =? uid) (users db)
    then (Thrown, db)
    else
      (Returned uid,
       set_users db
         (users db ++ [{| user_id_ := uid; user_name := n;
                          user_email := email; user_password := hash |}])).

Definition registered {P : Platform} (uid : Z) (n email : string)
  : Response :=
  {| code := 201; success := true;
     message := Some "User registered successfully";
     data := DLogin uid n email (jwt_sign uid) |}.

(** The statements of [POST /auth/register] on its connection; [n] and
    [email] are the fields after their sanitizers. *)
Definition register_on_connection {P : Platform} {H : Hashing} (d : Draw)
    (n email password : string) : SQL Response :=
  existing <- query (fun db =>
      filter (fun u => (user_email u =? email)%string) (users db)) ;;
  match existing with
  | _ :: _ => ret (failure 409 "User with this email already exists")
  | [] =>
      uid <- insert_user (insertId d) n email
               (bcrypt_hash (salt d) password) ;;
      ret (registered uid n email)
  end.

(** [POST /auth/register] *)
Definition register {P : Platform} {H : Hashing} (d : Draw)
    (b : RegisterBody) (s : Server) : Response * Server :=
  match validate_register b with
  | (_ :: _) as errs => (validation_failed errs, s)
  | [] =>
      try_catch (with_connection
        (register_on_connection d (trim (rb_name b))
           (normalizeEmail (rb_email b)) (rb_password b)) s)
  end.

(** The hashing that goes with [node_platform]. *)
Definition node_hashing : Hashing :=
  {| bcrypt_hash := fun _ password => "bcrypt:" ++ password |}.

(* ===================================================================== *)
(** ** The profile screen of the client: editing a reservation          *)
(* ===================================================================== *)

(** The four text fields of the edit form. *)
Record EditData : Type := {
  ed_date : string;
  ed_time : string;
  ed_people_count : string;
  ed_special_requests : string
}.

(** [x || y] on strings. *)
Definition str_or (x y : string) : string :=
  if (x =? "")%string then y else x.

(** [handleEditReservation]: the form is filled from the reservation. *)
Definition handleEditReservation (r : Reservation) : EditData :=
  {| ed_date := date r;
     ed_time := time r;
     ed_people_count := string_of_Z (people_count r);
     ed_special_requests :=
       match special_requests r with
       | Some s => str_or s ""
       | None => ""
       end |}.

(** What [handleUpdateReservation] does with the form. *)
Inductive ClientAction : Type :=
| DoNothing
| AlertError (msg : string)
| PutReservation (i : Z) (b : Body).

(** [handleUpdateReservation]: the checks of the form and the request that
    is sent.  A property that is [undefined] is left out of the JSON body. *)
Definition handleUpdateReservation (editing : option Reservation)
    (d : EditData) : ClientAction :=
  match editing with
  | None => DoNothing
  | Some r =>
      if (ed_date d =? "")%string || (ed_time d =? "")%string then
        AlertError "Please enter date and time"
      else
        match parseInt (ed_people_count d) with
        | None => AlertError "Please enter a valid number of people (1-20)"
        | Some n =>
            if (n <? 1) || (20 <? n) then
              AlertError "Please enter a valid number of people (1-20)"
            else
              PutReservation (id r)
                {| b_restaurant_id := JUndefined;
                   b_date := JStr (ed_date d);
                   b_time := JStr (ed_time d);
                   b_people_count := JNum n;
                   b_special_requests :=
                     if (ed_special_requests d =? "")%string then JUndefined
                     else JStr (ed_special_requests d) |}
        end
  end.

(* ===================================================================== *)
(** ** Vocabulary of the further statements                              *)
(* ===================================================================== *)

(** [t] occurs in [s], letter case apart. *)
Definition occurs_in (t s : string) : Prop :=
  exists a b, toLowerCase s = a ++ toLowerCase t ++ b.

(** An optional search term holds of a restaurant: an absent or empty term
    holds of every restaurant. *)
Definition term_holds (x : option string) (p : string -> Prop) : Prop :=
  match x with
  | Some t => t <> "" -> p t
  | None => True
  end.

(** The AUTO_INCREMENT counter is above every id in the table. *)
Definition fresh_ids (db : Database) : Prop :=
  forall r, In r (reservations db) -> id r < next_reservation_id db.

(** Every reservation has its user and its restaurant. *)
Definition referential (db : Database) : Prop :=
  forall r, In r (reservations db) ->
    (exists u, In u (users db) /\ user_id_ u = user_id r)
    /\ (exists x, In x (restaurants db) /\ rest_id x = restaurant_id r).

Definition well_formed (db : Database) : Prop :=
  primary_key db /\ fresh_ids db /\ referential db.

(** The bounds of the data model on a stored reservation. *)
Definition in_bounds (r : Reservation) : Prop :=
  1 <= people_count r <= 20
  /\ match special_requests r with
     | Some t => (String.length t <= 500)%nat
     | None => True
     end.

(** The reservations of the users other than [uid]. *)
Definition of_others (uid : Z) (db : Database) : list Reservation :=
  filter (fun r => negb (user_id r =? uid)) (reservations db).

(** A comparator that orders totally, with ties on both sides. *)
Definition ordering {A : Type} (cmp : A -> A -> Z) : Prop :=
  (forall a b, Z.sgn (cmp a b) = - Z.sgn (cmp b a))
  /\ (forall a b c, cmp a b <= 0 -> cmp b c <= 0 -> cmp a c <= 0).

(** [a] is listed before [b]: a later date, or the same date and a time
    that is not earlier. *)
Definition listed_before {P : Platform} (a b : Reservation) : Prop :=
  sql_datecmp (date b) (date a) < 0
  \/ (sql_datecmp (date b) (date a) = 0
      /\ sql_timecmp (time b) (time a) <= 0).

(** The answer of a login as [u]. *)
Definition login_ok {P : Platform} (u : User) : Response :=
  {| code := 200; success := true; message := Some "Login successful";
     data := DLogin (user_id_ u) (user_name u) (user_email u)
               (jwt_sign (user_id_ u)) |}.

(** A registration and the draw that goes with it. *)
Definition carol_registers : RegisterBody :=
  {| rb_name := "  Carol "; rb_email := "Carol@Example.com";
     rb_password := "s3cret!" |}.

Definition carol_draw : Draw := {| salt := "salt"; insertId := 3 |}.

(** The edit form emptied of its special requests. *)
Definition form_for_six : EditData :=
  {| ed_date := "2030-01-15"; ed_time := "19:30";
     ed_people_count := " 6 people"; ed_special_requests := "" |}.

(** Two rows with the same keys; the same row unless its id is [i]. *)
Definition same_keys (i : Z) (r r' : Reservation) : Prop :=
  id r' = id r /\ user_id r' = user_id r
  /\ restaurant_id r' = restaurant_id r /\ (id r <> i -> r' = r).

(** [db'] is [db], or [db] after an [UPDATE] of the reservations with id
    [i], one of which [uid] owns. *)
Definition rewritten (uid i : Z) (db db' : Database) : Prop :=
  db' = db
  \/ (owned i uid db <> []
      /\ exists rows',
           Forall2 (same_keys i) (reservations db) rows'
           /\ db' = set_reservations db rows').

(** [db'] is [db], or [db] after the [INSERT] of a confirmed reservation
    of [uid] under the next id. *)
Definition appended (uid : Z) (db db' : Database) : Prop :=
  db' = db
  \/ exists row,
       id row = next_reservation_id db /\ user_id row = uid
       /\ status row = confirmed
       /\ (exists u, In u (users db) /\ user_id_ u = uid)
       /\ (exists x, In x (restaurants db) /\ rest_id x = restaurant_id row)
       /\ db' = {| users := users db;
                   restaurants := restaurants db;
                   reservations := reservations db ++ [row];
                   next_reservation_id := next_reservation_id db + 1 |}.

(** The row that create stores for the body [b]. *)
Definition new_reservation (e : Env) (uid : Z) (b : Body) (rest : Restaurant)
    (d t : string) (n : Z) (db : Database) : Reservation :=
  {| id := next_reservation_id db; user_id := uid;
     restaurant_id := rest_id rest; date := d; time := t;
     people_count := n; status := confirmed;
     special_requests := sql_text (or_null (b_special_requests b));
     created_at := now e; updated_at := now e |}.

(** The statements [c] write nothing unless they return a success. *)
Definition writes_on_success_only (c : SQL Response) : Prop :=
  forall db,
    match fst (c db) with
    | Returned r => success r = false -> snd (c db) = db
    | Thrown => snd (c db) = db
    end.

(* ===================================================================== *)
(** ** The client: the restaurant list                                   *)
(* ===================================================================== *)

(** The state of [RestaurantListScreen] that [loadRestaurants] reads and
    sets: [restaurants], [page] and [hasMore]. *)
Record ListScreen : Type := {
  ls_restaurants : list Restaurant;
  ls_page : Z;
  ls_hasMore : bool
}.

(** The query that [ApiService.getRestaurants(searchQuery || undefined,
    undefined, undefined, currentPage, 10)] sends. *)
Definition list_query (searchQuery : string) (currentPage : Z)
  : CatalogQuery :=
  {| q_search := if (searchQuery =? "")%string then None
                 else Some searchQuery;
     q_location := None;
     q_cuisine := None;
     q_page := Some currentPage;
     q_limit := Some 10 |}.

(** [loadRestaurants(reset)], one request at a time: the state is left as
    it is when the request fails.  A page count of [null] compares as
    zero. *)
Definition loadRestaurants {P : Platform} (reset : bool)
    (searchQuery : string) (s : Server) (st : ListScreen) : ListScreen :=
  let currentPage := if reset then 1 else ls_page st in
  let response := fst (get_restaurants (list_query searchQuery currentPage) s) in
  if success response then
    match data response with
    | DRestaurants newRestaurants pagination =>
        {| ls_restaurants :=
             if reset then newRestaurants
             else (ls_restaurants st ++ newRestaurants)%list;
           ls_page := currentPage + 1;
           ls_hasMore :=
             match pg_pages pagination with
             | Some pages => currentPage <? pages
             | None => currentPage <? 0
             end |}
    | _ => st
    end
  else st.

(** [loadMore], called when the end of the list is reached. *)
Definition loadMore {P : Platform} (searchQuery : string) (s : Server)
    (st : ListScreen) : ListScreen :=
  if ls_hasMore st then loadRestaurants false searchQuery s st else st.

(** The screen after a first load and [n] times reaching the end of the
    list. *)
Fixpoint scrolled {P : Platform} (n : nat) (searchQuery : string)
    (s : Server) (st : ListScreen) : ListScreen :=
  match n with
  | O => loadRestaurants true searchQuery s st
  | S k => loadMore searchQuery s (scrolled k searchQuery s st)
  end.

(** More sample requests. *)

(** A registration with the email of Alice, in other letter case. *)
Definition alice_again : RegisterBody :=
  {| rb_name := "Alice B"; rb_email := "Alice@Example.com";
     rb_password := "looking-glass" |}.

(** A well-formed request for a table at a restaurant that does not
    exist. *)
Definition booking_nowhere : Body :=
  {| b_restaurant_id := JNum 99; b_date := JStr "2030-01-15";
     b_time := JStr "19:30"; b_people_count := JNum 4;
     b_special_requests := JUndefined |}.

(** Page three of the catalogue, four restaurants to a page. *)
Definition third_page : CatalogQuery :=
  {| q_search := None; q_location := None; q_cuisine := None;
     q_page := Some 3; q_limit := Some 4 |}.

(** A reservation of the sample database as the listing shows it. *)
Definition shown (r : Reservation) (k : nat) : ReservationView :=
  {| view_row := r; view_restaurant := sample k; view_user := None |}.

(** [{ "time": "", "people_count": 6 }]: [party_of_six] with an empty
    time. *)
Definition party_of_six_no_time : Body :=
  {| b_restaurant_id := JUndefined; b_date := JUndefined;
     b_time := JStr ""; b_people_count := JNum 6;
     b_special_requests := JUndefined |}.

(** [{ "special_requests": "" }] *)
Definition no_requests : Body :=
  {| b_restaurant_id := JUndefined; b_date := JUndefined;
     b_time := JUndefined; b_people_count := JUndefined;
     b_special_requests := JStr "" |}.

(** A field that is present in the body and falsy: [null], [false], zero
    or the empty string. *)
Definition present_and_falsy (v : JsVal) : Prop :=
  v <> JUndefined /\ truthy v = false.

(** The reservation is one that the listing of [uid] with the [status]
    parameter [st] asks for: one of [uid], with that status when [st]
    names a status. *)
Definition asked_for (uid : Z) (st : string) (r : Reservation) : bool :=
  (user_id r =? uid)
  && match status_of_string st with
     | Some known => Status_eqb (status r) known
     | None => true
     end.







(** An empty list screen. *)
Definition empty_screen : ListScreen :=
  {| ls_restaurants := []; ls_page := 1; ls_hasMore := true |}.

(** The request that the edit form sends for [form_for_six]. *)
Definition party_and_day : Body :=
  {| b_restaurant_id := JUndefined; b_date := JStr "2030-01-15";
     b_time := JStr "19:30"; b_people_count := JNum 6;
     b_special_requests := JUndefined |}.

(* ===================================================================== *)
(** ** Running a handler                                                 *)
(* ===================================================================== *)

Lemma with_db_same (s : Server) (db : Database) :
  mysql s = Some db -> with_db s db = s.
Proof.
  destruct s as [m u c]; simpl; intros ->; reflexivity.
Qed.

(** A handler that only reads answers with the statements' result and
    leaves the server as it was. *)
Lemma with_connection_run (c : SQL Response) (s : Server) (db : Database) :
  mysql s = Some db ->
  with_connection c s = (fst (c db), with_db s (snd (c db))).
Proof.
  intros H; unfold with_connection; rewrite H.
  destruct (c db) as [o db']; reflexivity.
Qed.


Lemma bind_query {A B : Type} (f : Database -> A) (k : A -> SQL B)
    (db : Database) :
  bind (query f) k db = k (f db) db.
Proof. reflexivity. Qed.

Lemma Status_eqb_eq (a b : Status) : Status_eqb a b = true <-> a = b.
Proof. destruct a, b; simpl; split; congruence. Qed.

(* ===================================================================== *)
(** ** Ownership                                                         *)
(* ===================================================================== *)

Lemma key_unique {A : Type} (f : A -> Z) (l : list A) (a b : A) :
  NoDup (map f l) -> In a l -> In b l -> f a = f b -> a = b.
Proof.
  induction l as [|x l IH]; simpl; intros Hnd Ha Hb Hf; [contradiction|].
  inversion Hnd as [|y l' Hnotin Hnd']; subst.
  destruct Ha as [->|Ha], Hb as [->|Hb]; auto.
  - exfalso; apply Hnotin; rewrite Hf; now apply in_map.
  - exfalso; apply Hnotin; rewrite <- Hf; now apply in_map.
Qed.

Lemma filter_none {A : Type} (p : A -> bool) (l : list A) :
  (forall x, In x l -> p x = false) -> filter p l = [].
Proof.
  induction l as [|x l IH]; simpl; intros H; [reflexivity|].
  rewrite (H x (or_introl eq_refl)).
  apply IH; intros y Hy; apply H; now right.
Qed.

(** With [id] a primary key, a reservation of another user leaves the
    ownership query empty. *)
Lemma owned_by_other (db : Database) (r : Reservation) (uid : Z) :
  primary_key db -> In r (reservations db) -> user_id r <> uid ->
  owned (id r) uid db = [].
Proof.
  intros Hpk Hin Hne; unfold owned.
  assert (H : forall x, In x (reservations db) ->
                (id x =? id r) && (user_id x =? uid) = false).
  { intros x Hx.
    destruct (id x =? id r) eqn:E; [|reflexivity]; simpl.
    apply Z.eqb_eq in E.
    assert (x = r) by (eapply key_unique; eauto).
    subst x; now apply Z.eqb_neq. }
  now apply filter_none.
Qed.

Lemma owned_without (i uid : Z) (db : Database) :
  owned i uid (without_reservation i db) = [].
Proof.
  unfold owned, without_reservation; simpl.
  apply filter_none; intros x Hx.
  apply filter_In in Hx; destruct Hx as [_ Hx].
  destruct (id x =? i); [discriminate|reflexivity].
Qed.

Lemma get_not_owned (uid i : Z) (s : Server) (db : Database) :
  mysql s = Some db -> owned i uid db = [] ->
  get_reservation uid i s = (failure 404 "Reservation not found", s).
Proof.
  intros Hs Ho; unfold get_reservation.
  rewrite (with_connection_run _ s db Hs), bind_query, Ho; simpl.
  now rewrite with_db_same.
Qed.

Lemma cancel_not_owned (e : Env) (uid i : Z) (s : Server) (db : Database) :
  mysql s = Some db -> owned i uid db = [] ->
  cancel_reservation e uid i s = (failure 404 "Reservation not found", s).
Proof.
  intros Hs Ho; unfold cancel_reservation, cancel_on_connection.
  rewrite (with_connection_run _ s db Hs), bind_query, Ho; simpl.
  now rewrite with_db_same.
Qed.

Lemma update_on_connection_not_owned {P : Platform} (e : Env) (uid i : Z)
    (b : Body) (db : Database) :
  owned i uid db = [] ->
  update_on_connection e uid i b db
  = (Returned (failure 404 "Reservation not found"), db).
Proof.
  intros Ho; unfold update_on_connection.
  now rewrite bind_query, Ho.
Qed.

Lemma update_not_owned {P : Platform} (e : Env) (uid i : Z) (b : Body)
    (s : Server) (db : Database) :
  mysql s = Some db -> owned i uid db = [] ->
  update_reservation e uid i b s
  = match validate_update b with
    | [] => (failure 404 "Reservation not found", s)
    | errs => (validation_failed errs, s)
    end.
Proof.
  intros Hs Ho; unfold update_reservation.
  destruct (validate_update b); [|reflexivity].
  rewrite (with_connection_run _ s db Hs), update_on_connection_not_owned by assumption.
  simpl; now rewrite with_db_same.
Qed.

(** C2. A reservation that exists but belongs to another user is answered
    like one that does not exist: reading it, cancelling it and updating it
    (with a body that passes the request validation) all answer 404
    [Reservation not found], which is NotFound and not a 403; the answer
    carries no reservation, the server state is unchanged, and for every
    body the three answers are those given when no reservation has that id. *)
Theorem not_owned_is_not_found {P : Platform} (e : Env) (uid : Z) (b : Body)
    (s : Server) (db : Database) (r : Reservation) :
  mysql s = Some db ->
  primary_key db ->
  In r (reservations db) ->
  user_id r <> uid ->
  let i := id r in
  let absent := with_db s (without_reservation i db) in
  let not_found := failure 404 "Reservation not found" in
  get_reservation uid i s = (not_found, s)
  /\ cancel_reservation e uid i s = (not_found, s)
  /\ (validate_update b = [] ->
      update_reservation e uid i b s = (not_found, s))
  /\ error_kind not_found = Some NotFound
  /\ data not_found = NoData
  /\ snd (update_reservation e uid i b s) = s
  /\ fst (get_reservation uid i s) = fst (get_reservation uid i absent)
  /\ fst (cancel_reservation e uid i s)
     = fst (cancel_reservation e uid i absent)
  /\ fst (update_reservation e uid i b s)
     = fst (update_reservation e uid i b absent).
Proof.
  intros Hs Hpk Hin Hne i absent not_found.
  pose proof (owned_by_other db r uid Hpk Hin Hne) as Ho.
  assert (Ha : mysql absent = Some (without_reservation i db)) by reflexivity.
  pose proof (owned_without i uid db) as Hoa.
  rewrite (get_not_owned uid i s db Hs Ho).
  rewrite (cancel_not_owned e uid i s db Hs Ho).
  rewrite (update_not_owned e uid i b s db Hs Ho).
  rewrite (get_not_owned uid i absent _ Ha Hoa).
  rewrite (cancel_not_owned e uid i absent _ Ha Hoa).
  rewrite (update_not_owned e uid i b absent _ Ha Hoa).
  repeat split; try reflexivity.
  - intros ->; reflexivity.
  - destruct (validate_update b); reflexivity.
  - destruct (validate_update b); reflexivity.
Qed.

(* ===================================================================== *)
(** ** Reservations in a final state                                     *)
(* ===================================================================== *)




Lemma update_rows_map (e : Env) (l : list Assignment) (i : Z)
    (f : Reservation -> Reservation) (rows : list Reservation) :
  (forall r, In r rows -> id r = i -> assign_all e l r = Some (f r)) ->
  update_rows e l i rows
  = Some (map (fun r => if id r =? i then f r else r) rows).
Proof.
  induction rows as [|r rows IH]; simpl; intros H; [reflexivity|].
  rewrite IH by (intros; apply H; auto).
  destruct (id r =? i) eqn:E; [|reflexivity].
  apply Z.eqb_eq in E.
  now rewrite (H r (or_introl eq_refl) E).
Qed.


(** C1. Alice's reservation 2 is completed; her [DELETE /reservations/2] is
    answered 200 [Reservation cancelled successfully] and leaves the
    reservation cancelled, with a new update timestamp. *)
Theorem cancel_completed_reservation :
  map status (owned 2 1 sample_db) = [completed]
  /\ fst (cancel_reservation env_athens 1 2 sample_server) = cancelled_ok
  /\ error_kind (fst (cancel_reservation env_athens 1 2 sample_server)) = None
  /\ match mysql (snd (cancel_reservation env_athens 1 2 sample_server)) with
     | Some db' =>
         map status (owned 2 1 db') = [cancelled]
         /\ map updated_at (owned 2 1 db') = [now env_athens]
     | None => False
     end.
Proof.
  vm_compute; repeat split.
Qed.

(* ===================================================================== *)
(** ** The date check                                                    *)
(* ===================================================================== *)

(** Midnight UTC of an earlier day is before the server's local midnight. *)
Lemma earlier_day_before_midnight (e : Env) (day : Z) :
  -1440 < timezoneOffset e -> day < local_day e ->
  day * msPerDay < today_midnight e.
Proof.
  unfold today_midnight, msPerDay, msPerMinute; intros Htz Hd; lia.
Qed.

(** Midnight UTC of the current day is before the server's local midnight
    exactly when the server is west of Greenwich. *)
Lemma today_before_midnight (e : Env) :
  (local_day e * msPerDay <? today_midnight e) = (0 <? timezoneOffset e).
Proof.
  unfold today_midnight, msPerDay, msPerMinute.
  destruct (0 <? timezoneOffset e) eqn:E.
  - apply Z.ltb_lt in E; apply Z.ltb_lt; lia.
  - apply Z.ltb_ge in E; apply Z.ltb_ge; lia.
Qed.

Lemma filter_some {A : Type} (p : A -> bool) (l : list A) (a : A) :
  In a l -> p a = true -> filter p l <> [].
Proof.
  intros Hin Hp Hnil.
  assert (H : In a (filter p l)) by (apply filter_In; auto).
  rewrite Hnil in H; exact H.
Qed.

(** The statements of create up to the date check, for a restaurant that
    exists and a date that the check rejects. *)
Lemma create_on_connection_rejected {P : Platform} (e : Env) (uid : Z)
    (b : Body) (db : Database) (rest : Restaurant) :
  In rest (restaurants db) ->
  sql_int (b_restaurant_id b) = Some (rest_id rest) ->
  date_lt (new_Date (b_date b)) (today_midnight e) = true ->
  create_on_connection e uid b db
  = (Returned (failure 400 "Cannot make reservations for past dates"), db).
Proof.
  intros Hin Hid Hlt; unfold create_on_connection, select_restaurant.
  rewrite bind_query, Hid.
  destruct (filter (fun r => rest_id r =? rest_id rest) (restaurants db)) eqn:F.
  - exfalso; revert F; apply (filter_some _ _ rest Hin), Z.eqb_refl.
  - now rewrite Hlt.
Qed.

Lemma create_rejected {P : Platform} (e : Env) (uid : Z)
    (b : Body) (s : Server) (db : Database) (rest : Restaurant) :
  mysql s = Some db -> validate_create b = [] ->
  In rest (restaurants db) ->
  sql_int (b_restaurant_id b) = Some (rest_id rest) ->
  date_lt (new_Date (b_date b)) (today_midnight e) = true ->
  create_reservation e uid b s
  = (failure 400 "Cannot make reservations for past dates", s).
Proof.
  intros Hs Hv Hin Hid Hlt; unfold create_reservation; rewrite Hv.
  rewrite (with_connection_run _ s db Hs).
  rewrite (create_on_connection_rejected e uid b db rest Hin Hid Hlt); simpl.
  now rewrite with_db_same.
Qed.

(** Creating a reservation at an existing restaurant for a calendar day
    before the server's current day is refused with ValidationFailed, and
    nothing is written. *)
Lemma create_past_date_refused {P : Platform} (e : Env) (uid : Z)
    (b : Body) (s : Server) (db : Database) (rest : Restaurant)
    (d : string) (day : Z) :
  mysql s = Some db -> validate_create b = [] ->
  In rest (restaurants db) ->
  sql_int (b_restaurant_id b) = Some (rest_id rest) ->
  b_date b = JStr d -> Date_parse d = Some (day * msPerDay) ->
  -1440 < timezoneOffset e -> day < local_day e ->
  create_reservation e uid b s
  = (failure 400 "Cannot make reservations for past dates", s)
  /\ error_kind (fst (create_reservation e uid b s)) = Some ValidationFailed.
Proof.
  intros Hs Hv Hin Hid Hd Hp Htz Hday.
  assert (H : create_reservation e uid b s
              = (failure 400 "Cannot make reservations for past dates", s)).
  { apply (create_rejected e uid b s db rest); auto.
    rewrite Hd; simpl; rewrite Hp; simpl.
    apply Z.ltb_lt; now apply earlier_day_before_midnight. }
  rewrite H; split; reflexivity.
Qed.

(** On a server west of Greenwich the current calendar day itself is
    refused as a past date. *)
Lemma create_today_refused_west {P : Platform} (e : Env) (uid : Z)
    (b : Body) (s : Server) (db : Database) (rest : Restaurant) (d : string) :
  mysql s = Some db -> validate_create b = [] ->
  In rest (restaurants db) ->
  sql_int (b_restaurant_id b) = Some (rest_id rest) ->
  b_date b = JStr d -> Date_parse d = Some (local_day e * msPerDay) ->
  0 < timezoneOffset e ->
  create_reservation e uid b s
  = (failure 400 "Cannot make reservations for past dates", s).
Proof.
  intros Hs Hv Hin Hid Hd Hp Htz.
  apply (create_rejected e uid b s db rest); auto.
  rewrite Hd; simpl; rewrite Hp; simpl.
  rewrite today_before_midnight; now apply Z.ltb_lt.
Qed.

(** C3. A server in New York at noon of 2025-01-15 is asked by Alice for a
    table at restaurant 1 on 2025-01-15, the current calendar day, with a
    body that passes the validation: the answer is 400 [Cannot make
    reservations for past dates] and nothing is stored.  The same request on
    a server in Athens at the same instant is answered 201. *)
Theorem create_today_refused_in_new_york :
  Date_parse_date_only "2025-01-15" = Some (local_day env_new_york * msPerDay)
  /\ @validate_create node_platform (booking "2025-01-15") = []
  /\ @create_reservation node_platform env_new_york 1 (booking "2025-01-15")
       sample_server
     = (failure 400 "Cannot make reservations for past dates", sample_server)
  /\ code (fst (@create_reservation node_platform env_athens 1
                  (booking "2025-01-15") sample_server)) = 201.
Proof.
  vm_compute; repeat split.
Qed.

Lemma check_nil (p : string -> bool) (msg : string) (v : JsVal) :
  check p msg v = [] -> p (toString v) = true.
Proof.
  unfold check; destruct (p (toString v)); [reflexivity|discriminate].
Qed.

Lemma isInt_sql_int (lo : Z) (hi : option Z) (v : JsVal) :
  isInt lo hi (toString v) = true -> exists n, sql_int v = Some n.
Proof.
  destruct v as [| |[|]|n|s]; simpl; try discriminate; eauto.
  unfold isInt; destruct (parse_int s); [eauto|discriminate].
Qed.

Lemma matches_time_sql_text (v : JsVal) :
  matches_time (toString v) = true -> exists t, sql_text v = Some t.
Proof.
  destruct v as [| |[|]|n|s]; simpl; try discriminate; eauto.
Qed.

Lemma validate_create_nil {P : Platform} (b : Body) :
  validate_create b = [] ->
  (exists rid, sql_int (b_restaurant_id b) = Some rid)
  /\ (exists t, sql_text (b_time b) = Some t)
  /\ (exists n, sql_int (b_people_count b) = Some n).
Proof.
  unfold validate_create; intros H.
  apply app_eq_nil in H; destruct H as [H1 H].
  apply app_eq_nil in H; destruct H as [_ H].
  apply app_eq_nil in H; destruct H as [H3 H].
  apply app_eq_nil in H; destruct H as [H4 _].
  apply check_nil in H1, H3, H4.
  repeat split.
  - exact (isInt_sql_int _ _ _ H1).
  - exact (matches_time_sql_text _ H3).
  - exact (isInt_sql_int _ _ _ H4).
Qed.

(** The database after the insertion of create. *)
Lemma create_on_connection_accepted {P : Platform} (e : Env) (uid : Z)
    (b : Body) (db : Database) (rest : Restaurant) (u : User)
    (d t : string) (n : Z) :
  In rest (restaurants db) ->
  sql_int (b_restaurant_id b) = Some (rest_id rest) ->
  In u (users db) -> user_id_ u = uid ->
  b_date b = JStr d ->
  sql_text (b_time b) = Some t -> sql_int (b_people_count b) = Some n ->
  date_lt (new_Date (b_date b)) (today_midnight e) = false ->
  exists v,
    create_on_connection e uid b db
    = (Returned (created v), inserted e uid b rest d t n db).
Proof.
  intros Hin Hid Hu Huid Hd Ht Hn Hlt.
  unfold create_on_connection, select_restaurant.
  rewrite bind_query, Hid.
  destruct (filter (fun r => rest_id r =? rest_id rest) (restaurants db)) eqn:F.
  { exfalso; revert F; apply (filter_some _ _ rest Hin), Z.eqb_refl. }
  rewrite Hlt.
  unfold bind at 1; unfold insert_reservation.
  rewrite Hid, Hd, Ht, Hn; simpl sql_text.
  assert (E1 : existsb (fun x => user_id_ x =? uid) (users db) = true).
  { apply existsb_exists; exists u; split; [assumption|].
    rewrite Huid; apply Z.eqb_refl. }
  assert (E2 : existsb (fun r => rest_id r =? rest_id rest) (restaurants db) = true).
  { apply existsb_exists; exists rest; split; [assumption|apply Z.eqb_refl]. }
  rewrite E1, E2; simpl andb; cbv iota beta.
  rewrite bind_query; unfold ret, inserted; eauto.
Qed.

(** When the date check lets a valid request through, the reservation is
    stored as a new confirmed row and the answer is 201. *)
Lemma create_accepted {P : Platform} (e : Env) (uid : Z)
    (b : Body) (s : Server) (db : Database) (rest : Restaurant) (u : User)
    (d : string) :
  mysql s = Some db -> validate_create b = [] ->
  In rest (restaurants db) ->
  sql_int (b_restaurant_id b) = Some (rest_id rest) ->
  In u (users db) -> user_id_ u = uid ->
  b_date b = JStr d ->
  date_lt (new_Date (b_date b)) (today_midnight e) = false ->
  exists t n,
    sql_text (b_time b) = Some t /\ sql_int (b_people_count b) = Some n
    /\ code (fst (create_reservation e uid b s)) = 201
    /\ snd (create_reservation e uid b s)
       = with_db s (inserted e uid b rest d t n db).
Proof.
  intros Hs Hv Hin Hid Hu Huid Hd Hlt.
  destruct (validate_create_nil b Hv) as (_ & [t Ht] & [n Hn]).
  exists t, n; split; [assumption|]; split; [assumption|].
  unfold create_reservation; rewrite Hv.
  rewrite (with_connection_run _ s db Hs).
  destruct (create_on_connection_accepted e uid b db rest u d t n
              Hin Hid Hu Huid Hd Ht Hn Hlt) as [v ->].
  split; reflexivity.
Qed.

(** On a server that is not west of Greenwich, a valid request for the
    current calendar day or a later one passes the date check. *)
Lemma today_passes_when_not_west {P : Platform} (e : Env) (b : Body)
    (d : string) (day : Z) :
  b_date b = JStr d -> Date_parse d = Some (day * msPerDay) ->
  timezoneOffset e <= 0 -> local_day e <= day ->
  date_lt (new_Date (b_date b)) (today_midnight e) = false.
Proof.
  intros Hd Hp Htz Hday; rewrite Hd; simpl; rewrite Hp; simpl.
  apply Z.ltb_ge; unfold today_midnight, msPerDay, msPerMinute; lia.
Qed.

(* ===================================================================== *)
(** ** Partial update                                                    *)
(* ===================================================================== *)

Lemma truthy_sql_text (v : JsVal) :
  truthy v = true -> exists s, sql_text v = Some s.
Proof.
  destruct v as [| |[|]|n|s]; simpl; try discriminate; eauto.
Qed.

Lemma assign_all_app (e : Env) (l1 l2 : list Assignment) (r : Reservation) :
  assign_all e (l1 ++ l2) r
  = match assign_all e l1 r with
    | Some r' => assign_all e l2 r'
    | None => None
    end.
Proof.
  revert r; induction l1 as [|a l1 IH]; simpl; intros r; [reflexivity|].
  destruct (assign e a r); [apply IH|reflexivity].
Qed.

(** The [SET] list of the handler writes what the specification's partial
    update writes. *)
Lemma assign_all_updateFields (e : Env) (b : Body) (r : Reservation) :
  (truthy (b_people_count b) = true ->
   exists n, sql_int (b_people_count b) = Some n) ->
  assign_all e (updateFields b ++ [SetUpdatedAt]) r
  = Some (partial_update e b r).
Proof.
  intros Hn; unfold updateFields, partial_update.
  destruct (truthy (b_date b)) eqn:Td;
    [destruct (truthy_sql_text _ Td) as [d Hd]|];
  (destruct (truthy (b_time b)) eqn:Tt;
    [destruct (truthy_sql_text _ Tt) as [t Ht]|]);
  (destruct (truthy (b_people_count b)) eqn:Tn;
    [destruct (Hn eq_refl) as [n Hn']|]);
  destruct (is_defined (b_special_requests b)) eqn:Ts;
  simpl; rewrite ?Hd; simpl; rewrite ?Ht; simpl; rewrite ?Hn'; reflexivity.
Qed.

Lemma validate_update_people {P : Platform} (b : Body) :
  validate_update b = [] ->
  truthy (b_people_count b) = true ->
  exists n, sql_int (b_people_count b) = Some n.
Proof.
  unfold validate_update; intros H Ht.
  apply app_eq_nil in H; destruct H as [_ H].
  apply app_eq_nil in H; destruct H as [_ H].
  apply app_eq_nil in H; destruct H as [H _].
  unfold optional in H.
  destruct (b_people_count b) eqn:E; try discriminate;
    rewrite <- E in *; apply check_nil in H;
    exact (isInt_sql_int _ _ _ H).
Qed.

Lemma not_terminal (st : Status) :
  terminal st = false ->
  Status_eqb st cancelled || Status_eqb st completed = false.
Proof. destruct st; simpl; congruence. Qed.

(** The statements of update on an owned reservation that is not final,
    case by case. *)
Lemma update_on_connection_no_fields {P : Platform} (e : Env) (uid i : Z)
    (b : Body) (db : Database) (r : Reservation) (rest : list Reservation) :
  owned i uid db = r :: rest -> terminal (status r) = false ->
  updateFields b = [] ->
  update_on_connection e uid i b db
  = (Returned (failure 400 "No fields to update"), db).
Proof.
  intros Ho Ht Hf; unfold update_on_connection.
  rewrite bind_query, Ho, (not_terminal _ Ht), Hf.
  assert (Td : truthy (b_date b) = false).
  { unfold updateFields in Hf.
    destruct (truthy (b_date b)); [discriminate|reflexivity]. }
  now rewrite Td.
Qed.

Lemma update_on_connection_past {P : Platform} (e : Env) (uid i : Z)
    (b : Body) (db : Database) (r : Reservation) (rest : list Reservation) :
  owned i uid db = r :: rest -> terminal (status r) = false ->
  date_check_passes e b = false ->
  update_on_connection e uid i b db
  = (Returned (failure 400 "Cannot modify reservation to a past date"), db).
Proof.
  intros Ho Ht Hd; unfold update_on_connection.
  rewrite bind_query, Ho, (not_terminal _ Ht).
  unfold date_check_passes in Hd; apply negb_false_iff in Hd.
  now rewrite Hd.
Qed.

Lemma update_on_connection_applied {P : Platform} (e : Env) (uid i : Z)
    (b : Body) (db : Database) (r : Reservation) (rest : list Reservation) :
  owned i uid db = r :: rest -> terminal (status r) = false ->
  date_check_passes e b = true ->
  updateFields b <> [] ->
  (truthy (b_people_count b) = true ->
   exists n, sql_int (b_people_count b) = Some n) ->
  exists v,
    update_on_connection e uid i b db
    = (Returned (updated v), rewrite_rows i (partial_update e b) db).
Proof.
  intros Ho Ht Hd Hf Hn; unfold update_on_connection.
  rewrite bind_query, Ho, (not_terminal _ Ht).
  unfold date_check_passes in Hd; apply negb_true_iff in Hd; rewrite Hd.
  destruct (updateFields b) as [|a l] eqn:F; [congruence|].
  rewrite <- F.
  unfold bind at 1; unfold update_reservations.
  rewrite (update_rows_map e _ i (partial_update e b))
    by (intros; now apply assign_all_updateFields).
  rewrite bind_query; unfold ret, rewrite_rows; eauto.
Qed.

Lemma update_run {P : Platform} (e : Env) (uid i : Z) (b : Body)
    (s : Server) (db db' : Database) (resp : Response) :
  mysql s = Some db -> validate_update b = [] ->
  update_on_connection e uid i b db = (Returned resp, db') ->
  update_reservation e uid i b s = (resp, with_db s db').
Proof.
  intros Hs Hv H; unfold update_reservation; rewrite Hv.
  now rewrite (with_connection_run _ s db Hs), H.
Qed.

(** What the partial update keeps: the fields that are not supplied, and
    the identity, owner, restaurant, status and creation time of the row. *)
Lemma partial_update_frame (e : Env) (b : Body) (r : Reservation) :
  (truthy (b_date b) = false -> date (partial_update e b r) = date r)
  /\ (truthy (b_time b) = false -> time (partial_update e b r) = time r)
  /\ (truthy (b_people_count b) = false ->
      people_count (partial_update e b r) = people_count r)
  /\ (b_special_requests b = JUndefined ->
      special_requests (partial_update e b r) = special_requests r)
  /\ id (partial_update e b r) = id r
  /\ user_id (partial_update e b r) = user_id r
  /\ restaurant_id (partial_update e b r) = restaurant_id r
  /\ status (partial_update e b r) = status r
  /\ created_at (partial_update e b r) = created_at r
  /\ updated_at (partial_update e b r) = now e.
Proof.
  unfold partial_update; simpl.
  repeat split; try reflexivity; intros H; rewrite H; reflexivity.
Qed.

(** What the partial update writes: the supplied values. *)
Lemma partial_update_writes (e : Env) (b : Body) (r : Reservation) :
  (forall d, truthy (b_date b) = true -> sql_text (b_date b) = Some d ->
     date (partial_update e b r) = d)
  /\ (forall t, truthy (b_time b) = true -> sql_text (b_time b) = Some t ->
     time (partial_update e b r) = t)
  /\ (forall n, truthy (b_people_count b) = true ->
     sql_int (b_people_count b) = Some n ->
     people_count (partial_update e b r) = n)
  /\ (is_defined (b_special_requests b) = true ->
     special_requests (partial_update e b r)
     = sql_text (or_null (b_special_requests b))).
Proof.
  unfold partial_update; simpl.
  repeat split; intros;
    repeat match goal with H : _ = _ |- _ => rewrite H; clear H end;
    reflexivity.
Qed.

(** C4, amended.  An update of an owned reservation that is not final, with
    a body that passes the request validation: when no field is supplied
    the answer is 400 [No fields to update] (ValidationFailed) and the
    server state is unchanged; when a supplied date fails the date check
    the answer is 400 and the server state is unchanged; otherwise the rows
    with that id become their partial update (the supplied fields written,
    the others kept, [updated_at] set to the current time) and every other
    row is as before. *)
Theorem update_partial {P : Platform} (e : Env) (uid i : Z) (b : Body)
    (s : Server) (db : Database) (r : Reservation) (rest : list Reservation) :
  mysql s = Some db ->
  validate_update b = [] ->
  owned i uid db = r :: rest ->
  terminal (status r) = false ->
  (updateFields b = [] ->
     update_reservation e uid i b s = (failure 400 "No fields to update", s)
     /\ error_kind (failure 400 "No fields to update") = Some ValidationFailed)
  /\ (date_check_passes e b = false ->
     update_reservation e uid i b s
     = (failure 400 "Cannot modify reservation to a past date", s))
  /\ (updateFields b <> [] -> date_check_passes e b = true ->
     exists v,
       update_reservation e uid i b s
       = (updated v, with_db s (rewrite_rows i (partial_update e b) db))).
Proof.
  intros Hs Hv Ho Ht; split; [|split].
  - intros Hf.
    rewrite (update_run e uid i b s db db _ Hs Hv
               (update_on_connection_no_fields e uid i b db r rest Ho Ht Hf)).
    now rewrite with_db_same.
  - intros Hd.
    rewrite (update_run e uid i b s db db _ Hs Hv
               (update_on_connection_past e uid i b db r rest Ho Ht Hd)).
    now rewrite with_db_same.
  - intros Hf Hd.
    destruct (update_on_connection_applied e uid i b db r rest Ho Ht Hd Hf
                (validate_update_people b Hv)) as [v Hv'].
    exists v; exact (update_run e uid i b s db _ _ Hs Hv Hv').
Qed.

(** C4 as stated fails: Alice changes the date of her confirmed reservation
    1 to 2020-01-01.  The date is supplied, yet it is not written: the
    answer is 400 [Cannot modify reservation to a past date] and the stored
    date is still 2030-01-15. *)
Lemma update_past_date_not_written :
  map status (owned 1 1 sample_db) = [confirmed]
  /\ @validate_update node_platform (only_date "2020-01-01") = []
  /\ updateFields (only_date "2020-01-01") = [SetDate (JStr "2020-01-01")]
  /\ @update_reservation node_platform env_athens 1 1 (only_date "2020-01-01")
       sample_server
     = (failure 400 "Cannot modify reservation to a past date", sample_server)
  /\ map date (owned 1 1 sample_db) = ["2030-01-15"].
Proof.
  vm_compute; repeat split.
Qed.

Lemma updateFields_nil (b : Body) :
  updateFields b = [] <->
  truthy (b_date b) = false /\ truthy (b_time b) = false
  /\ truthy (b_people_count b) = false /\ b_special_requests b = JUndefined.
Proof.
  unfold updateFields; split.
  - destruct (truthy (b_date b)); [discriminate|].
    destruct (truthy (b_time b)); [discriminate|].
    destruct (truthy (b_people_count b)); [discriminate|].
    destruct (b_special_requests b); try discriminate; auto.
  - intros (-> & -> & -> & ->); reflexivity.
Qed.

(** A body that fails the request validation is answered 400 [Validation
    failed] before the handler opens a connection. *)
Lemma update_invalid_body {P : Platform} (e : Env) (uid i : Z) (b : Body)
    (s : Server) :
  validate_update b <> [] ->
  update_reservation e uid i b s
  = (validation_failed (validate_update b), s).
Proof.
  intros H; unfold update_reservation.
  destruct (validate_update b); [congruence|reflexivity].
Qed.

Lemma create_invalid_body {P : Platform} (e : Env) (uid : Z) (b : Body)
    (s : Server) :
  validate_create b <> [] ->
  create_reservation e uid b s
  = (validation_failed (validate_create b), s).
Proof.
  intros H; unfold create_reservation.
  destruct (validate_create b); [congruence|reflexivity].
Qed.

(** The scenario of the specification on a server in Athens: Alice books
    restaurant 1 for the next day at 19:30 for four; her listing shows that
    one reservation, confirmed; she changes the party to six and the date
    stays; she cancels; a further update is refused with InvalidState. *)
Example end_to_end_scenario :
  let P := node_platform in
  let e := env_athens in
  let (r1, s1) := create_reservation e 1 (booking "2025-01-16") fresh_server in
  let (r2, s2) := list_reservations 1 my_reservations s1 in
  let (r3, s3) := update_reservation e 1 1 party_of_six s2 in
  let (r4, s4) := cancel_reservation e 1 1 s3 in
  let (r5, s5) := update_reservation e 1 1 party_of_six s4 in
  code r1 = 201
  /\ map (fun r => (id r, status r, people_count r)) (rows_of r2)
     = [(1, confirmed, 4)]
  /\ map (fun r => (people_count r, date r, time r)) (rows_of r3)
     = [(6, "2025-01-16", "19:30")]
  /\ r4 = cancelled_ok
  /\ code r5 = 400 /\ error_kind r5 = Some InvalidState
  /\ s5 = s4.
Proof.
  vm_compute; repeat split.
Qed.

Lemma present_and_falsy_cases (v : JsVal) :
  present_and_falsy v ->
  v = JNull \/ v = JBool false \/ v = JNum 0 \/ v = JStr "".
Proof.
  intros [Hd Hf]; destruct v as [| |[|]|n|t]; simpl in Hf;
    try discriminate; auto.
  - now destruct Hd.
  - apply negb_false_iff, Z.eqb_eq in Hf; subst; auto.
  - apply negb_false_iff, String.eqb_eq in Hf; subst; auto.
Qed.

(** The chains of [time] and of [people_count] refuse every value that is
    present and falsy; so the handler's truthiness tests on these fields
    see what its test on [undefined] would see. *)
Lemma validate_update_falsy {P : Platform} (b : Body) :
  present_and_falsy (b_time b) \/ present_and_falsy (b_people_count b)
  \/ (present_and_falsy (b_date b)
      /\ isISO8601 (toString (b_date b)) = false) ->
  validate_update b <> [].
Proof.
  unfold validate_update; intros H Hv.
  apply app_eq_nil in Hv; destruct Hv as [Hdate Hv].
  apply app_eq_nil in Hv; destruct Hv as [Htime Hv].
  apply app_eq_nil in Hv; destruct Hv as [Hpeople _].
  destruct H as [H|[H|[H Hiso]]].
  - destruct (present_and_falsy_cases _ H) as [E|[E|[E|E]]];
      rewrite E in Htime; discriminate.
  - destruct (present_and_falsy_cases _ H) as [E|[E|[E|E]]];
      rewrite E in Hpeople; discriminate.
  - destruct H as [Hd _].
    destruct (b_date b) eqn:E; try (now destruct Hd);
      rewrite <- E in *; unfold optional, check in Hdate;
      rewrite E in Hdate; rewrite <- E in Hdate;
      rewrite Hiso in Hdate; discriminate.
Qed.

Lemma validate_update_defined {P : Platform} (b : Body) :
  validate_update b = [] ->
  truthy (b_time b) = is_defined (b_time b)
  /\ truthy (b_people_count b) = is_defined (b_people_count b).
Proof.
  intros Hv; split.
  - destruct (truthy (b_time b)) eqn:T.
    + destruct (b_time b); [discriminate|reflexivity..].
    + destruct (is_defined (b_time b)) eqn:D; [|reflexivity].
      exfalso; apply (validate_update_falsy b); [|exact Hv].
      left; split; [intros E; rewrite E in D; discriminate|exact T].
  - destruct (truthy (b_people_count b)) eqn:T.
    + destruct (b_people_count b); [discriminate|reflexivity..].
    + destruct (is_defined (b_people_count b)) eqn:D; [|reflexivity].
      exfalso; apply (validate_update_falsy b); [|exact Hv].
      right; left; split; [intros E; rewrite E in D; discriminate|exact T].
Qed.

(** C10. In update, on an owned reservation that is not final.  A [time]
    or a [people_count] that is present and falsy (the empty string, zero,
    [false], [null]), and a [date] that is so where the validator refuses
    it, is answered 400 [Validation failed] with nothing written: it is not
    taken for a field that was not supplied.  For a body that passes the
    validation, [time] and [people_count] count as supplied exactly when
    they are present, [date] when it is truthy and [special_requests] when
    it is not [undefined]; with no field supplied the answer is 400 [No
    fields to update] with nothing written; a falsy [special_requests],
    the empty string among them, counts as supplied and is stored as
    [NULL]; and when the date check passes, the rows with that id become
    their partial update. *)
Theorem update_supplied_tests {P : Platform} (e : Env) (uid i : Z) (b : Body)
    (s : Server) (db : Database) (r : Reservation)
    (rest : list Reservation) :
  mysql s = Some db ->
  owned i uid db = r :: rest ->
  terminal (status r) = false ->
  (present_and_falsy (b_time b) \/ present_and_falsy (b_people_count b)
   \/ (present_and_falsy (b_date b)
       /\ isISO8601 (toString (b_date b)) = false) ->
   validate_update b <> []
   /\ update_reservation e uid i b s
      = (validation_failed (validate_update b), s)
   /\ error_kind (validation_failed (validate_update b))
      = Some ValidationFailed)
  /\ (validate_update b = [] ->
      truthy (b_time b) = is_defined (b_time b)
      /\ truthy (b_people_count b) = is_defined (b_people_count b)
      /\ (updateFields b = [] <->
          truthy (b_date b) = false /\ b_time b = JUndefined
          /\ b_people_count b = JUndefined
          /\ b_special_requests b = JUndefined)
      /\ (updateFields b = [] ->
          update_reservation e uid i b s
          = (failure 400 "No fields to update", s))
      /\ (b_special_requests b <> JUndefined ->
          truthy (b_special_requests b) = false ->
          updateFields b <> []
          /\ special_requests (partial_update e b r) = None)
      /\ (updateFields b <> [] -> date_check_passes e b = true ->
          exists v,
            update_reservation e uid i b s
            = (updated v, with_db s (rewrite_rows i (partial_update e b) db)))).
Proof.
  intros Hs Ho Ht; split.
  - intros Hf; pose proof (validate_update_falsy b Hf) as Hv.
    split; [exact Hv|split; [now apply update_invalid_body|reflexivity]].
  - intros Hv.
    destruct (validate_update_defined b Hv) as [Dt Dn].
    split; [exact Dt|split; [exact Dn|]].
    assert (Hund : forall v, is_defined v = false <-> v = JUndefined)
      by (intros v; destruct v; simpl; split; congruence).
    split; [|split; [|split]].
    + rewrite updateFields_nil, Dt, Dn, !Hund; reflexivity.
    + intros Hf.
      rewrite (update_run e uid i b s db db _ Hs Hv
                 (update_on_connection_no_fields e uid i b db r rest
                    Ho Ht Hf)).
      now rewrite with_db_same.
    + intros Hd Hfalsy; split.
      * intros Hf; apply updateFields_nil in Hf.
        destruct Hf as (_ & _ & _ & Hu); contradiction.
      * unfold partial_update; cbn [special_requests].
        replace (is_defined (b_special_requests b)) with true
          by (destruct (b_special_requests b); simpl; congruence).
        unfold or_null; now rewrite Hfalsy.
    + intros Hf Hd.
      destruct (update_on_connection_applied e uid i b db r rest Ho Ht Hd Hf
                  (validate_update_people b Hv)) as (v & E).
      exists v; exact (update_run e uid i b s db _ _ Hs Hv E).
Qed.

(* ===================================================================== *)
(** ** Sorting and paging                                                *)
(* ===================================================================== *)

Section Sorting.
Context {A : Type} (cmp : A -> A -> Z).

Lemma insert_by_perm (x : A) (l : list A) :
  Permutation (insert_by cmp x l) (x :: l).
Proof.
  induction l as [|y l IH]; simpl; [constructor; constructor|].
  destruct (cmp x y <=? 0); [apply Permutation_refl|].
  eapply perm_trans; [apply perm_skip, IH|apply perm_swap].
Qed.

Lemma sort_by_perm (l : list A) : Permutation (sort_by cmp l) l.
Proof.
  induction l as [|x l IH]; simpl; [constructor|].
  eapply perm_trans; [apply insert_by_perm|now apply perm_skip].
Qed.

Lemma sort_by_In (x : A) (l : list A) : In x (sort_by cmp l) <-> In x l.
Proof.
  split; apply Permutation_in;
    [apply sort_by_perm|apply Permutation_sym, sort_by_perm].
Qed.

Lemma sort_by_length (l : list A) :
  List.length (sort_by cmp l) = List.length l.
Proof. apply Permutation_length, sort_by_perm. Qed.
End Sorting.

Lemma In_firstn {A : Type} (n : nat) (l : list A) (x : A) :
  In x (firstn n l) -> In x l.
Proof.
  intros H; rewrite <- (firstn_skipn n l); apply in_or_app; now left.
Qed.

Lemma In_skipn {A : Type} (n : nat) (l : list A) (x : A) :
  In x (skipn n l) -> In x l.
Proof.
  intros H; rewrite <- (firstn_skipn n l); apply in_or_app; now right.
Qed.

Lemma limit_offset_ok {A : Type} (limit offset : Z) (l : list A)
    (db : Database) :
  0 <= limit -> 0 <= offset ->
  limit_offset limit offset l db
  = (Returned (firstn (Z.to_nat limit) (skipn (Z.to_nat offset) l)), db).
Proof.
  intros Hl Ho; unfold limit_offset.
  replace (limit <? 0) with false by (symmetry; apply Z.ltb_ge; lia).
  replace (offset <? 0) with false by (symmetry; apply Z.ltb_ge; lia).
  reflexivity.
Qed.

(* ===================================================================== *)
(** ** Listing a user's reservations                                     *)
(* ===================================================================== *)

Lemma status_of_string_known (s : string) (st : Status) :
  status_of_string s = Some st <->
  (s = "confirmed" /\ st = confirmed)
  \/ (s = "cancelled" /\ st = cancelled)
  \/ (s = "completed" /\ st = completed).
Proof.
  unfold status_of_string.
  destruct (String.eqb_spec s "confirmed") as [->|N1].
  { split; [intros [= <-]; auto|intros [[_ ->]|[[H _]|[H _]]]; congruence]. }
  destruct (String.eqb_spec s "cancelled") as [->|N2].
  { split; [intros [= <-]; auto|intros [[H _]|[[_ ->]|[H _]]]; congruence]. }
  destruct (String.eqb_spec s "completed") as [->|N3].
  { split; [intros [= <-]; auto|intros [[H _]|[[H _]|[_ ->]]]; congruence]. }
  split; [discriminate|intros [[H _]|[[H _]|[H _]]]; congruence].
Qed.

Lemma status_filter_known (s : string) (st : Status) :
  status_of_string s = Some st -> status_filter (Some s) = Some st.
Proof.
  intros H; unfold status_filter.
  destruct (truthy (JStr s)) eqn:T; [assumption|].
  simpl in T; apply negb_false_iff, String.eqb_eq in T; subst s.
  discriminate.
Qed.

Lemma status_filter_unknown (s : string) :
  status_of_string s = None -> status_filter (Some s) = None.
Proof.
  intros H; unfold status_filter; rewrite H.
  now destruct (truthy (JStr s)).
Qed.

Lemma join_restaurants_row (db : Database) (rows : list Reservation)
    (v : ReservationView) :
  In v (join_restaurants db rows) -> In (view_row v) rows.
Proof.
  unfold join_restaurants; intros H.
  apply in_flat_map in H; destruct H as (r & Hr & Hv).
  apply in_map_iff in Hv; destruct Hv as (rest & <- & _); exact Hr.
Qed.

(** The answer of the listing when MySQL is up and the page is valid. *)
Lemma list_reservations_run {P : Platform} (uid : Z) (q : ListQuery)
    (s : Server) (db : Database) :
  mysql s = Some db ->
  0 <= limit_or_default (l_limit q) -> 1 <= page_or_default (l_page q) ->
  let page := page_or_default (l_page q) in
  let limit := limit_or_default (l_limit q) in
  let f := status_filter (l_status q) in
  list_reservations uid q s
  = (ok (DReservations
           (firstn (Z.to_nat limit) (skipn (Z.to_nat ((page - 1) * limit))
              (sort_by orderReservations
                 (join_restaurants db
                    (whereReservations uid f (reservations db))))))
           (mkPagination page limit
              (Z.of_nat (List.length
                 (whereReservations uid f (reservations db)))))), s).
Proof.
  intros Hs Hl Hp page limit f; unfold list_reservations.
  fold page limit f.
  unfold with_connection; rewrite Hs.
  unfold bind, query.
  rewrite limit_offset_ok by nia.
  simpl; fold (with_db s db); now rewrite with_db_same.
Qed.

Lemma status_filter_some (st : string) :
  status_filter (Some st) = status_of_string st.
Proof.
  destruct (status_of_string st) as [known|] eqn:E;
    [now apply status_filter_known|now apply status_filter_unknown].
Qed.

Lemma asked_for_spec (uid : Z) (st : string) (r : Reservation) :
  asked_for uid st r = true <->
  user_id r = uid
  /\ forall known, status_of_string st = Some known -> status r = known.
Proof.
  unfold asked_for; rewrite andb_true_iff, Z.eqb_eq.
  destruct (status_of_string st) as [k|].
  - rewrite Status_eqb_eq; split.
    + intros [Hu Hk]; split; [exact Hu|now intros known [= <-]].
    + intros [Hu Hk]; split; [exact Hu|now apply Hk].
  - split; [intros [Hu _]; split; [exact Hu|discriminate]|tauto].
Qed.

(** With [id] the primary key of [restaurants], the join gives a
    reservation at most one row, and one when its restaurant exists. *)
Lemma filter_key_length {A : Type} (f : A -> Z) (k : Z) (l : list A) :
  NoDup (map f l) ->
  (List.length (filter (fun x => (f x =? k)%Z) l) <= 1)%nat.
Proof.
  induction l as [|x l IH]; simpl; intros H; [lia|].
  inversion H as [|y l' Hnotin Hnd]; subst.
  destruct (f x =? k) eqn:E; [|now apply IH].
  apply Z.eqb_eq in E.
  rewrite filter_none; [simpl; lia|].
  intros y Hy; apply Z.eqb_neq; intros Hk.
  apply Hnotin; rewrite E, <- Hk; now apply in_map.
Qed.

Lemma join_restaurants_length (db : Database) (rows : list Reservation) :
  NoDup (map rest_id (restaurants db)) ->
  (List.length (join_restaurants db rows) <= List.length rows)%nat.
Proof.
  intros Hnd; unfold join_restaurants.
  induction rows as [|r rows IH]; simpl; [lia|].
  rewrite length_app, length_map.
  pose proof (filter_key_length rest_id (restaurant_id r) (restaurants db) Hnd).
  lia.
Qed.

Lemma join_restaurants_In (db : Database) (rows : list Reservation)
    (r : Reservation) (rest : Restaurant) :
  In r rows -> In rest (restaurants db) -> rest_id rest = restaurant_id r ->
  In r (map view_row (join_restaurants db rows)).
Proof.
  intros Hr Hrest Hid; apply in_map_iff.
  exists {| view_row := r; view_restaurant := rest; view_user := None |}.
  split; [reflexivity|].
  unfold join_restaurants; apply in_flat_map; exists r; split; [exact Hr|].
  apply in_map_iff; exists rest; split; [reflexivity|].
  apply filter_In; split; [exact Hrest|now apply Z.eqb_eq].
Qed.

(** C5. Listing a user's reservations with a [status] parameter, on a
    store that is up and a valid page.  The answer is 200; its rows are the
    page of the user's reservations that the parameter asks for (those with
    that status when it is one of [confirmed], [cancelled], [completed],
    all of them otherwise), joined with their restaurants and ordered;
    every row is such a reservation of the store; the total counts these
    reservations; with [id] the primary key of [restaurants], a first page
    that the total fits in shows every one of them whose restaurant
    exists.  For a parameter that names no status the whole answer is the
    one given without the parameter. *)
Theorem status_filter_known_or_ignored {P : Platform} (uid : Z)
    (q : ListQuery) (s : Server) (db : Database) (st : string) :
  mysql s = Some db ->
  0 <= limit_or_default (l_limit q) ->
  1 <= page_or_default (l_page q) ->
  let page := page_or_default (l_page q) in
  let limit := limit_or_default (l_limit q) in
  let resp := fst (list_reservations uid (with_status q (Some st)) s) in
  let asked := filter (asked_for uid st) (reservations db) in
  code resp = 200
  /\ reservations_of resp
     = firstn (Z.to_nat limit)
         (skipn (Z.to_nat ((page - 1) * limit))
            (sort_by orderReservations (join_restaurants db asked)))
  /\ Forall (fun v =>
               In (view_row v) (reservations db)
               /\ user_id (view_row v) = uid
               /\ forall known, status_of_string st = Some known ->
                    status (view_row v) = known)
            (reservations_of resp)
  /\ option_map pg_total (pagination_of resp)
     = Some (Z.of_nat (List.length asked))
  /\ (NoDup (map rest_id (restaurants db)) ->
      page = 1 -> Z.of_nat (List.length asked) <= limit ->
      forall r, In r (reservations db) -> user_id r = uid ->
        (forall known, status_of_string st = Some known ->
           status r = known) ->
        (exists rest, In rest (restaurants db)
                      /\ rest_id rest = restaurant_id r) ->
        In r (rows_of resp))
  /\ (status_of_string st = None ->
      list_reservations uid (with_status q (Some st)) s
      = list_reservations uid (with_status q None) s).
Proof.
  intros Hs Hl Hp page limit resp asked.
  assert (E : list_reservations uid (with_status q (Some st)) s
              = (ok (DReservations
                       (firstn (Z.to_nat limit)
                          (skipn (Z.to_nat ((page - 1) * limit))
                             (sort_by orderReservations
                                (join_restaurants db asked))))
                       (mkPagination page limit
                          (Z.of_nat (List.length asked)))), s)).
  { rewrite (list_reservations_run uid _ s db Hs) by assumption.
    cbn [with_status l_status l_page l_limit].
    now rewrite status_filter_some. }
  assert (Hsame : status_of_string st = None ->
                  list_reservations uid (with_status q (Some st)) s
                  = list_reservations uid (with_status q None) s).
  { intros Hn; unfold list_reservations; cbn [with_status l_status].
    now rewrite (status_filter_unknown st Hn). }
  revert Hsame; subst resp; rewrite E; intros Hsame.
  cbn [fst reservations_of rows_of data ok code].
  split; [reflexivity|]; split; [reflexivity|]; split; [|split; [|split]].
  - apply Forall_forall; intros v Hv.
    apply In_firstn, In_skipn in Hv.
    apply sort_by_In, join_restaurants_row in Hv.
    apply filter_In in Hv; destruct Hv as [Hin Hv].
    apply asked_for_spec in Hv; tauto.
  - reflexivity.
  - intros Hnd Hpage Hfit r Hr Hu Hst (rest & Hrest & Hid).
    rewrite Hpage.
    change (Z.to_nat ((1 - 1) * limit)) with 0%nat; cbn [skipn].
    pose proof (join_restaurants_length db asked Hnd) as Hlen.
    rewrite firstn_all2 by (rewrite sort_by_length; lia).
    assert (Hasked : In r asked)
      by (apply filter_In; split; [exact Hr|now apply asked_for_spec]).
    pose proof (join_restaurants_In db asked r rest Hasked Hrest Hid) as Hj.
    apply in_map_iff in Hj; destruct Hj as (v & Hv & Hj).
    apply in_map_iff; exists v; split; [exact Hv|now apply sort_by_In].
  - exact Hsame.
Qed.

(* ===================================================================== *)
(** ** Login                                                             *)
(* ===================================================================== *)

Lemma absent_email_wrong_password {P : Platform} (b : LoginBody)
    (db : Database) :
  ~ email_exists b db -> wrong_password b db.
Proof.
  intros Hn u Hu He; exfalso; apply Hn; exists u; auto.
Qed.

Lemma login_on_connection_wrong {P : Platform} (b : LoginBody)
    (db : Database) :
  wrong_password b db ->
  login_on_connection (normalizeEmail (lb_email b)) (lb_password b) db
  = (Returned invalid_credentials, db).
Proof.
  intros Hw; unfold login_on_connection; rewrite bind_query.
  destruct (filter _ (users db)) as [|u l] eqn:F; [reflexivity|].
  assert (Hu : In u (filter
            (fun u => (user_email u =? normalizeEmail (lb_email b))%string)
            (users db))) by (rewrite F; now left).
  apply filter_In in Hu; destruct Hu as [Hu He].
  apply String.eqb_eq in He.
  now rewrite (Hw u Hu He).
Qed.

(** A login with a wrong password that passes the request validation is
    answered 401 [Invalid email or password]. *)
Lemma login_wrong_password {P : Platform} (b : LoginBody) (s : Server)
    (db : Database) :
  mysql s = Some db -> wrong_password b db ->
  login b s = match validate_login b with
              | [] => (invalid_credentials, s)
              | errs => (validation_failed errs, s)
              end.
Proof.
  intros Hs Hw; unfold login.
  destruct (validate_login b); [|reflexivity].
  rewrite (with_connection_run _ s db Hs), login_on_connection_wrong by assumption.
  simpl; now rewrite with_db_same.
Qed.

(** With a password that [bcrypt.compare] finds wrong, the answer does not
    tell whether the email exists: on a server where nobody has the
    submitted email and on one where somebody has it, the two answers are
    the same, and 401 [Invalid email or password], Unauthorized, when the
    request passes the validation. *)
Lemma wrong_password_hides_existence {P : Platform} (b : LoginBody)
    (s1 s2 : Server) (db1 db2 : Database) :
  mysql s1 = Some db1 ->
  mysql s2 = Some db2 ->
  ~ email_exists b db1 ->
  email_exists b db2 ->
  wrong_password b db2 ->
  fst (login b s1) = fst (login b s2)
  /\ (validate_login b = [] ->
      login b s1 = (invalid_credentials, s1)
      /\ login b s2 = (invalid_credentials, s2)
      /\ error_kind invalid_credentials = Some Unauthorized).
Proof.
  intros H1 H2 Hn _ Hw.
  rewrite (login_wrong_password b s1 db1 H1 (absent_email_wrong_password b db1 Hn)).
  rewrite (login_wrong_password b s2 db2 H2 Hw).
  split.
  - destruct (validate_login b); reflexivity.
  - intros ->; repeat split.
Qed.

(** A password that is not a string and gets past [notEmpty()], a number
    or a boolean, tells the two apart: 401 where nobody has the email, and
    500 where somebody has it, because [bcrypt.compare] is only reached
    with a user row and rejects the value. *)
Lemma login_password_not_a_string {P : Platform} (b : LoginBody)
    (s1 s2 : Server) (db1 db2 : Database) :
  mysql s1 = Some db1 ->
  mysql s2 = Some db2 ->
  ~ email_exists b db1 ->
  email_exists b db2 ->
  validate_login b = [] ->
  (forall t, lb_password b <> JStr t) ->
  login b s1 = (invalid_credentials, s1)
  /\ login b s2 = (internal_error, s2).
Proof.
  intros H1 H2 Hn (u & Hu & He) Hv Hp; split.
  - rewrite (login_wrong_password b s1 db1 H1
               (absent_email_wrong_password b db1 Hn)).
    now rewrite Hv.
  - unfold login; rewrite Hv, (with_connection_run _ s2 db2 H2).
    unfold login_on_connection; rewrite bind_query.
    destruct (filter _ (users db2)) as [|x l] eqn:F.
    + exfalso; revert F; apply (filter_some _ _ u Hu).
      now apply String.eqb_eq.
    + unfold bcrypt_compare_value.
      destruct (lb_password b) as [| |c|n|t] eqn:E;
        try (simpl; now rewrite with_db_same).
      now destruct (Hp t).
Qed.

(** C8. Alice's email with the number 12345 for a password passes the
    request validation.  On the store without Alice the login is answered
    401 [Invalid email or password], Unauthorized; on the store with Alice
    it is answered 500 [Internal server error]: the failure tells whether
    the email exists.  With a wrong password that is a string the answer is
    the same 401 on both stores. *)
Theorem login_numeric_password_reveals_existence :
  @validate_login node_platform numeric_guess = []
  /\ ~ @email_exists node_platform numeric_guess db_without_alice
  /\ @email_exists node_platform numeric_guess sample_db
  /\ @login node_platform numeric_guess server_without_alice
     = (invalid_credentials, server_without_alice)
  /\ @login node_platform numeric_guess sample_server
     = (internal_error, sample_server)
  /\ error_kind invalid_credentials = Some Unauthorized
  /\ error_kind internal_error = Some InternalError
  /\ @login node_platform wrong_guess server_without_alice
     = (invalid_credentials, server_without_alice)
  /\ @login node_platform wrong_guess sample_server
     = (invalid_credentials, sample_server).
Proof.
  split; [reflexivity|].
  split; [intros (u & [<-|[]] & He); discriminate|].
  split; [exists alice; split; [now left|reflexivity]|].
  repeat split.
Qed.

(* ===================================================================== *)
(** ** The in-memory fallback                                            *)
(* ===================================================================== *)

(** [initDatabase] without MySQL switches to the in-memory catalogue. *)
Lemma initDatabase_fallback (s : Server) :
  mysql s = None ->
  mysql (initDatabase s) = None
  /\ isUsingInMemory (initDatabase s) = true
  /\ inMemoryRestaurants (initDatabase s) = createInMemoryData.
Proof.
  intros H; unfold initDatabase; rewrite H; repeat split.
Qed.

(* ===================================================================== *)
(** ** Sorted output                                                     *)
(* ===================================================================== *)

Section Sorted.
Context {A : Type} (cmp : A -> A -> Z).
Hypothesis cmp_consistent : consistent cmp.

Lemma insert_by_sorted (x : A) (l : list A) :
  StronglySorted (below cmp) l -> StronglySorted (below cmp) (insert_by cmp x l).
Proof.
  destruct cmp_consistent as [Htotal Htrans].
  induction l as [|y l IH]; simpl; intros Hs.
  - repeat constructor.
  - inversion Hs as [|y' l' Hs' Hall]; subst.
    destruct (cmp x y <=? 0) eqn:E.
    + apply Z.leb_le in E.
      constructor; [assumption|].
      constructor; [exact E|].
      eapply Forall_impl; [|exact Hall].
      intros z Hz; exact (Htrans x y z E Hz).
    + apply Z.leb_gt in E.
      constructor; [now apply IH|].
      apply Forall_forall; intros z Hz.
      apply (Permutation_in _ (insert_by_perm cmp x l)) in Hz.
      destruct Hz as [<-|Hz]; [now apply Htotal|].
      rewrite Forall_forall in Hall; now apply Hall.
Qed.

Lemma sort_by_sorted (l : list A) : StronglySorted (below cmp) (sort_by cmp l).
Proof.
  induction l as [|x l IH]; simpl; [constructor|].
  now apply insert_by_sorted.
Qed.

Lemma sorted_skipn (n : nat) (l : list A) :
  StronglySorted (below cmp) l -> StronglySorted (below cmp) (skipn n l).
Proof.
  revert l; induction n as [|n IH]; intros l Hs; [assumption|].
  destruct l as [|x l]; [constructor|]; simpl.
  inversion Hs; subst; now apply IH.
Qed.

Lemma sorted_firstn (n : nat) (l : list A) :
  StronglySorted (below cmp) l -> StronglySorted (below cmp) (firstn n l).
Proof.
  revert l; induction n as [|n IH]; intros l Hs; [constructor|].
  destruct l as [|x l]; [constructor|]; simpl.
  inversion Hs as [|x' l' Hs' Hall]; subst.
  constructor; [now apply IH|].
  apply Forall_forall; intros z Hz.
  rewrite Forall_forall in Hall; apply Hall.
  now apply In_firstn in Hz.
Qed.

(** In a sorted list an earlier element is below a later one. *)
Lemma sorted_pairs (l : list A) (i j : nat) (a b : A) :
  StronglySorted (below cmp) l -> (i < j)%nat ->
  nth_error l i = Some a -> nth_error l j = Some b -> cmp a b <= 0.
Proof.
  intros Hs; revert i j; induction Hs as [|x l Hs IH Hall];
    intros i j Hij Ha Hb.
  - destruct i; discriminate.
  - destruct j as [|j]; [lia|].
    destruct i as [|i]; simpl in Ha, Hb.
    + injection Ha as <-.
      rewrite Forall_forall in Hall; apply (Hall b).
      eapply nth_error_In; eassumption.
    + apply (IH i j); [lia|assumption|assumption].
Qed.

Lemma sorted_page_pairs (l : list A) (n k i j : nat) (a b : A) :
  (i < j)%nat ->
  nth_error (firstn n (skipn k (sort_by cmp l))) i = Some a ->
  nth_error (firstn n (skipn k (sort_by cmp l))) j = Some b ->
  cmp a b <= 0.
Proof.
  apply sorted_pairs, sorted_firstn, sorted_skipn, sort_by_sorted.
Qed.
End Sorted.

(* ===================================================================== *)
(** ** Slices and pages                                                  *)
(* ===================================================================== *)

Lemma slice_window {A : Type} (l : list A) (start n : Z) :
  0 <= start -> 0 <= n ->
  slice l start (start + n)
  = firstn (Z.to_nat n) (skipn (Z.to_nat start) l).
Proof.
  intros Hs Hn; unfold slice.
  replace (start <? 0) with false by (symmetry; apply Z.ltb_ge; lia).
  replace (start + n <? 0) with false by (symmetry; apply Z.ltb_ge; lia).
  set (len := Z.of_nat (List.length l)).
  destruct (Z_le_gt_dec len start) as [Hge|Hlt].
  - rewrite (skipn_all2 (n := Z.to_nat start)) by lia.
    rewrite Z.min_r by lia.
    rewrite skipn_all2 by lia.
    now rewrite !firstn_nil.
  - rewrite (Z.min_l start len) by lia.
    destruct (Z_le_gt_dec (start + n) len) as [Hfit|Hover].
    + rewrite Z.min_l by lia.
      now replace (Z.max (start + n - start) 0) with n by lia.
    + rewrite Z.min_r by lia.
      assert (Hlen : List.length (skipn (Z.to_nat start) l)
                     = Z.to_nat (len - start)).
      { rewrite length_skipn; unfold len; lia. }
      rewrite Z.max_l by lia.
      rewrite <- Hlen, firstn_all.
      rewrite firstn_all2; [reflexivity|rewrite Hlen; lia].
Qed.

Lemma firstn_add {A : Type} (a b : nat) (l : list A) :
  firstn (a + b) l = (firstn a l ++ firstn b (skipn a l))%list.
Proof.
  revert l; induction a as [|a IH]; intros l; [reflexivity|].
  destruct l as [|x l]; simpl; [now rewrite firstn_nil|].
  now rewrite IH.
Qed.

(** Consecutive windows of width [k] put end to end. *)
Lemma windows_concat {A : Type} (k : nat) (l : list A) (n : nat) :
  List.concat (map (fun p => firstn k (skipn (p * k) l)) (seq 0 n))
  = firstn (n * k) l.
Proof.
  induction n as [|n IH]; [reflexivity|].
  rewrite seq_S, map_app, concat_app, IH; simpl.
  rewrite app_nil_r, <- firstn_add.
  f_equal; lia.
Qed.

Lemma Math_ceil_div_spec (total limit : Z) :
  1 <= limit ->
  exists n, Math_ceil_div total limit = Some n
            /\ limit * (n - 1) < total <= limit * n.
Proof.
  intros Hl; unfold Math_ceil_div.
  replace (limit =? 0) with false by (symmetry; apply Z.eqb_neq; lia).
  eexists; split; [reflexivity|].
  pose proof (Z.div_mod (- total) limit ltac:(lia)) as Hdm.
  pose proof (Z.mod_pos_bound (- total) limit ltac:(lia)) as Hb.
  nia.
Qed.

(* ===================================================================== *)
(** ** The catalogue search                                              *)
(* ===================================================================== *)





Lemma catalogue_result_at_page {P : Platform} (q : CatalogQuery) (s : Server)
    (p : Z) :
  catalogue_result (at_page q p) s = catalogue_result q s.
Proof. reflexivity. Qed.

(** The answer of the search on a valid page when the catalogue can be
    read. *)
Lemma get_restaurants_run {P : Platform} (q : CatalogQuery) (s : Server) :
  1 <= page_or_default (q_page q) ->
  0 <= limit_or_default (q_limit q) ->
  isUsingInMemory s = true \/ mysql s <> None ->
  let page := page_or_default (q_page q) in
  let limit := limit_or_default (q_limit q) in
  get_restaurants q s
  = (ok (DRestaurants
           (firstn (Z.to_nat limit)
              (skipn (Z.to_nat ((page - 1) * limit)) (catalogue_result q s)))
           (mkPagination page limit
              (Z.of_nat (List.length (catalogue_result q s))))), s).
Proof.
  intros Hp Hl Hup page limit.
  unfold get_restaurants, catalogue_result; fold page limit.
  destruct (isUsingInMemory s) eqn:M.
  - unfold getRestaurants.
    rewrite slice_window by nia. reflexivity.
  - destruct Hup as [?|Hup]; [discriminate|].
    unfold with_connection.
    destruct (mysql s) as [db|] eqn:Hs; [|congruence].
    unfold bind, query.
    rewrite limit_offset_ok by nia.
    simpl; rewrite sort_by_length.
    fold (with_db s db); now rewrite with_db_same.
Qed.

Lemma filter_key_NoDup {A : Type} (f : A -> Z) (p : A -> bool) (l : list A) :
  NoDup (map f l) -> NoDup (map f (filter p l)).
Proof.
  induction l as [|x l IH]; simpl; intros H; [constructor|].
  inversion H as [|y l' Hnotin Hnd]; subst.
  destruct (p x); simpl; [|now apply IH].
  constructor; [|now apply IH].
  intros Hin; apply Hnotin.
  apply in_map_iff in Hin; destruct Hin as (z & Hz & Hin).
  apply filter_In in Hin; destruct Hin as [Hin _].
  apply in_map_iff; eauto.
Qed.

Lemma catalogue_result_NoDup {P : Platform} (q : CatalogQuery) (s : Server) :
  NoDup (map rest_id (inMemoryRestaurants s)) ->
  (forall db, mysql s = Some db -> NoDup (map rest_id (restaurants db))) ->
  NoDup (map rest_id (catalogue_result q s)).
Proof.
  intros Hmem Hsql; unfold catalogue_result.
  destruct (isUsingInMemory s).
  - unfold filteredRestaurants.
    eapply Permutation_NoDup;
      [apply Permutation_map, Permutation_sym, sort_by_perm|].
    unfold filter_if.
    repeat match goal with
           | |- context [match ?x with Some _ => _ | None => _ end] =>
               destruct x
           | |- context [if ?c then _ else _] => destruct c
           end;
      repeat apply filter_key_NoDup; assumption.
  - destruct (mysql s) as [db|]; [|constructor].
    eapply Permutation_NoDup;
      [apply Permutation_map, Permutation_sym, sort_by_perm|].
    unfold whereRestaurants, where_if.
    repeat match goal with
           | |- context [match ?x with Some _ => _ | None => _ end] =>
               destruct x
           | |- context [if ?c then _ else _] => destruct c
           end;
      repeat apply filter_key_NoDup; now apply Hsql.
Qed.

Lemma all_pages_windows {P : Platform} (q : CatalogQuery) (s : Server)
    (n : nat) :
  1 <= limit_or_default (q_limit q) ->
  isUsingInMemory s = true \/ mysql s <> None ->
  all_pages q s n
  = firstn (n * Z.to_nat (limit_or_default (q_limit q)))
      (catalogue_result q s).
Proof.
  intros Hl Hup; unfold all_pages.
  rewrite <- windows_concat, <- seq_shift, map_map.
  f_equal; apply map_ext; intros p.
  assert (Hpage : page_or_default (q_page (at_page q (Z.of_nat (S p))))
                  = Z.of_nat p + 1) by (cbn [at_page q_page page_or_default]; lia).
  rewrite get_restaurants_run;
    [|rewrite Hpage; lia|cbn [at_page q_limit]; lia|assumption].
  rewrite Hpage.
  cbn [fst items_of data ok at_page q_limit].
  rewrite catalogue_result_at_page.
  replace (Z.of_nat p + 1 - 1) with (Z.of_nat p) by lia.
  rewrite Z2Nat.inj_mul, Nat2Z.id by lia.
  reflexivity.
Qed.

(** C7. A catalogue search with [page >= 1] and [limit >= 1], on a server
    that can read its catalogue: the page is the window of [limit] items at
    offset [(page - 1) * limit] of the filtered, ordered set, so it has at
    most [limit] items; [total] is the size of that set; [pages] is the
    ceiling of [total / limit]; and pages 1 to [pages] put end to end are
    the filtered, ordered set itself, without a repeated id when the
    catalogue has none. *)
Theorem catalogue_pagination {P : Platform} (q : CatalogQuery) (s : Server) :
  1 <= page_or_default (q_page q) ->
  1 <= limit_or_default (q_limit q) ->
  isUsingInMemory s = true \/ mysql s <> None ->
  let page := page_or_default (q_page q) in
  let limit := limit_or_default (q_limit q) in
  let result := catalogue_result q s in
  let total := Z.of_nat (List.length result) in
  let resp := fst (get_restaurants q s) in
  code resp = 200
  /\ items_of resp
     = firstn (Z.to_nat limit) (skipn (Z.to_nat ((page - 1) * limit)) result)
  /\ (List.length (items_of resp) <= Z.to_nat limit)%nat
  /\ exists pages,
       pagination_of resp
       = Some {| pg_page := page; pg_limit := limit; pg_total := total;
                 pg_pages := Some pages |}
       /\ limit * (pages - 1) < total <= limit * pages
       /\ all_pages q s (Z.to_nat pages) = result
       /\ (NoDup (map rest_id (inMemoryRestaurants s)) ->
           (forall db, mysql s = Some db ->
              NoDup (map rest_id (restaurants db))) ->
           NoDup (map rest_id (all_pages q s (Z.to_nat pages)))).
Proof.
  intros Hp Hl Hup page limit result total resp.
  subst resp; rewrite get_restaurants_run by (assumption || lia).
  fold page limit result total; simpl.
  split; [reflexivity|]; split; [reflexivity|].
  split; [apply firstn_le_length|].
  destruct (Math_ceil_div_spec total limit Hl) as (pages & Hpages & Hbound).
  exists pages; unfold mkPagination; rewrite Hpages.
  split; [reflexivity|]; split; [exact Hbound|].
  assert (Hall : all_pages q s (Z.to_nat pages) = result).
  { rewrite all_pages_windows by assumption.
    apply firstn_all2; fold limit result; subst total; nia. }
  split; [exact Hall|].
  intros Hmem Hsql; rewrite Hall.
  now apply catalogue_result_NoDup.
Qed.

(* ===================================================================== *)
(** ** The statements on the sample states                               *)
(* ===================================================================== *)

Lemma strcmp_consistent : consistent strcmp.
Proof.
  unfold strcmp; split.
  - intros a b; rewrite (String.compare_antisym a b).
    destruct (String.compare b a); simpl; lia.
  - intros a b c Hab Hbc.
    destruct (String.compare a b) eqn:E1;
      [apply String.compare_eq_iff in E1; now subst| |simpl in Hab; lia].
    destruct (String.compare b c) eqn:E2;
      [apply String.compare_eq_iff in E2; subst; now rewrite E1|
      |simpl in Hbc; lia].
    apply String_as_OT.cmp_lt in E1, E2.
    pose proof (String_as_OT.lt_trans _ _ _ E1 E2) as H.
    apply String_as_OT.cmp_lt in H; unfold String_as_OT.cmp in H.
    now rewrite H.
Qed.

Lemma sample_db_primary_key : primary_key sample_db.
Proof.
  unfold primary_key; simpl.
  repeat constructor; simpl; intuition discriminate.
Qed.

(** Bob asks for Alice's reservation 1, then tries to change its party
    size. *)
Lemma not_owned_is_not_found_witness :
  mysql sample_server = Some sample_db
  /\ primary_key sample_db
  /\ In (mkReservation 1 1 1 "2030-01-15" "19:30" 4 confirmed)
        (reservations sample_db)
  /\ user_id (mkReservation 1 1 1 "2030-01-15" "19:30" 4 confirmed) <> 2
  /\ get_reservation 2 1 sample_server
     = (failure 404 "Reservation not found", sample_server)
  /\ @update_reservation node_platform env_athens 2 1 party_of_six
       sample_server
     = (failure 404 "Reservation not found", sample_server).
Proof.
  assert (H1 : mysql sample_server = Some sample_db) by reflexivity.
  assert (H3 : In (mkReservation 1 1 1 "2030-01-15" "19:30" 4 confirmed)
                  (reservations sample_db)) by (simpl; auto).
  assert (H4 : user_id (mkReservation 1 1 1 "2030-01-15" "19:30" 4 confirmed)
               <> 2) by (simpl; lia).
  pose proof (@not_owned_is_not_found node_platform env_athens 2 party_of_six
                sample_server sample_db _ H1 sample_db_primary_key H3 H4)
    as (Hget & _ & Hupdate & _).
  refine (conj H1 (conj sample_db_primary_key (conj H3 (conj H4 _)))).
  exact (conj Hget (Hupdate eq_refl)).
Defined.

(** Alice changes the party size of her confirmed reservation 1. *)
Lemma update_partial_witness :
  mysql sample_server = Some sample_db
  /\ @validate_update node_platform party_of_six = []
  /\ owned 1 1 sample_db
     = [mkReservation 1 1 1 "2030-01-15" "19:30" 4 confirmed]
  /\ terminal (status (mkReservation 1 1 1 "2030-01-15" "19:30" 4 confirmed))
     = false
  /\ exists v,
       @update_reservation node_platform env_athens 1 1 party_of_six
         sample_server
       = (updated v,
          with_db sample_server
            (rewrite_rows 1 (partial_update env_athens party_of_six)
               sample_db)).
Proof.
  assert (H1 : mysql sample_server = Some sample_db) by reflexivity.
  assert (H2 : @validate_update node_platform party_of_six = [])
    by reflexivity.
  assert (H3 : owned 1 1 sample_db
               = [mkReservation 1 1 1 "2030-01-15" "19:30" 4 confirmed])
    by reflexivity.
  assert (H4 : terminal (status (mkReservation 1 1 1 "2030-01-15" "19:30" 4
                                   confirmed)) = false) by reflexivity.
  refine (conj H1 (conj H2 (conj H3 (conj H4 _)))).
  refine (proj2 (proj2 (@update_partial node_platform env_athens 1 1
                          party_of_six sample_server sample_db _ _
                          H1 H2 H3 H4)) _ _).
  - discriminate.
  - reflexivity.
Defined.

(** Alice lists her cancelled reservations. *)
Lemma status_filter_known_or_ignored_witness :
  mysql sample_server = Some sample_db
  /\ 0 <= limit_or_default (l_limit my_reservations)
  /\ 1 <= page_or_default (l_page my_reservations)
  /\ rows_of (fst (@list_reservations node_platform 1
                     (with_status my_reservations (Some "cancelled"))
                     sample_server))
     = [mkReservation 3 1 3 "2030-02-01" "18:00" 6 cancelled]
  /\ option_map pg_total
       (pagination_of (fst (@list_reservations node_platform 1
                              (with_status my_reservations (Some "cancelled"))
                              sample_server)))
     = Some 1.
Proof.
  assert (H1 : mysql sample_server = Some sample_db) by reflexivity.
  assert (H2 : 0 <= limit_or_default (l_limit my_reservations))
    by (simpl; lia).
  assert (H3 : 1 <= page_or_default (l_page my_reservations))
    by (simpl; lia).
  pose proof (@status_filter_known_or_ignored node_platform 1
                my_reservations sample_server sample_db "cancelled"
                H1 H2 H3) as (_ & Hrows & _ & Htotal & _).
  refine (conj H1 (conj H2 (conj H3 (conj _ Htotal)))).
  exact (eq_trans (f_equal (map view_row) Hrows) eq_refl).
Defined.



(** The fallback catalogue in pages of four. *)
Lemma catalogue_pagination_witness :
  1 <= page_or_default (q_page first_page)
  /\ 1 <= limit_or_default (q_limit first_page)
  /\ (isUsingInMemory fallback_server = true \/ mysql fallback_server <> None)
  /\ (List.length (items_of (fst (@get_restaurants node_platform first_page
                                    fallback_server))) <= 4)%nat.
Proof.
  assert (H1 : 1 <= page_or_default (q_page first_page)) by (simpl; lia).
  assert (H2 : 1 <= limit_or_default (q_limit first_page)) by (simpl; lia).
  assert (H3 : isUsingInMemory fallback_server = true
               \/ mysql fallback_server <> None) by (left; reflexivity).
  refine (conj H1 (conj H2 (conj H3 _))).
  exact (proj1 (proj2 (proj2 (@catalogue_pagination node_platform first_page
                                fallback_server H1 H2 H3)))).
Defined.

(** Alice clears the special requests of her reservation 1. *)
Lemma update_supplied_tests_witness :
  mysql sample_server = Some sample_db
  /\ owned 1 1 sample_db
     = [mkReservation 1 1 1 "2030-01-15" "19:30" 4 confirmed]
  /\ terminal (status (mkReservation 1 1 1 "2030-01-15" "19:30" 4 confirmed))
     = false
  /\ @validate_update node_platform no_requests = []
  /\ special_requests
       (partial_update env_athens no_requests
          (mkReservation 1 1 1 "2030-01-15" "19:30" 4 confirmed)) = None
  /\ exists v,
       @update_reservation node_platform env_athens 1 1 no_requests
         sample_server
       = (updated v,
          with_db sample_server
            (rewrite_rows 1 (partial_update env_athens no_requests)
               sample_db)).
Proof.
  assert (H1 : mysql sample_server = Some sample_db) by reflexivity.
  assert (H2 : owned 1 1 sample_db
               = [mkReservation 1 1 1 "2030-01-15" "19:30" 4 confirmed])
    by reflexivity.
  assert (H3 : terminal (status (mkReservation 1 1 1 "2030-01-15" "19:30" 4
                                   confirmed)) = false) by reflexivity.
  assert (H4 : @validate_update node_platform no_requests = [])
    by reflexivity.
  pose proof (proj2 (@update_supplied_tests node_platform env_athens 1 1
                       no_requests sample_server sample_db _ _ H1 H2 H3) H4)
    as (_ & _ & _ & _ & Hclear & Hrun).
  assert (H5 : b_special_requests no_requests <> JUndefined)
    by discriminate.
  assert (H6 : updateFields no_requests <> []) by discriminate.
  refine (conj H1 (conj H2 (conj H3 (conj H4 _)))).
  exact (conj (proj2 (Hclear H5 eq_refl)) (Hrun H6 eq_refl)).
Defined.

(** Alice's update of the party size of her reservation 1 succeeds; with
    an empty [time] beside it the same update is answered 400 [Validation
    failed] and nothing is written: the empty time is not taken for a time
    that was not supplied.  So is the update whose fields are all present
    and empty. *)
Lemma update_empty_time_is_refused :
  code (fst (@update_reservation node_platform env_athens 1 1 party_of_six
               sample_server)) = 200
  /\ @update_reservation node_platform env_athens 1 1 party_of_six_no_time
       sample_server
     = (validation_failed ["Valid time is required (HH:MM)"], sample_server)
  /\ b_time party_of_six_no_time = JStr ""
  /\ b_time party_of_six = JUndefined
  /\ code (fst (@update_reservation node_platform env_athens 1 1 empty_fields
                  sample_server)) = 400
  /\ message (fst (@update_reservation node_platform env_athens 1 1
                     empty_fields sample_server))
     = Some "Validation failed".
Proof. repeat split. Qed.

(* ===================================================================== *)
(** ** Registration                                                      *)
(* ===================================================================== *)

Lemma register_run {P : Platform} {H : Hashing} (d : Draw) (b : RegisterBody)
    (s : Server) (db db' : Database) (o : Outcome Response) :
  mysql s = Some db -> validate_register b = [] ->
  register_on_connection d (trim (rb_name b)) (normalizeEmail (rb_email b))
    (rb_password b) db = (o, db') ->
  register d b s = try_catch (o, with_db s db').
Proof.
  intros Hs Hv Hr; unfold register; rewrite Hv.
  unfold with_connection; rewrite Hs, Hr; reflexivity.
Qed.

Lemma email_filter_nil (email : string) (us : list User) :
  filter (fun u => (user_email u =? email)%string) us = [] <->
  ~ In email (map user_email us).
Proof.
  split.
  - intros Hf Hin; apply in_map_iff in Hin; destruct Hin as (u & He & Hin).
    apply (filter_some _ _ u Hin) in Hf; [exact Hf|].
    now apply String.eqb_eq.
  - intros Hn; apply filter_none; intros u Hu.
    apply String.eqb_neq; intros He; apply Hn.
    apply in_map_iff; eauto.
Qed.

(** X1. A registration with an email that a user already has is answered
    409 [User with this email already exists], Conflict, and the store is
    unchanged. *)
Theorem register_duplicate_email {P : Platform} {H : Hashing} (d : Draw)
    (b : RegisterBody) (s : Server) (db : Database) :
  mysql s = Some db ->
  validate_register b = [] ->
  In (normalizeEmail (rb_email b)) (map user_email (users db)) ->
  register d b s = (failure 409 "User with this email already exists", s)
  /\ error_kind (fst (register d b s)) = Some Conflict.
Proof.
  intros Hs Hv Hin.
  assert (E : register d b s
              = (failure 409 "User with this email already exists", s)).
  { rewrite (register_run d b s db db
               (Returned (failure 409 "User with this email already exists"))
               Hs Hv).
    - simpl; now rewrite with_db_same.
    - unfold register_on_connection; rewrite bind_query.
      destruct (filter _ (users db)) eqn:F; [|reflexivity].
      apply email_filter_nil in F; contradiction. }
  rewrite E; split; reflexivity.
Qed.

(** The statements of a registration with a new email and a new id. *)
Lemma register_on_connection_new {P : Platform} {H : Hashing} (d : Draw)
    (n email password : string) (db : Database) :
  ~ In email (map user_email (users db)) ->
  ~ In (insertId d) (map user_id_ (users db)) ->
  register_on_connection d n email password db
  = (Returned (registered (insertId d) n email),
     set_users db
       (users db ++ [{| user_id_ := insertId d; user_name := n;
                        user_email := email;
                        user_password := bcrypt_hash (salt d) password |}])).
Proof.
  intros He Hi; unfold register_on_connection; rewrite bind_query.
  apply email_filter_nil in He as F; rewrite F.
  unfold bind, insert_user.
  replace (existsb (fun u => (user_email u =? email)%string) (users db))
    with false.
  2:{ symmetry; apply not_true_is_false; intros Hx.
      apply existsb_exists in Hx; destruct Hx as (u & Hu & Hx).
      apply String.eqb_eq in Hx; apply He, in_map_iff; eauto. }
  replace (existsb (fun u => user_id_ u =? insertId d) (users db)) with false.
  2:{ symmetry; apply not_true_is_false; intros Hx.
      apply existsb_exists in Hx; destruct Hx as (u & Hu & Hx).
      apply Z.eqb_eq in Hx; apply Hi, in_map_iff; eauto. }
  reflexivity.
Qed.

Lemma isLength_min_notEmpty (s : string) :
  isLength_min 6 s = true -> notEmpty s = true.
Proof. destruct s; [discriminate|reflexivity]. Qed.

Lemma validate_register_login {P : Platform} (b : RegisterBody) :
  validate_register b = [] ->
  validate_login {| lb_email := rb_email b;
                    lb_password := JStr (rb_password b) |}
  = [].
Proof.
  unfold validate_register, validate_login; intros Hv.
  apply app_eq_nil in Hv; destruct Hv as [_ Hv].
  apply app_eq_nil in Hv; destruct Hv as [He Hp].
  simpl lb_email; simpl lb_password; rewrite He; simpl.
  apply check_nil in Hp; simpl in Hp.
  unfold check; simpl; now rewrite (isLength_min_notEmpty _ Hp).
Qed.

(** X2. After a registration with a new email, a login with the same
    email and password succeeds as the user that was registered: the same
    id, the trimmed name, the normalized email. *)
Theorem register_then_login {P : Platform} {H : Hashing} (d : Draw)
    (b : RegisterBody) (s : Server) (db : Database) :
  mysql s = Some db ->
  validate_register b = [] ->
  ~ In (normalizeEmail (rb_email b)) (map user_email (users db)) ->
  ~ In (insertId d) (map user_id_ (users db)) ->
  bcrypt_compare (rb_password b) (bcrypt_hash (salt d) (rb_password b))
  = true ->
  let u := {| user_id_ := insertId d; user_name := trim (rb_name b);
              user_email := normalizeEmail (rb_email b);
              user_password := bcrypt_hash (salt d) (rb_password b) |} in
  let s' := snd (register d b s) in
  fst (register d b s)
  = registered (insertId d) (trim (rb_name b)) (normalizeEmail (rb_email b))
  /\ s' = with_db s (set_users db (users db ++ [u]))
  /\ login {| lb_email := rb_email b; lb_password := JStr (rb_password b) |}
       s'
     = (login_ok u, s').
Proof.
  intros Hs Hv He Hi Hc u s'.
  assert (E : register d b s
              = (registered (insertId d) (trim (rb_name b))
                   (normalizeEmail (rb_email b)),
                 with_db s (set_users db (users db ++ [u])))).
  { rewrite (register_run d b s db _ _ Hs Hv
               (register_on_connection_new d _ _ _ db He Hi)).
    reflexivity. }
  subst s'; rewrite E; simpl fst; simpl snd.
  split; [reflexivity|]; split; [reflexivity|].
  unfold login; rewrite (validate_register_login b Hv).
  simpl lb_email; simpl lb_password.
  unfold with_connection; simpl mysql.
  unfold login_on_connection; rewrite bind_query.
  unfold set_users; cbn [users]; rewrite filter_app.
  apply email_filter_nil in He; rewrite He.
  subst u; cbn [filter user_email app].
  rewrite String.eqb_refl; cbn [user_password bcrypt_compare_value].
  rewrite Hc; reflexivity.
Qed.

(** X3. Whatever the request and its outcome, a registration keeps the
    emails of the users distinct, keeps every user there was, and changes
    neither the restaurants nor the reservations. *)
Theorem register_keeps_emails_distinct {P : Platform} {H : Hashing}
    (d : Draw) (b : RegisterBody) (s : Server) (db : Database) :
  mysql s = Some db ->
  NoDup (map user_email (users db)) ->
  exists db',
    mysql (snd (register d b s)) = Some db'
    /\ NoDup (map user_email (users db'))
    /\ (forall u, In u (users db) -> In u (users db'))
    /\ restaurants db' = restaurants db
    /\ reservations db' = reservations db.
Proof.
  intros Hs Hnd; unfold register.
  destruct (validate_register b).
  2:{ exists db; simpl; auto. }
  unfold with_connection; rewrite Hs.
  unfold register_on_connection; rewrite bind_query.
  destruct (filter _ (users db)) eqn:F.
  2:{ exists db; simpl; auto. }
  unfold bind, insert_user.
  destruct (existsb _ (users db) || existsb _ (users db)) eqn:E.
  { exists db; simpl; auto. }
  eexists; simpl; split; [reflexivity|]; simpl.
  repeat split; auto using in_or_app.
  rewrite map_app; simpl.
  apply email_filter_nil in F.
  apply NoDup_app; repeat split; auto.
  - repeat constructor; intros [].
  - intros x Hx [<-|[]]; contradiction.
Qed.

(* ===================================================================== *)
(** ** The catalogue: filters, lists and lookup                          *)
(* ===================================================================== *)

Lemma prefix_spec (t s : string) :
  prefix t s = true <-> exists b, s = t ++ b.
Proof.
  revert s; induction t as [|c t IH]; intros s.
  - split; [intros _; now exists s|intros _; now destruct s].
  - destruct s as [|c' s]; simpl.
    + split; [discriminate|intros [b Hb]; discriminate].
    + destruct (ascii_dec c c') as [->|Hne].
      * rewrite IH; split; intros [b Hb]; exists b; congruence.
      * split; [discriminate|intros [b Hb]; congruence].
Qed.

(** [includes] finds exactly the substrings. *)
Lemma includes_spec (s t : string) :
  includes s t = true <-> exists a b, s = a ++ t ++ b.
Proof.
  induction s as [|c s IH]; cbn [includes].
  - rewrite orb_false_r, prefix_spec; split.
    + intros [b Hb]; now exists "", b.
    + intros (a & b & H); destruct a; [now exists b|discriminate].
  - rewrite orb_true_iff, prefix_spec, IH; split.
    + intros [[b Hb]|(a & b & H)].
      * now exists "", b.
      * exists (String c a), b; simpl; congruence.
    + intros (a & b & H); destruct a as [|c' a].
      * left; now exists b.
      * right; exists a, b; simpl in H; congruence.
Qed.

Lemma filter_if_In {A : Type} (x : option string) (p : string -> A -> bool)
    (l : list A) (a : A) :
  In a (filter_if x p l) <->
  In a l /\ term_holds x (fun t => p (toLowerCase t) a = true).
Proof.
  unfold filter_if, term_holds; destruct x as [t|]; [|tauto].
  simpl; destruct (String.eqb_spec t "") as [->|Hne]; simpl.
  - tauto.
  - rewrite filter_In; tauto.
Qed.

(** X4. The in-memory search keeps exactly the restaurants of the
    catalogue that match every term given: [search] occurs in the name or
    in the location, [location] in the location, [cuisine] in the cuisine
    type, letter case apart; a term that is absent or empty is no
    condition. *)
Theorem search_keeps_the_matches {P : Platform} (catalogue : list Restaurant)
    (search loc cuisine : option string) (r : Restaurant) :
  In r (filteredRestaurants catalogue search loc cuisine) <->
  In r catalogue
  /\ term_holds search
       (fun t => occurs_in t (name r) \/ occurs_in t (location r))
  /\ term_holds loc (fun t => occurs_in t (location r))
  /\ term_holds cuisine (fun t => occurs_in t (cuisine_type r)).
Proof.
  unfold filteredRestaurants.
  rewrite sort_by_In, !filter_if_In.
  unfold term_holds, occurs_in.
  destruct search as [t1|], loc as [t2|], cuisine as [t3|];
    rewrite ?orb_true_iff, ?includes_spec; tauto.
Qed.

Lemma dedup_In (seen l : list string) (x : string) :
  In x (dedup seen l) <-> In x l /\ ~ In x seen.
Proof.
  revert seen; induction l as [|y l IH]; intros seen; simpl; [tauto|].
  destruct (existsb (String.eqb y) seen) eqn:E.
  - apply existsb_exists in E; destruct E as (z & Hz & E).
    apply String.eqb_eq in E; subst z.
    rewrite IH; split; [tauto|].
    intros [[->|Hx] Hn]; [contradiction|tauto].
  - assert (Hy : ~ In y seen).
    { intros Hy; apply not_true_iff_false in E; apply E.
      apply existsb_exists; exists y; split; [assumption|apply String.eqb_refl]. }
    simpl; rewrite IH; simpl; split.
    + intros [<-|(Hx & Hn)]; [tauto|tauto].
    + intros [[<-|Hx] Hn]; [tauto|].
      destruct (string_dec y x); [tauto|right; tauto].
Qed.

Lemma dedup_NoDup (seen l : list string) : NoDup (dedup seen l).
Proof.
  revert seen; induction l as [|y l IH]; intros seen; simpl; [constructor|].
  destruct (existsb (String.eqb y) seen); [apply IH|].
  constructor; [|apply IH].
  rewrite dedup_In; simpl; tauto.
Qed.

Lemma strcmp_eq (a b : string) : strcmp a b = 0 -> a = b.
Proof.
  unfold strcmp; destruct (String.compare a b) eqn:E; try discriminate.
  intros _; now apply String.compare_eq_iff.
Qed.

Lemma sorted_distinct_strict (l : list string) :
  StronglySorted (below strcmp) l -> NoDup l ->
  StronglySorted (fun a b => strcmp a b < 0) l.
Proof.
  induction 1 as [|x l Hs IH Hall]; intros Hnd; constructor.
  - apply IH; now inversion Hnd.
  - inversion Hnd as [|y l' Hnotin _]; subst.
    rewrite Forall_forall in *; intros y Hy.
    specialize (Hall y Hy); unfold below in Hall.
    destruct (Z.eq_dec (strcmp x y) 0) as [E|E]; [|lia].
    apply strcmp_eq in E; subst; contradiction.
Qed.

(** The list [[...new Set(xs)].sort()]. *)
Lemma sorted_set (l : list string) :
  StronglySorted (fun a b => strcmp a b < 0) (sort_strings (dedup [] l))
  /\ NoDup (sort_strings (dedup [] l))
  /\ forall x, In x (sort_strings (dedup [] l)) <-> In x l.
Proof.
  unfold sort_strings.
  assert (Hnd : NoDup (sort_by strcmp (dedup [] l))).
  { eapply Permutation_NoDup;
      [apply Permutation_sym, sort_by_perm|apply dedup_NoDup]. }
  split; [|split; [exact Hnd|]].
  - apply sorted_distinct_strict; [|exact Hnd].
    apply sort_by_sorted, strcmp_consistent.
  - intros x; rewrite sort_by_In, dedup_In; simpl; tauto.
Qed.

(** X5. In fallback mode the lists of cuisines and of locations are
    answered 200; each holds exactly the values that occur in the
    catalogue, each value once, in strictly increasing order of character
    codes. *)
Theorem cuisines_and_locations_are_sorted_sets {P : Platform} (s : Server) :
  isUsingInMemory s = true ->
  let catalogue := inMemoryRestaurants s in
  get_cuisines s = (ok (DStrings (getCuisines catalogue)), s)
  /\ get_locations s = (ok (DStrings (getLocations catalogue)), s)
  /\ StronglySorted (fun a b => strcmp a b < 0) (getCuisines catalogue)
  /\ NoDup (getCuisines catalogue)
  /\ (forall x, In x (getCuisines catalogue) <->
                exists r, In r catalogue /\ cuisine_type r = x)
  /\ StronglySorted (fun a b => strcmp a b < 0) (getLocations catalogue)
  /\ NoDup (getLocations catalogue)
  /\ (forall x, In x (getLocations catalogue) <->
                exists r, In r catalogue /\ location r = x).
Proof.
  intros Hm catalogue; unfold get_cuisines, get_locations; rewrite Hm.
  destruct (sorted_set (map cuisine_type catalogue)) as (C1 & C2 & C3).
  destruct (sorted_set (map location catalogue)) as (L1 & L2 & L3).
  unfold getCuisines, getLocations.
  repeat (split; [assumption || reflexivity|]).
  split; [intros x; rewrite C3, in_map_iff; firstorder|].
  repeat (split; [assumption|]).
  intros x; rewrite L3, in_map_iff; firstorder.
Qed.

Lemma find_filter {A : Type} (p : A -> bool) (l : list A) :
  find p l = hd_error (filter p l).
Proof.
  induction l as [|x l IH]; simpl; [reflexivity|].
  destruct (p x); [reflexivity|exact IH].
Qed.


(** X6. For an id that [parseInt] and MySQL's comparison read as the same
    integer [n], as both do a plain decimal numeral, [GET /restaurants/:id]
    answers the same from the in-memory catalogue and from a MySQL table
    with the same rows: 200 with the first restaurant whose id is [n],
    which is a restaurant of the catalogue, and 404 [Restaurant not found]
    when none has it. *)
Theorem restaurant_lookup_agrees {P : Platform} (id : string) (n : Z)
    (fallback live : Server) (db : Database) :
  isUsingInMemory fallback = true ->
  isUsingInMemory live = false ->
  mysql live = Some db ->
  restaurants db = inMemoryRestaurants fallback ->
  parseInt id = Some n ->
  (forall k, sql_number_eq k id = (k =? n)) ->
  fst (get_restaurant id fallback) = fst (get_restaurant id live)
  /\ ((exists r, fst (get_restaurant id fallback) = ok (DRestaurant r)
                 /\ In r (inMemoryRestaurants fallback) /\ rest_id r = n)
      \/ (fst (get_restaurant id fallback)
          = failure 404 "Restaurant not found"
          /\ forall r, In r (inMemoryRestaurants fallback) -> rest_id r <> n)).
Proof.
  intros Hf Hl Hs Hc Hjs Hsql; unfold get_restaurant; rewrite Hf, Hl.
  unfold with_connection, getRestaurantById; rewrite Hs, bind_query, Hc, Hjs.
  rewrite (filter_ext (fun r => sql_number_eq (rest_id r) id)
             (fun r => rest_id r =? n)) by (intros r; apply Hsql).
  rewrite find_filter.
  destruct (filter (fun r => rest_id r =? n) (inMemoryRestaurants fallback))
    as [|r l] eqn:F; simpl.
  - split; [reflexivity|right; split; [reflexivity|]].
    intros r Hr He; revert F; apply (filter_some _ _ r Hr).
    now apply Z.eqb_eq.
  - split; [reflexivity|left; exists r; split; [reflexivity|]].
    assert (Hr : In r (filter (fun r => rest_id r =? n)
                         (inMemoryRestaurants fallback)))
      by (rewrite F; now left).
    apply filter_In in Hr; destruct Hr as [Hr He].
    apply Z.eqb_eq in He; auto.
Qed.

(** X7. A page of the catalogue search that starts at or after the end of
    the filtered set is answered 200 with no restaurant and the same
    total. *)
Theorem page_past_the_end_is_empty {P : Platform} (q : CatalogQuery)
    (s : Server) :
  1 <= page_or_default (q_page q) ->
  0 <= limit_or_default (q_limit q) ->
  isUsingInMemory s = true \/ mysql s <> None ->
  Z.of_nat (List.length (catalogue_result q s))
  <= (page_or_default (q_page q) - 1) * limit_or_default (q_limit q) ->
  let resp := fst (get_restaurants q s) in
  code resp = 200
  /\ items_of resp = []
  /\ option_map pg_total (pagination_of resp)
     = Some (Z.of_nat (List.length (catalogue_result q s))).
Proof.
  intros Hp Hl Hup Hend resp; subst resp.
  rewrite get_restaurants_run by assumption; simpl.
  split; [reflexivity|]; split; [|reflexivity].
  rewrite skipn_all2 by lia; apply firstn_nil.
Qed.



(* ===================================================================== *)
(** ** Decimal numerals                                                  *)
(* ===================================================================== *)

Lemma string_of_uint_digits (d : Decimal.uint) :
  all_digits (NilEmpty.string_of_uint d) = true.
Proof. induction d; simpl; auto. Qed.

Lemma digits_val_acc (d : Decimal.uint) (acc : positive) :
  digits_val (Z.pos acc) (NilEmpty.string_of_uint d)
  = Z.pos (Pos.of_uint_acc d acc).
Proof.
  revert acc; induction d; intros acc;
    cbn [NilEmpty.string_of_uint digits_val Pos.of_uint_acc];
    [reflexivity|..];
    match goal with
    | |- digits_val ?a _ = Z.pos (Pos.of_uint_acc _ ?p) =>
        replace a with (Z.pos p)
          by (unfold digit_val; vm_compute (Z.of_nat _); lia)
    end; apply IHd.
Qed.

Lemma digits_val_of_uint (d : Decimal.uint) :
  digits_val 0 (NilEmpty.string_of_uint d) = Z.of_N (Pos.of_uint d).
Proof.
  induction d; simpl; try exact IHd; try reflexivity;
    match goal with
    | |- digits_val ?a _ = _ =>
        let v := eval vm_compute in a in
        change a with v
    end; apply digits_val_acc.
Qed.

Lemma unsigned_int_to_uint (p : positive) :
  NilZero.string_of_uint (Pos.to_uint p)
  = NilEmpty.string_of_uint (Pos.to_uint p)
  /\ unsigned_int (NilEmpty.string_of_uint (Pos.to_uint p)) = Some (Z.pos p)
  /\ exists c rest,
       NilEmpty.string_of_uint (Pos.to_uint p) = String c rest
       /\ is_digit c = true.
Proof.
  pose proof (DecimalPos.Unsigned.to_uint_nonnil p) as Hnn.
  pose proof (string_of_uint_digits (Pos.to_uint p)) as Hd.
  pose proof (digits_val_of_uint (Pos.to_uint p)) as Hv.
  rewrite DecimalPos.Unsigned.of_to in Hv.
  unfold NilZero.string_of_uint.
  destruct (Pos.to_uint p) eqn:E; try congruence;
    (split; [reflexivity|]);
    (split; [unfold unsigned_int; cbn [NilEmpty.string_of_uint] in *;
             rewrite Hd, Hv; reflexivity|]);
    eexists _, _; split; reflexivity.
Qed.

(** Printing an integer and reading it back as MySQL and validator.js do
    gives the integer. *)
Lemma parse_int_string_of_Z (n : Z) : parse_int (string_of_Z n) = Some n.
Proof.
  unfold string_of_Z; destruct n as [|p|p]; [reflexivity|..];
    destruct (unsigned_int_to_uint p) as (E1 & E2 & c & rest & E3 & Hc).
  - simpl; rewrite E1 in *; rewrite E3 in *.
    unfold parse_int.
    destruct c as [[|] [|] [|] [|] [|] [|] [|] [|]]; try discriminate Hc;
      exact E2.
  - simpl; rewrite E1; unfold parse_int; rewrite E2; reflexivity.
Qed.

(* ===================================================================== *)
(** ** What the reservation handlers write                               *)
(* ===================================================================== *)

Lemma assign_keeps (e : Env) (a : Assignment) (r r' : Reservation) :
  assign e a r = Some r' ->
  id r' = id r /\ user_id r' = user_id r
  /\ restaurant_id r' = restaurant_id r.
Proof.
  destruct a as [v|v|v| | |]; simpl;
    try destruct (sql_text v); try destruct (sql_int v);
    intros [= <-]; auto.
Qed.

Lemma assign_all_keeps (e : Env) (l : list Assignment) (r r' : Reservation) :
  assign_all e l r = Some r' ->
  id r' = id r /\ user_id r' = user_id r
  /\ restaurant_id r' = restaurant_id r.
Proof.
  revert r; induction l as [|a l IH]; simpl; intros r; [intros [= <-]; auto|].
  destruct (assign e a r) as [r1|] eqn:E; [|discriminate].
  intros H; apply IH in H; apply assign_keeps in E.
  destruct H as (-> & -> & ->); exact E.
Qed.

Lemma update_rows_same_keys (e : Env) (l : list Assignment) (i : Z)
    (rows rows' : list Reservation) :
  update_rows e l i rows = Some rows' -> Forall2 (same_keys i) rows rows'.
Proof.
  revert rows'; induction rows as [|r rows IH]; simpl; intros rows'.
  - intros [= <-]; constructor.
  - destruct (id r =? i) eqn:E.
    + destruct (assign_all e l r) as [r1|] eqn:A; [|discriminate].
      destruct (update_rows e l i rows) as [rows1|]; [|discriminate].
      intros [= <-]; constructor; [|now apply IH].
      apply assign_all_keeps in A; destruct A as (A1 & A2 & A3).
      apply Z.eqb_eq in E; unfold same_keys; intuition congruence.
    + destruct (update_rows e l i rows) as [rows1|]; [|discriminate].
      intros [= <-]; constructor; [|now apply IH].
      unfold same_keys; auto.
Qed.

Lemma update_reservations_rewritten (e : Env) (l : list Assignment)
    (uid i : Z) (db : Database) :
  owned i uid db <> [] ->
  rewritten uid i db (snd (update_reservations e l i db)).
Proof.
  intros Ho; unfold update_reservations.
  destruct (update_rows e l i (reservations db)) as [rows'|] eqn:U; simpl.
  - right; split; [assumption|].
    exists rows'; split; [|reflexivity].
    now apply update_rows_same_keys in U.
  - now left.
Qed.

Lemma snd_bind {A B : Type} (c : SQL A) (k : A -> SQL B) (db : Database) :
  (forall a d, snd (k a d) = d) -> snd (bind c k db) = snd (c db).
Proof.
  intros H; unfold bind; destruct (c db) as [[a|] d]; simpl; auto.
Qed.

(** The store after the statements of update and of cancel: as it was,
    or with the rows of that id rewritten. *)
Lemma update_on_connection_rewritten {P : Platform} (e : Env) (uid i : Z)
    (b : Body) (db : Database) :
  rewritten uid i db (snd (update_on_connection e uid i b db)).
Proof.
  unfold update_on_connection; rewrite bind_query.
  destruct (owned i uid db) as [|r rest] eqn:O; simpl; [now left|].
  destruct (Status_eqb (status r) cancelled || Status_eqb (status r) completed);
    [now left|].
  destruct (truthy (b_date b) && _); [now left|].
  destruct (updateFields b) as [|a l]; [now left|].
  rewrite snd_bind by reflexivity.
  apply update_reservations_rewritten; rewrite O; discriminate.
Qed.

Lemma cancel_on_connection_rewritten (e : Env) (uid i : Z) (db : Database) :
  rewritten uid i db (snd (cancel_on_connection e uid i db)).
Proof.
  unfold cancel_on_connection; rewrite bind_query.
  destruct (owned i uid db) as [|r rest] eqn:O; simpl; [now left|].
  destruct (Status_eqb (status r) cancelled); [now left|].
  rewrite snd_bind by reflexivity.
  apply update_reservations_rewritten; rewrite O; discriminate.
Qed.

Lemma create_on_connection_appended {P : Platform} (e : Env) (uid : Z)
    (b : Body) (db : Database) :
  appended uid db (snd (create_on_connection e uid b db)).
Proof.
  unfold create_on_connection, select_restaurant; rewrite bind_query.
  destruct (match sql_int (b_restaurant_id b) with
            | Some i => filter (fun r => rest_id r =? i) (restaurants db)
            | None => []
            end); [now left|].
  destruct (date_lt _ _); [now left|].
  unfold bind at 1; unfold insert_reservation.
  destruct (sql_int (b_restaurant_id b)) as [rid|]; [|now left].
  destruct (sql_text (b_date b)) as [d|]; [|now left].
  destruct (sql_text (b_time b)) as [t|]; [|now left].
  destruct (sql_int (b_people_count b)) as [n|]; [|now left].
  destruct (existsb _ (users db) && existsb _ (restaurants db)) eqn:E;
    [|now left].
  apply andb_true_iff in E; destruct E as [E1 E2].
  apply existsb_exists in E1; destruct E1 as (u & Hu & E1).
  apply existsb_exists in E2; destruct E2 as (x & Hx & E2).
  apply Z.eqb_eq in E1, E2.
  rewrite bind_query; simpl.
  right; eexists; repeat split; simpl; eauto.
Qed.

(** The store after each writing handler, on a server whose MySQL is up. *)
Lemma update_store {P : Platform} (e : Env) (uid i : Z) (b : Body)
    (s : Server) (db : Database) :
  mysql s = Some db ->
  exists db',
    snd (update_reservation e uid i b s) = with_db s db'
    /\ rewritten uid i db db'.
Proof.
  intros Hs; unfold update_reservation.
  destruct (validate_update b).
  - rewrite (with_connection_run _ s db Hs).
    exists (snd (update_on_connection e uid i b db)).
    split; [|apply update_on_connection_rewritten].
    now destruct (fst (update_on_connection e uid i b db)).
  - exists db; simpl; rewrite with_db_same by assumption.
    split; [reflexivity|now left].
Qed.

Lemma cancel_store (e : Env) (uid i : Z) (s : Server) (db : Database) :
  mysql s = Some db ->
  exists db',
    snd (cancel_reservation e uid i s) = with_db s db'
    /\ rewritten uid i db db'.
Proof.
  intros Hs; unfold cancel_reservation.
  rewrite (with_connection_run _ s db Hs).
  exists (snd (cancel_on_connection e uid i db)).
  split; [|apply cancel_on_connection_rewritten].
  now destruct (fst (cancel_on_connection e uid i db)).
Qed.

Lemma create_store {P : Platform} (e : Env) (uid : Z) (b : Body)
    (s : Server) (db : Database) :
  mysql s = Some db ->
  exists db',
    snd (create_reservation e uid b s) = with_db s db'
    /\ appended uid db db'.
Proof.
  intros Hs; unfold create_reservation.
  destruct (validate_create b).
  - rewrite (with_connection_run _ s db Hs).
    exists (snd (create_on_connection e uid b db)).
    split; [|apply create_on_connection_appended].
    now destruct (fst (create_on_connection e uid b db)).
  - exists db; simpl; rewrite with_db_same by assumption.
    split; [reflexivity|now left].
Qed.

Lemma Forall2_In_r {A B : Type} (R : A -> B -> Prop) (l : list A)
    (l' : list B) (y : B) :
  Forall2 R l l' -> In y l' -> exists x, In x l /\ R x y.
Proof.
  induction 1 as [|x y' l l' HR _ IH]; simpl; [contradiction|].
  intros [<-|Hy]; [eauto|].
  destruct (IH Hy) as (x' & Hx & HR'); eauto.
Qed.

Lemma same_keys_ids (i : Z) (rows rows' : list Reservation) :
  Forall2 (same_keys i) rows rows' -> map id rows' = map id rows.
Proof.
  induction 1 as [|r r' l l' (H & _) _ IH]; simpl; congruence.
Qed.

Lemma rewritten_well_formed (uid i : Z) (db db' : Database) :
  rewritten uid i db db' -> well_formed db ->
  well_formed db' /\ users db' = users db
  /\ restaurants db' = restaurants db
  /\ map id (reservations db') = map id (reservations db).
Proof.
  intros [->|(_ & rows' & HF & ->)] (Hpk & Hfresh & Href);
    [split; [exact (conj Hpk (conj Hfresh Href))|auto]|].
  pose proof (same_keys_ids i _ _ HF) as Hids.
  split; [|auto].
  split; [|split].
  - unfold primary_key; simpl; now rewrite Hids.
  - intros r' Hr'; simpl in *.
    destruct (Forall2_In_r _ _ _ _ HF Hr') as (r & Hr & (H1 & _)).
    rewrite H1; now apply Hfresh.
  - intros r' Hr'; simpl in *.
    destruct (Forall2_In_r _ _ _ _ HF Hr') as (r & Hr & (_ & H2 & H3 & _)).
    rewrite H2, H3; now apply Href.
Qed.

Lemma appended_well_formed (uid : Z) (db db' : Database) :
  appended uid db db' -> well_formed db ->
  well_formed db' /\ users db' = users db
  /\ restaurants db' = restaurants db.
Proof.
  intros [->|(row & Hid & Hu & _ & Huser & Hrest & ->)] (Hpk & Hfresh & Href);
    [split; [exact (conj Hpk (conj Hfresh Href))|auto]|].
  split; [|auto].
  split; [|split].
  - unfold primary_key in *; simpl; rewrite map_app; simpl.
    apply NoDup_app; repeat split; auto.
    + repeat constructor; intros [].
    + intros x Hx [<-|[]].
      apply in_map_iff in Hx; destruct Hx as (r & He & Hr).
      apply Hfresh in Hr; lia.
  - intros r Hr; simpl in *.
    apply in_app_iff in Hr; destruct Hr as [Hr|[<-|[]]].
    + apply Hfresh in Hr; lia.
    + lia.
  - intros r Hr; simpl in *.
    apply in_app_iff in Hr; destruct Hr as [Hr|[<-|[]]].
    + now apply Href.
    + rewrite Hu; auto.
Qed.

(** X10. Creating, updating and cancelling keep the store well formed,
    whatever the request and its outcome: the ids of the reservations stay
    distinct and below the counter, every reservation keeps a user and a
    restaurant that exist, and the users and the restaurants are not
    touched. *)
Theorem writes_keep_the_store_well_formed {P : Platform} (e : Env)
    (uid i : Z) (b : Body) (s : Server) (db : Database) :
  mysql s = Some db ->
  well_formed db ->
  let kept (s' : Server) : Prop :=
    exists db', mysql s' = Some db' /\ well_formed db'
                /\ users db' = users db /\ restaurants db' = restaurants db in
  kept (snd (create_reservation e uid b s))
  /\ kept (snd (update_reservation e uid i b s))
  /\ kept (snd (cancel_reservation e uid i s)).
Proof.
  intros Hs Hwf kept; subst kept; simpl; repeat split.
  - destruct (create_store e uid b s db Hs) as (db' & -> & Ha).
    exists db'; split; [reflexivity|].
    now apply (appended_well_formed uid db db').
  - destruct (update_store e uid i b s db Hs) as (db' & -> & Hr).
    exists db'; split; [reflexivity|].
    destruct (rewritten_well_formed uid i db db' Hr Hwf) as (? & ? & ? & _);
      auto.
  - destruct (cancel_store e uid i s db Hs) as (db' & -> & Hr).
    exists db'; split; [reflexivity|].
    destruct (rewritten_well_formed uid i db db' Hr Hwf) as (? & ? & ? & _);
      auto.
Qed.

Lemma same_keys_others (i uid : Z) (rows rows' : list Reservation) :
  Forall2 (same_keys i) rows rows' ->
  (forall r, In r rows -> id r = i -> user_id r = uid) ->
  filter (fun r => negb (user_id r =? uid)) rows'
  = filter (fun r => negb (user_id r =? uid)) rows.
Proof.
  induction 1 as [|r r' l l' (H1 & H2 & _ & H4) _ IH]; simpl; intros Hown;
    [reflexivity|].
  rewrite IH by (intros; apply Hown; auto).
  destruct (Z.eq_dec (id r) i) as [E|E].
  - rewrite H2, (Hown r (or_introl eq_refl) E), Z.eqb_refl; reflexivity.
  - now rewrite (H4 E).
Qed.

Lemma owner_of_id (i uid : Z) (db : Database) :
  primary_key db -> owned i uid db <> [] ->
  forall r, In r (reservations db) -> id r = i -> user_id r = uid.
Proof.
  intros Hpk Ho r Hr Hi.
  destruct (owned i uid db) as [|r0 l] eqn:O; [congruence|].
  assert (H0 : In r0 (owned i uid db)) by (rewrite O; now left).
  unfold owned in H0; apply filter_In in H0; destruct H0 as [H0 E].
  apply andb_true_iff in E; destruct E as [E1 E2].
  apply Z.eqb_eq in E1, E2.
  assert (r = r0) by (eapply key_unique; eauto; congruence).
  congruence.
Qed.

Lemma rewritten_others (i uid : Z) (db db' : Database) :
  primary_key db -> rewritten uid i db db' ->
  of_others uid db' = of_others uid db.
Proof.
  intros Hpk [->|(Ho & rows' & HF & ->)]; [reflexivity|].
  unfold of_others; simpl.
  apply same_keys_others with (i := i); [assumption|].
  now apply owner_of_id.
Qed.

(** X12. With [id] a primary key, a request of user [uid] to create,
    update or cancel leaves the reservations of every other user exactly
    as they were, whatever the request and its outcome. *)
Theorem others_are_untouched {P : Platform} (e : Env) (uid i : Z) (b : Body)
    (s : Server) (db : Database) :
  mysql s = Some db ->
  primary_key db ->
  let others (s' : Server) : Prop :=
    exists db', mysql s' = Some db' /\ of_others uid db' = of_others uid db in
  others (snd (create_reservation e uid b s))
  /\ others (snd (update_reservation e uid i b s))
  /\ others (snd (cancel_reservation e uid i s)).
Proof.
  intros Hs Hpk others; subst others; simpl; repeat split.
  - destruct (create_store e uid b s db Hs) as (db' & -> & Ha).
    exists db'; split; [reflexivity|].
    destruct Ha as [->|(row & _ & Hu & _ & _ & _ & ->)]; [reflexivity|].
    unfold of_others; simpl; rewrite filter_app; simpl.
    rewrite Hu, Z.eqb_refl; simpl; apply app_nil_r.
  - destruct (update_store e uid i b s db Hs) as (db' & -> & Hr).
    exists db'; split; [reflexivity|].
    now apply (rewritten_others i uid db db').
  - destruct (cancel_store e uid i s db Hs) as (db' & -> & Hr).
    exists db'; split; [reflexivity|].
    now apply (rewritten_others i uid db db').
Qed.

(* ===================================================================== *)
(** ** Creating, reading and cancelling                                  *)
(* ===================================================================== *)

Lemma filter_fresh_id (db : Database) (row : Reservation)
    (p : Reservation -> bool) :
  fresh_ids db -> id row = next_reservation_id db ->
  (forall r, p r = true -> id r = id row) -> p row = true ->
  filter p (reservations db ++ [row])%list = [row].
Proof.
  intros Hfresh Hid Hp Hrow; rewrite filter_app; simpl; rewrite Hrow.
  rewrite filter_none; [reflexivity|].
  intros r Hr; destruct (p r) eqn:E; [|reflexivity].
  apply Hp in E; apply Hfresh in Hr; lia.
Qed.

Lemma join_restaurants_one (db : Database) (row : Reservation)
    (rest : Restaurant) :
  In rest (restaurants db) -> rest_id rest = restaurant_id row ->
  exists x l,
    join_restaurants db [row]
    = {| view_row := row; view_restaurant := x; view_user := None |} :: l.
Proof.
  intros Hin Hid; unfold join_restaurants; simpl; rewrite app_nil_r.
  destruct (filter (fun x => rest_id x =? restaurant_id row) (restaurants db))
    as [|x l] eqn:F.
  - exfalso; revert F; apply (filter_some _ _ rest Hin); now apply Z.eqb_eq.
  - simpl; eauto.
Qed.

Lemma join_users_first (db : Database) (v : ReservationView)
    (l : list ReservationView) (u : User) :
  In u (users db) -> user_id_ u = user_id (view_row v) ->
  exists v', hd_error (join_users db (v :: l)) = Some v'
             /\ view_row v' = view_row v.
Proof.
  intros Hin Hid; unfold join_users; simpl.
  destruct (filter (fun u => user_id_ u =? user_id (view_row v)) (users db))
    as [|u' l'] eqn:F.
  - exfalso; revert F; apply (filter_some _ _ u Hin); now apply Z.eqb_eq.
  - simpl; eauto.
Qed.

(** X8. A reservation that create has stored is read back by its owner:
    on a store whose counter is above every id, a valid request for an
    existing restaurant that passes the date check is answered 201 with the
    new confirmed row, and [GET /reservations/:id] with the new id then
    answers 200 with the same row. *)
Theorem create_then_get {P : Platform} (e : Env) (uid : Z) (b : Body)
    (s : Server) (db : Database) (rest : Restaurant) (u : User)
    (d : string) :
  mysql s = Some db ->
  validate_create b = [] ->
  In rest (restaurants db) ->
  sql_int (b_restaurant_id b) = Some (rest_id rest) ->
  In u (users db) -> user_id_ u = uid ->
  b_date b = JStr d ->
  date_lt (new_Date (b_date b)) (today_midnight e) = false ->
  fresh_ids db ->
  exists t n,
    sql_text (b_time b) = Some t /\ sql_int (b_people_count b) = Some n
    /\ let row := new_reservation e uid b rest d t n db in
       let answer := create_reservation e uid b s in
       code (fst answer) = 201
       /\ rows_of (fst answer) = [row]
       /\ code (fst (get_reservation uid (id row) (snd answer))) = 200
       /\ rows_of (fst (get_reservation uid (id row) (snd answer))) = [row].
Proof.
  intros Hs Hv Hin Hid Hu Huid Hd Hlt Hfresh.
  destruct (validate_create_nil b Hv) as (_ & [t Ht] & [n Hn]).
  exists t, n; split; [assumption|]; split; [assumption|].
  intros row answer.
  set (db' := inserted e uid b rest d t n db).
  assert (Hrows : reservations db' = (reservations db ++ [row])%list)
    by reflexivity.
  assert (Hone : forall uid', uid' = uid ->
            filter (fun r => (id r =? id row) && (user_id r =? uid'))
              (reservations db') = [row]).
  { intros uid' ->; rewrite Hrows; apply filter_fresh_id; auto.
    - intros r Hr; apply andb_true_iff in Hr; destruct Hr as [Hr _].
      now apply Z.eqb_eq.
    - simpl; now rewrite !Z.eqb_refl. }
  assert (Hid' : filter (fun r => id r =? id row) (reservations db') = [row]).
  { rewrite Hrows; apply filter_fresh_id; auto.
    - intros r Hr; now apply Z.eqb_eq.
    - apply Z.eqb_refl. }
  destruct (join_restaurants_one db' row rest Hin eq_refl) as (x & l & Hj).
  assert (Hsql : create_on_connection e uid b db
                 = (Returned (created (hd_error (join_users db'
                      (join_restaurants db'
                         (filter (fun r => id r =? next_reservation_id db)
                            (reservations db')))))), db')).
  { unfold create_on_connection, select_restaurant.
    rewrite bind_query, Hid.
    destruct (filter (fun r => rest_id r =? rest_id rest) (restaurants db))
      eqn:F.
    { exfalso; revert F; apply (filter_some _ _ rest Hin), Z.eqb_refl. }
    rewrite Hlt.
    unfold bind at 1; unfold insert_reservation.
    rewrite Hid, Hd, Ht, Hn; simpl sql_text.
    assert (E1 : existsb (fun x => user_id_ x =? uid) (users db) = true).
    { apply existsb_exists; exists u; split; [assumption|].
      rewrite Huid; apply Z.eqb_refl. }
    assert (E2 : existsb (fun r => rest_id r =? rest_id rest) (restaurants db)
                 = true).
    { apply existsb_exists; exists rest; split;
        [assumption|apply Z.eqb_refl]. }
    rewrite E1, E2; simpl andb; cbv iota beta.
    rewrite bind_query; reflexivity. }
  change (next_reservation_id db) with (id row) in Hsql; rewrite Hid' in Hsql.
  assert (Hc : answer
               = (created
                    (hd_error (join_users db' (join_restaurants db' [row]))),
                  with_db s db')).
  { subst answer; unfold create_reservation; rewrite Hv.
    now rewrite (with_connection_run _ s db Hs), Hsql. }
  destruct (join_users_first db'
              {| view_row := row; view_restaurant := x; view_user := None |}
              l u Hu Huid) as (v' & Hv' & Hrow').
  rewrite Hj in Hc; rewrite Hv' in Hc.
  rewrite Hc; cbn [fst snd].
  split; [reflexivity|].
  split; [cbn [rows_of data created]; f_equal; exact Hrow'|].
  unfold get_reservation, with_connection; cbn [mysql with_db].
  rewrite bind_query; unfold owned; rewrite (Hone uid eq_refl), Hj.
  simpl; auto.
Qed.

(** X9. A valid request to create a reservation at a restaurant that does
    not exist is answered 404 [Restaurant not found], before the date is
    looked at, and nothing is stored. *)
Theorem create_unknown_restaurant {P : Platform} (e : Env) (uid : Z)
    (b : Body) (s : Server) (db : Database) :
  mysql s = Some db ->
  validate_create b = [] ->
  (forall x, In x (restaurants db) ->
     sql_int (b_restaurant_id b) <> Some (rest_id x)) ->
  create_reservation e uid b s = (failure 404 "Restaurant not found", s)
  /\ error_kind (fst (create_reservation e uid b s)) = Some NotFound.
Proof.
  intros Hs Hv Hnone.
  assert (E : create_reservation e uid b s
              = (failure 404 "Restaurant not found", s)).
  { unfold create_reservation; rewrite Hv.
    rewrite (with_connection_run _ s db Hs).
    unfold create_on_connection, select_restaurant; rewrite bind_query.
    destruct (sql_int (b_restaurant_id b)) as [rid|] eqn:R.
    - rewrite filter_none; [simpl; now rewrite with_db_same|].
      intros x Hx; apply Z.eqb_neq; intros He.
      apply (Hnone x Hx); congruence.
    - simpl; now rewrite with_db_same. }
  rewrite E; split; reflexivity.
Qed.



(* ===================================================================== *)
(** ** The listing of a user's reservations                              *)
(* ===================================================================== *)

(** Every answer of the listing is a window of the sorted join of the
    user's rows that pass the filter. *)
Lemma list_reservations_window {P : Platform} (uid : Z) (q : ListQuery)
    (s : Server) :
  exists n k rows,
    reservations_of (fst (list_reservations uid q s))
    = firstn n (skipn k (sort_by orderReservations rows))
    /\ (n <= Z.to_nat (limit_or_default (l_limit q)))%nat
    /\ forall v, In v rows ->
         user_id (view_row v) = uid
         /\ exists db, mysql s = Some db /\ In (view_row v) (reservations db).
Proof.
  unfold list_reservations, with_connection.
  destruct (mysql s) as [db|] eqn:Hs.
  2:{ exists 0%nat, 0%nat, []; simpl; repeat split; [lia|contradiction|contradiction]. }
  unfold bind, query, limit_offset.
  destruct ((_ <? 0) || (_ <? 0)).
  { exists 0%nat, 0%nat, []; simpl; repeat split; [lia|contradiction|contradiction]. }
  simpl; eexists _, _, _; split; [reflexivity|]; split; [lia|].
  intros v Hv; apply join_restaurants_row in Hv.
  unfold whereReservations in Hv; apply filter_In in Hv.
  destruct Hv as [Hin Hv]; apply andb_true_iff in Hv; destruct Hv as [Hu _].
  apply Z.eqb_eq in Hu; eauto.
Qed.

(** X13. Whatever the query, the listing of user [uid] only shows rows of
    the store that belong to [uid], never more of them than [limit], and
    leaves the server as it was. *)
Theorem listing_shows_only_own_rows {P : Platform} (uid : Z) (q : ListQuery)
    (s : Server) :
  let resp := fst (list_reservations uid q s) in
  Forall (fun v => user_id (view_row v) = uid
                   /\ exists db, mysql s = Some db
                                 /\ In (view_row v) (reservations db))
         (reservations_of resp)
  /\ (List.length (reservations_of resp)
      <= Z.to_nat (limit_or_default (l_limit q)))%nat
  /\ snd (list_reservations uid q s) = s.
Proof.
  intros resp; subst resp.
  destruct (list_reservations_window uid q s) as (n & k & rows & -> & Hn & Hrows).
  split; [|split].
  - apply Forall_forall; intros v Hv.
    apply In_firstn, In_skipn, sort_by_In in Hv; auto.
  - pose proof (firstn_le_length n (skipn k (sort_by orderReservations rows))).
    lia.
  - unfold list_reservations, with_connection.
    destruct (mysql s) as [db|] eqn:Hs; [|reflexivity].
    unfold bind, query, limit_offset.
    destruct ((_ <? 0) || (_ <? 0)); simpl;
      fold (with_db s db); now rewrite with_db_same.
Qed.

Lemma orderReservations_consistent {P : Platform} :
  ordering sql_datecmp -> ordering sql_timecmp ->
  consistent orderReservations.
Proof.
  intros [Dsym Dtrans] [Tsym Ttrans]; unfold orderReservations; split.
  - intros a b.
    pose proof (Dsym (date (view_row b)) (date (view_row a))) as D.
    pose proof (Tsym (time (view_row b)) (time (view_row a))) as T.
    destruct (sql_datecmp (date (view_row b)) (date (view_row a)) =? 0) eqn:E1;
      destruct (sql_datecmp (date (view_row a)) (date (view_row b)) =? 0) eqn:E2;
      simpl; rewrite ?Z.eqb_eq, ?Z.eqb_neq in *; lia.
  - intros a b c.
    set (da := date (view_row a)); set (db := date (view_row b));
      set (dc := date (view_row c)).
    pose proof (Dsym db da) as D1; pose proof (Dsym dc db) as D2;
      pose proof (Dsym dc da) as D3.
    pose proof (Dtrans dc db da) as T1.
    pose proof (Dtrans da dc db) as T2.
    pose proof (Dtrans db da dc) as T3.
    pose proof (Ttrans (time (view_row c)) (time (view_row b))
                  (time (view_row a))) as T4.
    destruct (sql_datecmp db da =? 0) eqn:E1;
      destruct (sql_datecmp dc db =? 0) eqn:E2;
      destruct (sql_datecmp dc da =? 0) eqn:E3;
      simpl; rewrite ?Z.eqb_eq, ?Z.eqb_neq in *; lia.
Qed.

(** X14. When MySQL compares dates and times by total orders, every page
    of the listing is ordered by date descending, then by time descending:
    a row that comes before another has a later date, or the same date and
    a time that is not earlier. *)
Theorem listing_is_newest_first {P : Platform} (uid : Z) (q : ListQuery)
    (s : Server) (i j : nat) (a b : ReservationView) :
  ordering sql_datecmp ->
  ordering sql_timecmp ->
  (i < j)%nat ->
  nth_error (reservations_of (fst (list_reservations uid q s))) i = Some a ->
  nth_error (reservations_of (fst (list_reservations uid q s))) j = Some b ->
  listed_before (view_row a) (view_row b).
Proof.
  intros Hd Ht Hij Ha Hb.
  destruct (list_reservations_window uid q s) as (n & k & rows & E & _).
  rewrite E in Ha, Hb.
  pose proof (sorted_page_pairs orderReservations
                (orderReservations_consistent Hd Ht) rows n k i j a b
                Hij Ha Hb) as H.
  unfold orderReservations in H; unfold listed_before.
  destruct (sql_datecmp (date (view_row b)) (date (view_row a)) =? 0) eqn:E0;
    simpl in H; rewrite ?Z.eqb_eq, ?Z.eqb_neq in *; [right|left]; auto.
  lia.
Qed.

(* ===================================================================== *)
(** ** The bounds of the stored fields                                   *)
(* ===================================================================== *)

Lemma isInt_bounds (lo hi : Z) (v : JsVal) (n : Z) :
  isInt lo (Some hi) (toString v) = true -> sql_int v = Some n ->
  lo <= n <= hi.
Proof.
  unfold isInt; destruct v as [| |[|]|m|s]; simpl; try discriminate.
  - rewrite parse_int_string_of_Z; intros H [= <-].
    apply andb_true_iff in H; lia.
  - intros H E; rewrite E in H.
    apply andb_true_iff in H; lia.
Qed.

Lemma isLength_requests (v : JsVal) :
  isLength_max 500 (toString v) = true ->
  match sql_text (or_null v) with
  | Some t => (String.length t <= 500)%nat
  | None => True
  end.
Proof.
  unfold isLength_max, or_null; intros H.
  destruct v as [| |[|]|m|s]; simpl in *; auto; try lia.
  - destruct (m =? 0); simpl; [exact I|now apply Nat.leb_le].
  - destruct (s =? "")%string; simpl; [exact I|now apply Nat.leb_le].
Qed.

Lemma optional_nil (p : string -> bool) (msg : string) (v : JsVal) :
  optional p msg v = [] -> v = JUndefined \/ p (toString v) = true.
Proof.
  unfold optional; destruct v; auto; intros H; right; now apply check_nil in H.
Qed.

Lemma validate_update_bounds {P : Platform} (e : Env) (b : Body)
    (r : Reservation) :
  validate_update b = [] -> in_bounds r -> in_bounds (partial_update e b r).
Proof.
  unfold validate_update; intros Hv [Hp Hs].
  apply app_eq_nil in Hv; destruct Hv as [_ Hv].
  apply app_eq_nil in Hv; destruct Hv as [_ Hv].
  apply app_eq_nil in Hv; destruct Hv as [Hn Hr].
  apply optional_nil in Hn, Hr.
  unfold in_bounds, partial_update; simpl; split.
  - destruct (truthy (b_people_count b)) eqn:T; [|assumption].
    destruct Hn as [Hn|Hn]; [rewrite Hn in T; discriminate|].
    destruct (sql_int (b_people_count b)) as [n|] eqn:E; [|assumption].
    exact (isInt_bounds 1 20 _ n Hn E).
  - destruct (is_defined (b_special_requests b)) eqn:D; [|assumption].
    destruct Hr as [Hr|Hr]; [rewrite Hr in D; discriminate|].
    now apply isLength_requests.
Qed.

Lemma update_on_connection_cases {P : Platform} (e : Env) (uid i : Z)
    (b : Body) (db : Database) :
  validate_update b = [] ->
  snd (update_on_connection e uid i b db) = db
  \/ snd (update_on_connection e uid i b db)
     = rewrite_rows i (partial_update e b) db.
Proof.
  intros Hv; unfold update_on_connection; rewrite bind_query.
  destruct (owned i uid db) as [|r rest]; simpl; [now left|].
  destruct (Status_eqb (status r) cancelled || Status_eqb (status r) completed);
    [now left|].
  destruct (truthy (b_date b) && _); [now left|].
  destruct (updateFields b) as [|a l] eqn:F; [now left|].
  change (a :: l ++ [SetUpdatedAt])%list with ((a :: l) ++ [SetUpdatedAt])%list.
  rewrite <- F.
  rewrite snd_bind by reflexivity.
  unfold update_reservations.
  rewrite (update_rows_map e _ i (partial_update e b)); [now right|].
  intros; apply assign_all_updateFields, validate_update_people, Hv.
Qed.

Lemma cancel_on_connection_cases (e : Env) (uid i : Z) (db : Database) :
  snd (cancel_on_connection e uid i db) = db
  \/ snd (cancel_on_connection e uid i db) = rewrite_rows i (cancel_row e) db.
Proof.
  unfold cancel_on_connection; rewrite bind_query.
  destruct (owned i uid db) as [|r rest]; simpl; [now left|].
  destruct (Status_eqb (status r) cancelled); [now left|].
  rewrite snd_bind by reflexivity.
  unfold update_reservations.
  rewrite (update_rows_map e _ i (cancel_row e)) by reflexivity.
  now right.
Qed.

Lemma create_on_connection_cases {P : Platform} (e : Env) (uid : Z)
    (b : Body) (db : Database) :
  snd (create_on_connection e uid b db) = db
  \/ exists rest d t n,
       sql_int (b_people_count b) = Some n
       /\ snd (create_on_connection e uid b db)
          = inserted e uid b rest d t n db.
Proof.
  unfold create_on_connection, select_restaurant; rewrite bind_query.
  destruct (match sql_int (b_restaurant_id b) with
            | Some i => filter (fun r => rest_id r =? i) (restaurants db)
            | None => []
            end) as [|x l]; [now left|].
  destruct (date_lt _ _); [now left|].
  rewrite snd_bind by reflexivity.
  unfold insert_reservation.
  destruct (sql_int (b_restaurant_id b)) as [rid|]; [|now left].
  destruct (sql_text (b_date b)) as [d|]; [|now left].
  destruct (sql_text (b_time b)) as [t|]; [|now left].
  destruct (sql_int (b_people_count b)) as [n|]; [|now left].
  destruct (existsb _ (users db) && existsb _ (restaurants db)); [|now left].
  right.
  exists (mkRestaurant rid "" "" "" "" 0 "" ""), d, t, n.
  split; reflexivity.
Qed.

Lemma rewrite_rows_bounds (i : Z) (f : Reservation -> Reservation)
    (db : Database) :
  (forall r, in_bounds r -> in_bounds (f r)) ->
  Forall in_bounds (reservations db) ->
  Forall in_bounds (reservations (rewrite_rows i f db)).
Proof.
  intros Hf Hall; unfold rewrite_rows; simpl.
  apply Forall_forall; intros r' Hr'.
  apply in_map_iff in Hr'; destruct Hr' as (r & <- & Hr).
  rewrite Forall_forall in Hall.
  destruct (id r =? i); auto.
Qed.

(** X15. The handlers keep the bounds of the data model on what is
    stored: when every stored reservation has a party of 1 to 20 and
    special requests of at most 500 characters, so has every reservation
    after a create, an update or a cancel, whatever the request and its
    outcome. *)
Theorem stored_fields_stay_in_bounds {P : Platform} (e : Env) (uid i : Z)
    (b : Body) (s : Server) (db : Database) :
  mysql s = Some db ->
  Forall in_bounds (reservations db) ->
  let bounded (s' : Server) : Prop :=
    exists db', mysql s' = Some db' /\ Forall in_bounds (reservations db') in
  bounded (snd (create_reservation e uid b s))
  /\ bounded (snd (update_reservation e uid i b s))
  /\ bounded (snd (cancel_reservation e uid i s)).
Proof.
  intros Hs Hall bounded; subst bounded; simpl.
  split; [|split].
  - unfold create_reservation.
    destruct (validate_create b) eqn:Hv.
    2:{ exists db; split; assumption. }
    rewrite (with_connection_run _ s db Hs).
    exists (snd (create_on_connection e uid b db)).
    split; [now destruct (fst (create_on_connection e uid b db))|].
    destruct (create_on_connection_cases e uid b db)
      as [->|(rest & d & t & n & Hn & ->)]; [assumption|].
    unfold inserted; simpl.
    apply Forall_app; split; [assumption|].
    constructor; [|constructor].
    unfold validate_create in Hv.
    apply app_eq_nil in Hv; destruct Hv as [_ Hv].
    apply app_eq_nil in Hv; destruct Hv as [_ Hv].
    apply app_eq_nil in Hv; destruct Hv as [_ Hv].
    apply app_eq_nil in Hv; destruct Hv as [Hp Hr].
    apply check_nil in Hp; apply optional_nil in Hr.
    split; simpl.
    + exact (isInt_bounds 1 20 _ n Hp Hn).
    + destruct Hr as [->|Hr]; [exact I|now apply isLength_requests].
  - unfold update_reservation.
    destruct (validate_update b) eqn:Hv.
    2:{ exists db; split; assumption. }
    rewrite (with_connection_run _ s db Hs).
    exists (snd (update_on_connection e uid i b db)).
    split; [now destruct (fst (update_on_connection e uid i b db))|].
    destruct (update_on_connection_cases e uid i b db Hv) as [->| ->];
      [assumption|].
    apply rewrite_rows_bounds; [|assumption].
    intros r; now apply validate_update_bounds.
  - unfold cancel_reservation.
    rewrite (with_connection_run _ s db Hs).
    exists (snd (cancel_on_connection e uid i db)).
    split; [now destruct (fst (cancel_on_connection e uid i db))|].
    destruct (cancel_on_connection_cases e uid i db) as [->| ->];
      [assumption|].
    apply rewrite_rows_bounds; [|assumption].
    intros r Hr; exact Hr.
Qed.

(* ===================================================================== *)
(** ** The edit form of the client                                       *)
(* ===================================================================== *)

Lemma handleUpdateReservation_sent (editing : option Reservation)
    (d : EditData) (i : Z) (b : Body) :
  handleUpdateReservation editing d = PutReservation i b ->
  exists r n,
    editing = Some r /\ i = id r
    /\ ed_date d <> "" /\ ed_time d <> "" /\ 1 <= n <= 20
    /\ b = {| b_restaurant_id := JUndefined;
              b_date := JStr (ed_date d);
              b_time := JStr (ed_time d);
              b_people_count := JNum n;
              b_special_requests :=
                if (ed_special_requests d =? "")%string then JUndefined
                else JStr (ed_special_requests d) |}.
Proof.
  unfold handleUpdateReservation.
  destruct editing as [r|]; [|discriminate].
  destruct (ed_date d =? "")%string eqn:Ed; [discriminate|].
  destruct (ed_time d =? "")%string eqn:Et; [discriminate|]; simpl.
  destruct (parseInt (ed_people_count d)) as [n|]; [|discriminate].
  destruct (n <? 1) eqn:L1; [discriminate|].
  destruct (20 <? n) eqn:L2; [discriminate|]; simpl.
  intros [= <- <-].
  apply String.eqb_neq in Ed, Et.
  exists r, n; repeat split; auto; lia.
Qed.

Lemma truthy_JStr (s : string) : s <> "" -> truthy (JStr s) = true.
Proof.
  intros H; simpl; destruct (s =? "")%string eqn:E; [|reflexivity].
  now apply String.eqb_eq in E.
Qed.

(** X16. A request that the edit form sends is for the reservation being
    edited, and the server's checks can only object to the format of its
    date and time and to the length of its special requests: the party
    size passes the server's chain, and date, time and party size are all
    among the fields to update, so the answer is never [No fields to
    update]. *)
Theorem edit_form_request_fits_the_server {P : Platform}
    (editing : option Reservation) (d : EditData) (i : Z) (b : Body) :
  handleUpdateReservation editing d = PutReservation i b ->
  (exists r, editing = Some r /\ i = id r)
  /\ validate_update b
     = (optional isISO8601 "Valid date is required (YYYY-MM-DD)" (b_date b)
        ++ optional matches_time "Valid time is required (HH:MM)" (b_time b)
        ++ optional (isLength_max 500)
             "Special requests must be less than 500 characters"
             (b_special_requests b))%list
  /\ (exists n rest,
        1 <= n <= 20
        /\ updateFields b
           = SetDate (JStr (ed_date d)) :: SetTime (JStr (ed_time d))
             :: SetPeopleCount (JNum n) :: rest).
Proof.
  intros H.
  destruct (handleUpdateReservation_sent _ _ _ _ H)
    as (r & n & -> & -> & Hd & Ht & Hn & ->).
  split; [now exists r|split].
  - unfold validate_update; cbn [b_date b_time b_people_count
      b_special_requests optional check toString].
    unfold check at 3; cbn [toString]; unfold isInt.
    rewrite parse_int_string_of_Z.
    replace ((1 <=? n) && (n <=? 20)) with true
      by (symmetry; apply andb_true_iff; lia).
    reflexivity.
  - exists n; eexists; split; [assumption|].
    unfold updateFields; cbn [b_date b_time b_people_count].
    rewrite (truthy_JStr _ Hd), (truthy_JStr _ Ht).
    replace (truthy (JNum n)) with true
      by (simpl; destruct (n =? 0) eqn:E; [lia|reflexivity]).
    reflexivity.
Qed.

Lemma update_stored {P : Platform} (e : Env) (uid i : Z) (b : Body)
    (s : Server) (db : Database) :
  mysql s = Some db ->
  mysql (snd (update_reservation e uid i b s)) = Some db
  \/ mysql (snd (update_reservation e uid i b s))
     = Some (rewrite_rows i (partial_update e b) db).
Proof.
  intros Hs; unfold update_reservation.
  destruct (validate_update b) eqn:Hv; [|now left].
  rewrite (with_connection_run _ s db Hs).
  destruct (update_on_connection_cases e uid i b db Hv) as [E|E].
  - left; destruct (fst (update_on_connection e uid i b db)); simpl;
      now rewrite E.
  - right; destruct (fst (update_on_connection e uid i b db)); simpl;
      now rewrite E.
Qed.

(** X17. The edit form cannot clear the special requests: when its field
    is empty the request leaves the property out, and whatever the server
    answers, every stored reservation has the special requests it had. *)
Theorem edit_form_keeps_special_requests {P : Platform} (e : Env) (uid : Z)
    (editing : option Reservation) (d : EditData) (i : Z) (b : Body)
    (s : Server) (db : Database) :
  handleUpdateReservation editing d = PutReservation i b ->
  ed_special_requests d = "" ->
  mysql s = Some db ->
  exists db',
    mysql (snd (update_reservation e uid i b s)) = Some db'
    /\ map special_requests (reservations db')
       = map special_requests (reservations db).
Proof.
  intros H Hsr Hs.
  destruct (handleUpdateReservation_sent _ _ _ _ H)
    as (r & n & -> & -> & Hd & Ht & Hn & Hb).
  rewrite Hsr in Hb; simpl in Hb.
  destruct (update_stored e uid (id r) b s db Hs) as [E|E].
  - exists db; split; [assumption|reflexivity].
  - eexists; split; [exact E|].
    unfold rewrite_rows; simpl; rewrite map_map.
    apply map_ext; intros x.
    destruct (id x =? id r); [|reflexivity].
    rewrite Hb; reflexivity.
Qed.

(* ===================================================================== *)
(** ** What a request leaves as it was                                   *)
(* ===================================================================== *)

Lemma with_connection_failure (c : SQL Response) (s : Server) :
  writes_on_success_only c ->
  success (fst (try_catch (with_connection c s))) = false ->
  snd (try_catch (with_connection c s)) = s.
Proof.
  intros Hc; unfold with_connection.
  destruct (mysql s) as [db|] eqn:Hs; [|reflexivity].
  specialize (Hc db); destruct (c db) as [[r|] db']; simpl in *.
  - intros Hr; rewrite (Hc Hr); now apply with_db_same.
  - intros _; rewrite Hc; now apply with_db_same.
Qed.

Lemma with_connection_reads (c : SQL Response) (s : Server) :
  (forall db, snd (c db) = db) ->
  snd (try_catch (with_connection c s)) = s.
Proof.
  intros Hc; unfold with_connection.
  destruct (mysql s) as [db|] eqn:Hs; [|reflexivity].
  specialize (Hc db); destruct (c db) as [[r|] db']; simpl in *;
    subst; now apply with_db_same.
Qed.

Lemma write_then_succeed {A : Type} (c : SQL A) (k : A -> SQL Response) :
  (forall db db', c db = (Thrown, db') -> db' = db) ->
  (forall a db, exists r, fst (k a db) = Returned r /\ success r = true) ->
  writes_on_success_only (bind c k).
Proof.
  intros Hc Hk db; unfold bind.
  destruct (c db) as [[a|] db'] eqn:E.
  - destruct (Hk a db') as (r & Hr & Hs); rewrite Hr; congruence.
  - simpl; eauto.
Qed.

Lemma insert_reservation_thrown (e : Env) (uid : Z) (rid d t n sr : JsVal)
    (db db' : Database) :
  insert_reservation e uid rid d t n sr db = (Thrown, db') -> db' = db.
Proof.
  unfold insert_reservation.
  destruct (sql_int rid); [|now intros [= <-]].
  destruct (sql_text d); [|now intros [= <-]].
  destruct (sql_text t); [|now intros [= <-]].
  destruct (sql_int n); [|now intros [= <-]].
  destruct (existsb _ (users db) && existsb _ (restaurants db));
    [discriminate|now intros [= <-]].
Qed.

Lemma update_reservations_thrown (e : Env) (l : list Assignment) (i : Z)
    (db db' : Database) :
  update_reservations e l i db = (Thrown, db') -> db' = db.
Proof.
  unfold update_reservations.
  destruct (update_rows e l i (reservations db));
    [discriminate|now intros [= <-]].
Qed.

Lemma insert_user_thrown (uid : Z) (n email hash : string)
    (db db' : Database) :
  insert_user uid n email hash db = (Thrown, db') -> db' = db.
Proof.
  unfold insert_user.
  destruct (existsb _ (users db) || existsb _ (users db));
    [now intros [= <-]|discriminate].
Qed.

Lemma create_writes_on_success_only {P : Platform} (e : Env) (uid : Z)
    (b : Body) :
  writes_on_success_only (create_on_connection e uid b).
Proof.
  intros db; unfold create_on_connection, select_restaurant.
  rewrite bind_query.
  destruct (match sql_int (b_restaurant_id b) with
            | Some i => filter (fun r => rest_id r =? i) (restaurants db)
            | None => []
            end); [now simpl|].
  destruct (date_lt _ _); [now simpl|].
  refine (write_then_succeed _ _ _ _ db).
  - intros d d'; apply insert_reservation_thrown.
  - intros a d; eexists; split; reflexivity.
Qed.

Lemma update_writes_on_success_only {P : Platform} (e : Env) (uid i : Z)
    (b : Body) :
  writes_on_success_only (update_on_connection e uid i b).
Proof.
  intros db; unfold update_on_connection; rewrite bind_query.
  destruct (owned i uid db) as [|r rest]; [now simpl|].
  destruct (Status_eqb (status r) cancelled || Status_eqb (status r) completed);
    [now simpl|].
  destruct (truthy (b_date b) && _); [now simpl|].
  destruct (updateFields b) as [|a l]; [now simpl|].
  refine (write_then_succeed _ _ _ _ db).
  - intros d d'; apply update_reservations_thrown.
  - intros u d; eexists; split; reflexivity.
Qed.

Lemma cancel_writes_on_success_only (e : Env) (uid i : Z) :
  writes_on_success_only (cancel_on_connection e uid i).
Proof.
  intros db; unfold cancel_on_connection; rewrite bind_query.
  destruct (owned i uid db) as [|r rest]; [now simpl|].
  destruct (Status_eqb (status r) cancelled); [now simpl|].
  refine (write_then_succeed _ _ _ _ db).
  - intros d d'; apply update_reservations_thrown.
  - intros u d; eexists; split; reflexivity.
Qed.

Lemma register_writes_on_success_only {P : Platform} {H : Hashing}
    (d : Draw) (n email password : string) :
  writes_on_success_only (register_on_connection d n email password).
Proof.
  intros db; unfold register_on_connection; rewrite bind_query.
  destruct (filter _ (users db)); [|now simpl].
  refine (write_then_succeed _ _ _ _ db).
  - intros x x'; apply insert_user_thrown.
  - intros u x; eexists; split; reflexivity.
Qed.

(** X18. A request that is not answered with a success has written
    nothing: after a create, an update, a cancel or a registration that
    fails, be it refused by a check of the handler, by a constraint of the
    database or for want of a connection, the server is as it was. *)
Theorem failed_request_writes_nothing {P : Platform} {H : Hashing}
    (e : Env) (uid i : Z) (b : Body) (d : Draw) (rb : RegisterBody)
    (s : Server) :
  (success (fst (create_reservation e uid b s)) = false ->
   snd (create_reservation e uid b s) = s)
  /\ (success (fst (update_reservation e uid i b s)) = false ->
      snd (update_reservation e uid i b s) = s)
  /\ (success (fst (cancel_reservation e uid i s)) = false ->
      snd (cancel_reservation e uid i s) = s)
  /\ (success (fst (register d rb s)) = false ->
      snd (register d rb s) = s).
Proof.
  split; [|split; [|split]].
  - unfold create_reservation; destruct (validate_create b); [|reflexivity].
    apply with_connection_failure, create_writes_on_success_only.
  - unfold update_reservation; destruct (validate_update b); [|reflexivity].
    apply with_connection_failure, update_writes_on_success_only.
  - apply with_connection_failure, cancel_writes_on_success_only.
  - unfold register; destruct (validate_register rb); [|reflexivity].
    apply with_connection_failure, register_writes_on_success_only.
Qed.

Lemma limit_offset_reads {A : Type} (limit offset : Z) (l : list A)
    (db : Database) :
  snd (limit_offset limit offset l db) = db.
Proof.
  unfold limit_offset; destruct ((limit <? 0) || (offset <? 0)); reflexivity.
Qed.

(** X19. The reading routes write nothing: after the catalogue routes,
    the listing and the lookup of reservations and a login, whatever the
    request and its answer, the server is as it was. *)
Theorem reading_routes_write_nothing {P : Platform} (q : CatalogQuery)
    (lq : ListQuery) (lb : LoginBody) (uid i : Z) (id : string)
    (s : Server) :
  snd (get_restaurants q s) = s
  /\ snd (get_restaurant id s) = s
  /\ snd (get_cuisines s) = s
  /\ snd (get_locations s) = s
  /\ snd (list_reservations uid lq s) = s
  /\ snd (get_reservation uid i s) = s
  /\ snd (login lb s) = s.
Proof.
  repeat split.
  - unfold get_restaurants; destruct (isUsingInMemory s).
    + now destruct (getRestaurants _ _ _ _ _ _).
    + apply with_connection_reads; intros db.
      rewrite bind_query, snd_bind; [apply limit_offset_reads|reflexivity].
  - unfold get_restaurant; destruct (isUsingInMemory s).
    + now destruct (getRestaurantById _ _).
    + apply with_connection_reads; intros db; rewrite bind_query.
      now destruct (filter _ (restaurants db)).
  - unfold get_cuisines; destruct (isUsingInMemory s); [reflexivity|].
    now apply with_connection_reads.
  - unfold get_locations; destruct (isUsingInMemory s); [reflexivity|].
    now apply with_connection_reads.
  - unfold list_reservations.
    apply with_connection_reads; intros db.
    rewrite bind_query, snd_bind; [apply limit_offset_reads|reflexivity].
  - unfold get_reservation.
    apply with_connection_reads; intros db; rewrite bind_query.
    now destruct (join_restaurants db (owned i uid db)).
  - unfold login; destruct (validate_login lb); [|reflexivity].
    apply with_connection_reads; intros db.
    unfold login_on_connection; rewrite bind_query.
    destruct (filter _ (users db)) as [|u us]; [reflexivity|].
    destruct (bcrypt_compare_value _ _) as [valid|]; [|reflexivity].
    now destruct (negb valid).
Qed.

(* ===================================================================== *)
(** ** Start-up                                                          *)
(* ===================================================================== *)

(** X20. Start-up is safe to repeat and never touches what is stored:
    [initDatabase] run twice is [initDatabase] run once; users and
    reservations are kept, and so is a catalogue that has a restaurant;
    and after it the catalogue that the routes read, in MySQL or in
    memory, is not empty. *)
Theorem initDatabase_is_idempotent_and_conservative (s : Server) :
  initDatabase (initDatabase s) = initDatabase s
  /\ (forall db, mysql s = Some db ->
        exists db',
          mysql (initDatabase s) = Some db'
          /\ users db' = users db
          /\ reservations db' = reservations db
          /\ next_reservation_id db' = next_reservation_id db
          /\ (restaurants db <> [] -> db' = db)
          /\ restaurants db' <> [])
  /\ (mysql s = None ->
        isUsingInMemory (initDatabase s) = true
        /\ inMemoryRestaurants (initDatabase s) <> []).
Proof.
  split; [|split].
  - unfold initDatabase; destruct (mysql s) as [db|]; simpl; [|reflexivity].
    do 2 f_equal; unfold createTables.
    destruct (restaurants db) as [|r l] eqn:E; simpl; [reflexivity|].
    now rewrite E.
  - intros db Hs; unfold initDatabase; rewrite Hs; simpl.
    exists (createTables db); unfold createTables.
    destruct (restaurants db) as [|r l] eqn:E; simpl.
    + repeat split; auto; try congruence; discriminate.
    + repeat split; auto; rewrite E; discriminate.
  - intros Hs; unfold initDatabase; rewrite Hs; simpl.
    split; [reflexivity|discriminate].
Qed.

(* ===================================================================== *)
(** ** The restaurant list of the client                                 *)
(* ===================================================================== *)

Lemma loadRestaurants_page {P : Platform} (reset : bool) (sq : string)
    (s : Server) (st : ListScreen) :
  isUsingInMemory s = true \/ mysql s <> None ->
  1 <= (if reset then 1 else ls_page st) ->
  let p := if reset then 1 else ls_page st in
  let result := catalogue_result (list_query sq 1) s in
  let window := firstn 10 (skipn (Z.to_nat ((p - 1) * 10)) result) in
  exists pages,
    10 * (pages - 1) < Z.of_nat (List.length result) <= 10 * pages
    /\ loadRestaurants reset sq s st
       = {| ls_restaurants :=
              if reset then window else (ls_restaurants st ++ window)%list;
            ls_page := p + 1;
            ls_hasMore := p <? pages |}.
Proof.
  intros Hup Hp p result window.
  destruct (Math_ceil_div_spec (Z.of_nat (List.length result)) 10 ltac:(lia))
    as (pages & Hpages & Hbound).
  exists pages; split; [exact Hbound|].
  unfold loadRestaurants; fold p.
  rewrite (get_restaurants_run (list_query sq p) s);
    [|exact Hp|simpl; lia|exact Hup].
  cbn [fst success ok data list_query q_page q_limit page_or_default
       limit_or_default mkPagination pg_pages].
  change (catalogue_result (list_query sq p) s) with result.
  rewrite Hpages.
  reflexivity.
Qed.

Lemma firstn_past {A : Type} (a b : nat) (l : list A) :
  (List.length l <= a)%nat -> (List.length l <= b)%nat ->
  firstn a l = firstn b l.
Proof.
  intros Ha Hb; now rewrite !firstn_all2.
Qed.

Lemma scrolled_invariant {P : Platform} (n : nat) (sq : string) (s : Server)
    (st : ListScreen) :
  isUsingInMemory s = true \/ mysql s <> None ->
  let result := catalogue_result (list_query sq 1) s in
  exists (j : nat) (pages : Z),
    10 * (pages - 1) < Z.of_nat (List.length result) <= 10 * pages
    /\ (1 <= j <= n + 1)%nat
    /\ (j = (n + 1)%nat \/ pages <= Z.of_nat j)
    /\ scrolled n sq s st
       = {| ls_restaurants := firstn (j * 10) result;
            ls_page := Z.of_nat j + 1;
            ls_hasMore := Z.of_nat j <? pages |}.
Proof.
  intros Hup result.
  induction n as [|n IH].
  - destruct (loadRestaurants_page true sq s st Hup ltac:(lia))
      as (pages & Hb & E).
    exists 1%nat, pages; split; [exact Hb|].
    split; [lia|split; [now left|]].
    cbn [scrolled]; rewrite E; reflexivity.
  - destruct IH as (j & pages & Hb & Hj & Hend & E).
    cbn [scrolled]; rewrite E; unfold loadMore; cbn [ls_hasMore].
    destruct (Z.of_nat j <? pages) eqn:More.
    + apply Z.ltb_lt in More.
      destruct Hend as [->|Hend]; [|lia].
      destruct (loadRestaurants_page false sq s
                  {| ls_restaurants := firstn ((n + 1) * 10) result;
                     ls_page := Z.of_nat (n + 1) + 1;
                     ls_hasMore := true |} Hup ltac:(simpl; lia))
        as (pages' & Hb' & E').
      fold result in Hb'.
      assert (pages' = pages) by lia; subst pages'.
      exists (S n + 1)%nat, pages; split; [exact Hb|].
      split; [lia|split; [now left|]].
      rewrite E'; cbn [ls_page ls_restaurants].
      f_equal.
      * replace (Z.to_nat ((Z.of_nat (n + 1) + 1 - 1) * 10))
          with ((n + 1) * 10)%nat by lia.
        fold result; rewrite <- firstn_add.
        f_equal; lia.
      * lia.
      * f_equal; lia.
    + apply Z.ltb_ge in More.
      exists j, pages; split; [exact Hb|].
      split; [lia|split; [now right|]].
      f_equal.
      symmetry; apply Z.ltb_ge; exact More.
Qed.

(** X21. The restaurant list of the client pages through the whole
    result: after the first load and [n] times reaching the end of the
    list, with one request at a time and a catalogue that can be read, the
    screen shows exactly the first [10 (n + 1)] entries of the search
    result, in its order; once the result is exhausted the list is the
    whole result and reaching the end changes nothing. *)
Theorem list_screen_pages_through_the_result {P : Platform} (n : nat)
    (searchQuery : string) (s : Server) (st : ListScreen) :
  isUsingInMemory s = true \/ mysql s <> None ->
  let result := catalogue_result (list_query searchQuery 1) s in
  let screen := scrolled n searchQuery s st in
  ls_restaurants screen = firstn (10 * (n + 1)) result
  /\ ((List.length result <= 10 * (n + 1))%nat ->
      ls_restaurants screen = result
      /\ loadMore searchQuery s screen = screen).
Proof.
  intros Hup result screen.
  destruct (scrolled_invariant n searchQuery s st Hup)
    as (j & pages & Hb & Hj & Hend & E).
  fold result in Hb, E; fold screen in E.
  assert (Hshown : ls_restaurants screen = firstn (10 * (n + 1)) result).
  { rewrite E; cbn [ls_restaurants].
    destruct Hend as [->|Hend]; [f_equal; lia|].
    apply firstn_past; lia. }
  split; [exact Hshown|].
  intros Hall; split.
  - rewrite Hshown; now apply firstn_all2.
  - unfold loadMore; rewrite E; cbn [ls_hasMore].
    replace (Z.of_nat j <? pages) with false; [reflexivity|].
    symmetry; apply Z.ltb_ge.
    destruct Hend as [->|Hend]; lia.
Qed.

(* ===================================================================== *)
(** ** The further statements on the sample states                   *)
(* ===================================================================== *)



Lemma strcmp_ordering : ordering strcmp.
Proof.
  split; [|exact (proj2 strcmp_consistent)].
  intros a b; unfold strcmp; rewrite (String.compare_antisym a b).
  now destruct (String.compare b a).
Qed.

Lemma sample_db_emails : NoDup (map user_email (users sample_db)).
Proof.
  simpl; repeat constructor; simpl; intuition discriminate.
Qed.

Lemma sample_db_fresh_ids : fresh_ids sample_db.
Proof.
  intros r Hr; simpl in Hr.
  repeat (destruct Hr as [<-|Hr]; [simpl; lia|]); contradiction.
Qed.

Lemma sample_db_well_formed : well_formed sample_db.
Proof.
  split; [exact sample_db_primary_key|split; [exact sample_db_fresh_ids|]].
  intros r Hr; simpl in Hr.
  destruct Hr as [<-|[<-|[<-|[<-|[]]]]]; simpl; split;
    eauto 10 using in_eq, in_cons.
Qed.

Lemma sample_db_in_bounds : Forall in_bounds (reservations sample_db).
Proof.
  simpl; repeat constructor; simpl; lia.
Qed.

Lemma register_duplicate_email_witness :
  mysql sample_server = Some sample_db
  /\ @validate_register node_platform alice_again = []
  /\ In (@normalizeEmail node_platform (rb_email alice_again))
        (map user_email (users sample_db))
  /\ @register node_platform node_hashing carol_draw alice_again
       sample_server
     = (failure 409 "User with this email already exists", sample_server).
Proof.
  assert (H1 : mysql sample_server = Some sample_db) by reflexivity.
  assert (H2 : @validate_register node_platform alice_again = [])
    by reflexivity.
  assert (H3 : In (@normalizeEmail node_platform (rb_email alice_again))
                  (map user_email (users sample_db)))
    by (simpl; auto).
  refine (conj H1 (conj H2 (conj H3 _))).
  exact (proj1 (@register_duplicate_email node_platform node_hashing
                  carol_draw alice_again sample_server sample_db H1 H2 H3)).
Defined.

Lemma register_then_login_witness :
  mysql sample_server = Some sample_db
  /\ @validate_register node_platform carol_registers = []
  /\ ~ In (@normalizeEmail node_platform (rb_email carol_registers))
          (map user_email (users sample_db))
  /\ ~ In (insertId carol_draw) (map user_id_ (users sample_db))
  /\ code (fst (@register node_platform node_hashing carol_draw
                  carol_registers sample_server)) = 201
  /\ code (fst (@login node_platform
                  {| lb_email := "Carol@Example.com";
                     lb_password := JStr "s3cret!" |}
                  (snd (@register node_platform node_hashing carol_draw
                          carol_registers sample_server)))) = 200.
Proof.
  assert (H1 : mysql sample_server = Some sample_db) by reflexivity.
  assert (H2 : @validate_register node_platform carol_registers = [])
    by reflexivity.
  assert (H3 : ~ In (@normalizeEmail node_platform (rb_email carol_registers))
                    (map user_email (users sample_db)))
    by (simpl; intuition discriminate).
  assert (H4 : ~ In (insertId carol_draw) (map user_id_ (users sample_db)))
    by (simpl; intuition discriminate).
  assert (H5 : @bcrypt_compare node_platform (rb_password carol_registers)
                 (@bcrypt_hash node_hashing (salt carol_draw)
                    (rb_password carol_registers)) = true)
    by reflexivity.
  pose proof (@register_then_login node_platform node_hashing carol_draw
                carol_registers sample_server sample_db H1 H2 H3 H4 H5)
    as (Hreg & _ & Hlogin).
  refine (conj H1 (conj H2 (conj H3 (conj H4 _)))).
  split.
  - exact (f_equal (fun r => code r) Hreg).
  - exact (f_equal (fun r => code (fst r)) Hlogin).
Defined.

Lemma register_keeps_emails_distinct_witness :
  mysql sample_server = Some sample_db
  /\ NoDup (map user_email (users sample_db))
  /\ exists db',
       mysql (snd (@register node_platform node_hashing carol_draw
                     carol_registers sample_server)) = Some db'
       /\ NoDup (map user_email (users db'))
       /\ (forall u, In u (users sample_db) -> In u (users db'))
       /\ restaurants db' = restaurants sample_db
       /\ reservations db' = reservations sample_db.
Proof.
  assert (H1 : mysql sample_server = Some sample_db) by reflexivity.
  refine (conj H1 (conj sample_db_emails _)).
  exact (@register_keeps_emails_distinct node_platform node_hashing
           carol_draw carol_registers sample_server sample_db H1
           sample_db_emails).
Defined.

Lemma cuisines_and_locations_are_sorted_sets_witness :
  isUsingInMemory fallback_server = true
  /\ @get_cuisines node_platform fallback_server
     = (ok (DStrings ["American"; "French"; "Indian"; "Italian"; "Japanese";
                      "Seafood"]), fallback_server).
Proof.
  assert (H1 : isUsingInMemory fallback_server = true) by reflexivity.
  refine (conj H1 _).
  exact (proj1 (@cuisines_and_locations_are_sorted_sets node_platform
                  fallback_server H1)).
Defined.

Lemma restaurant_lookup_agrees_witness :
  isUsingInMemory fallback_server = true
  /\ isUsingInMemory sample_server = false
  /\ mysql sample_server = Some sample_db
  /\ restaurants sample_db = inMemoryRestaurants fallback_server
  /\ parseInt "3" = Some 3
  /\ (forall k, @sql_number_eq node_platform k "3" = (k =? 3))
  /\ fst (@get_restaurant node_platform "3" fallback_server)
     = fst (@get_restaurant node_platform "3" sample_server)
  /\ fst (@get_restaurant node_platform "3" fallback_server)
     = ok (DRestaurant (sample 2)).
Proof.
  assert (H1 : isUsingInMemory fallback_server = true) by reflexivity.
  assert (H2 : isUsingInMemory sample_server = false) by reflexivity.
  assert (H3 : mysql sample_server = Some sample_db) by reflexivity.
  assert (H4 : restaurants sample_db = inMemoryRestaurants fallback_server)
    by reflexivity.
  assert (H5 : parseInt "3" = Some 3) by reflexivity.
  assert (H6 : forall k, @sql_number_eq node_platform k "3" = (k =? 3))
    by reflexivity.
  refine (conj H1 (conj H2 (conj H3 (conj H4 (conj H5 (conj H6 _)))))).
  split; [|reflexivity].
  exact (proj1 (@restaurant_lookup_agrees node_platform "3" 3
                  fallback_server sample_server sample_db
                  H1 H2 H3 H4 H5 H6)).
Defined.

Lemma page_past_the_end_is_empty_witness :
  1 <= page_or_default (q_page third_page)
  /\ 0 <= limit_or_default (q_limit third_page)
  /\ (isUsingInMemory fallback_server = true
      \/ mysql fallback_server <> None)
  /\ Z.of_nat (List.length
                 (@catalogue_result node_platform third_page fallback_server))
     <= (page_or_default (q_page third_page) - 1)
        * limit_or_default (q_limit third_page)
  /\ items_of (fst (@get_restaurants node_platform third_page
                      fallback_server)) = [].
Proof.
  assert (H1 : 1 <= page_or_default (q_page third_page)) by (simpl; lia).
  assert (H2 : 0 <= limit_or_default (q_limit third_page)) by (simpl; lia).
  assert (H3 : isUsingInMemory fallback_server = true
               \/ mysql fallback_server <> None) by (left; reflexivity).
  assert (H4 : Z.of_nat (List.length
                 (@catalogue_result node_platform third_page fallback_server))
               <= (page_or_default (q_page third_page) - 1)
                  * limit_or_default (q_limit third_page))
    by (vm_compute; discriminate).
  refine (conj H1 (conj H2 (conj H3 (conj H4 _)))).
  exact (proj1 (proj2 (@page_past_the_end_is_empty node_platform third_page
                         fallback_server H1 H2 H3 H4))).
Defined.

Lemma create_then_get_witness :
  mysql sample_server = Some sample_db
  /\ @validate_create node_platform (booking "2030-01-15") = []
  /\ In (sample 0) (restaurants sample_db)
  /\ In alice (users sample_db)
  /\ @date_lt (@new_Date node_platform (b_date (booking "2030-01-15")))
       (today_midnight env_athens) = false
  /\ fresh_ids sample_db
  /\ exists t n,
       sql_text (b_time (booking "2030-01-15")) = Some t
       /\ sql_int (b_people_count (booking "2030-01-15")) = Some n
       /\ rows_of (fst (get_reservation 1 5
                          (snd (@create_reservation node_platform env_athens
                                  1 (booking "2030-01-15") sample_server))))
          = [new_reservation env_athens 1 (booking "2030-01-15") (sample 0)
               "2030-01-15" t n sample_db].
Proof.
  assert (H1 : mysql sample_server = Some sample_db) by reflexivity.
  assert (H2 : @validate_create node_platform (booking "2030-01-15") = [])
    by reflexivity.
  assert (H3 : In (sample 0) (restaurants sample_db)) by (simpl; auto).
  assert (H4 : sql_int (b_restaurant_id (booking "2030-01-15"))
               = Some (rest_id (sample 0))) by reflexivity.
  assert (H5 : In alice (users sample_db)) by (simpl; auto).
  assert (H6 : user_id_ alice = 1) by reflexivity.
  assert (H7 : b_date (booking "2030-01-15") = JStr "2030-01-15")
    by reflexivity.
  assert (H8 : @date_lt (@new_Date node_platform
                           (b_date (booking "2030-01-15")))
                 (today_midnight env_athens) = false)
    by (vm_compute; reflexivity).
  refine (conj H1 (conj H2 (conj H3 (conj H5 (conj H8
            (conj sample_db_fresh_ids _)))))).
  destruct (@create_then_get node_platform env_athens 1 (booking "2030-01-15")
              sample_server sample_db (sample 0) alice "2030-01-15"
              H1 H2 H3 H4 H5 H6 H7 H8 sample_db_fresh_ids)
    as (t & n & Ht & Hn & _ & _ & _ & Hget).
  exists t, n; exact (conj Ht (conj Hn Hget)).
Defined.

Lemma create_unknown_restaurant_witness :
  mysql sample_server = Some sample_db
  /\ @validate_create node_platform booking_nowhere = []
  /\ (forall x, In x (restaurants sample_db) ->
        sql_int (b_restaurant_id booking_nowhere) <> Some (rest_id x))
  /\ @create_reservation node_platform env_athens 1 booking_nowhere
       sample_server
     = (failure 404 "Restaurant not found", sample_server).
Proof.
  assert (H1 : mysql sample_server = Some sample_db) by reflexivity.
  assert (H2 : @validate_create node_platform booking_nowhere = [])
    by reflexivity.
  assert (H3 : forall x, In x (restaurants sample_db) ->
                 sql_int (b_restaurant_id booking_nowhere)
                 <> Some (rest_id x)).
  { intros x Hx; simpl in Hx.
    repeat (destruct Hx as [<-|Hx]; [discriminate|]); contradiction. }
  refine (conj H1 (conj H2 (conj H3 _))).
  exact (proj1 (@create_unknown_restaurant node_platform env_athens 1
                  booking_nowhere sample_server sample_db H1 H2 H3)).
Defined.

Lemma writes_keep_the_store_well_formed_witness :
  mysql sample_server = Some sample_db
  /\ well_formed sample_db
  /\ exists db',
       mysql (snd (@create_reservation node_platform env_athens 1
                     (booking "2030-01-15") sample_server)) = Some db'
       /\ well_formed db'
       /\ users db' = users sample_db
       /\ restaurants db' = restaurants sample_db.
Proof.
  assert (H1 : mysql sample_server = Some sample_db) by reflexivity.
  refine (conj H1 (conj sample_db_well_formed _)).
  exact (proj1 (@writes_keep_the_store_well_formed node_platform env_athens
                  1 1 (booking "2030-01-15") sample_server sample_db H1
                  sample_db_well_formed)).
Defined.


Lemma others_are_untouched_witness :
  mysql sample_server = Some sample_db
  /\ primary_key sample_db
  /\ exists db',
       mysql (snd (cancel_reservation env_athens 1 4 sample_server))
       = Some db'
       /\ of_others 1 db' = of_others 1 sample_db.
Proof.
  assert (H1 : mysql sample_server = Some sample_db) by reflexivity.
  refine (conj H1 (conj sample_db_primary_key _)).
  exact (proj2 (proj2 (@others_are_untouched node_platform env_athens 1 4
                         party_of_six sample_server sample_db H1
                         sample_db_primary_key))).
Defined.

Lemma listing_is_newest_first_witness :
  ordering (@sql_datecmp node_platform)
  /\ ordering (@sql_timecmp node_platform)
  /\ (0 < 2)%nat
  /\ nth_error (reservations_of (fst (@list_reservations node_platform 1
                                        my_reservations sample_server))) 0
     = Some (shown (mkReservation 3 1 3 "2030-02-01" "18:00" 6 cancelled) 2)
  /\ nth_error (reservations_of (fst (@list_reservations node_platform 1
                                        my_reservations sample_server))) 2
     = Some (shown (mkReservation 2 1 2 "2024-12-24" "20:00" 2 completed) 1)
  /\ @listed_before node_platform
       (mkReservation 3 1 3 "2030-02-01" "18:00" 6 cancelled)
       (mkReservation 2 1 2 "2024-12-24" "20:00" 2 completed).
Proof.
  assert (H1 : ordering (@sql_datecmp node_platform))
    by exact strcmp_ordering.
  assert (H2 : ordering (@sql_timecmp node_platform))
    by exact strcmp_ordering.
  assert (H3 : (0 < 2)%nat) by lia.
  assert (H4 : nth_error (reservations_of (fst (@list_reservations
                  node_platform 1 my_reservations sample_server))) 0
               = Some (shown (mkReservation 3 1 3 "2030-02-01" "18:00" 6
                                cancelled) 2)) by reflexivity.
  assert (H5 : nth_error (reservations_of (fst (@list_reservations
                  node_platform 1 my_reservations sample_server))) 2
               = Some (shown (mkReservation 2 1 2 "2024-12-24" "20:00" 2
                                completed) 1)) by reflexivity.
  refine (conj H1 (conj H2 (conj H3 (conj H4 (conj H5 _))))).
  exact (@listing_is_newest_first node_platform 1 my_reservations
           sample_server 0 2 _ _ H1 H2 H3 H4 H5).
Defined.

Lemma stored_fields_stay_in_bounds_witness :
  mysql sample_server = Some sample_db
  /\ Forall in_bounds (reservations sample_db)
  /\ exists db',
       mysql (snd (@update_reservation node_platform env_athens 1 1
                     party_of_six sample_server)) = Some db'
       /\ Forall in_bounds (reservations db').
Proof.
  assert (H1 : mysql sample_server = Some sample_db) by reflexivity.
  refine (conj H1 (conj sample_db_in_bounds _)).
  exact (proj1 (proj2 (@stored_fields_stay_in_bounds node_platform
                         env_athens 1 1 party_of_six sample_server
                         sample_db H1 sample_db_in_bounds))).
Defined.

Lemma edit_form_request_fits_the_server_witness :
  handleUpdateReservation
    (Some (mkReservation 1 1 1 "2030-01-15" "19:30" 4 confirmed))
    form_for_six
  = PutReservation 1 party_and_day
  /\ @validate_update node_platform party_and_day = [].
Proof.
  assert (H1 : handleUpdateReservation
                 (Some (mkReservation 1 1 1 "2030-01-15" "19:30" 4
                          confirmed)) form_for_six
               = PutReservation 1 party_and_day) by reflexivity.
  refine (conj H1 _).
  exact (eq_trans
           (proj1 (proj2 (@edit_form_request_fits_the_server node_platform
                            _ form_for_six 1 party_and_day H1)))
           eq_refl).
Defined.

Lemma edit_form_keeps_special_requests_witness :
  handleUpdateReservation
    (Some (mkReservation 1 1 1 "2030-01-15" "19:30" 4 confirmed))
    form_for_six
  = PutReservation 1 party_and_day
  /\ ed_special_requests form_for_six = ""
  /\ mysql sample_server = Some sample_db
  /\ exists db',
       mysql (snd (@update_reservation node_platform env_athens 1 1
                     party_and_day sample_server)) = Some db'
       /\ map special_requests (reservations db')
          = map special_requests (reservations sample_db).
Proof.
  assert (H1 : handleUpdateReservation
                 (Some (mkReservation 1 1 1 "2030-01-15" "19:30" 4
                          confirmed)) form_for_six
               = PutReservation 1 party_and_day) by reflexivity.
  assert (H2 : ed_special_requests form_for_six = "") by reflexivity.
  assert (H3 : mysql sample_server = Some sample_db) by reflexivity.
  refine (conj H1 (conj H2 (conj H3 _))).
  exact (@edit_form_keeps_special_requests node_platform env_athens 1 _
           form_for_six 1 party_and_day sample_server sample_db H1 H2 H3).
Defined.

Lemma list_screen_pages_through_the_result_witness :
  (isUsingInMemory fallback_server = true \/ mysql fallback_server <> None)
  /\ map rest_id
       (ls_restaurants (@scrolled node_platform 1 "new york" fallback_server
                          empty_screen))
     = [1; 5].
Proof.
  assert (H1 : isUsingInMemory fallback_server = true
               \/ mysql fallback_server <> None) by (left; reflexivity).
  refine (conj H1 _).
  exact (eq_trans
           (f_equal (map rest_id)
              (proj1 (@list_screen_pages_through_the_result node_platform 1
                        "new york" fallback_server empty_screen H1)))
           eq_refl).
Defined.
